(** * Conversational checkout: sessions, tool handlers and the chat turn

    A shallow embedding of [src/services/checkout-agent.service.ts]
    (class [CheckoutAgentService]) together with the part of
    [src/services/user-profile.service.ts] (class [UserProfileService]) that
    the checkout agent calls, and the session-creation route of
    [src/index.ts].

    Conventions of the embedding:
    - monetary amounts and quantities are JavaScript numbers that hold
      integers (minor currency units); they are modelled as [Z];
    - [Map<string, _>] is a [gmap string _]; arrays are lists, indexed with
      stdpp's lookup, insert and delete;
    - an [async] method is a computation in the monad [M]: it threads the
      mutable objects it can reach and either returns a value or throws an
      [Error] with a message.  State written before a throw stays written, as
      in JavaScript;
    - the payment gateway, the e-commerce platform and the language model are
      external: each answer is taken from an oracle indexed by a call counter
      (the [clock] of the state), so that two calls with the same arguments
      may be answered differently. *)

From Stdlib Require Import ZArith String List Lia DecimalString.
From stdpp Require Import gmap strings list.

Local Open Scope string_scope.
Local Open Scope Z_scope.

(** ** JavaScript values used by the service *)

(** [`${n}`] for an integer number [n]. *)
Definition show_Z (n : Z) : string := NilZero.string_of_int (Z.to_int n).

(** [`${x}`] for a value that may be [undefined]. *)
Definition show_opt (o : option string) : string :=
  match o with Some s => s | None => "undefined" end.

(** Truthiness of an optional string: [undefined] and [''] are falsy. *)
Definition truthy (o : option string) : option string :=
  match o with
  | Some s => if decide (s = EmptyString) then None else Some s
  | None => None
  end.

(** [a || b] on optional strings. *)
Definition or_else (o : option string) (d : string) : string :=
  match truthy o with Some s => s | None => d end.

(** [n || d] on numbers: [0] (and a missing number, read as [0]) is falsy. *)
Definition num_or (n d : Z) : Z := if decide (n = 0) then d else n.

(** ** Outcomes and the monad of async methods *)

Inductive outcome (A : Type) : Type :=
| Returned (a : A)
| Thrown (message : string).
Arguments Returned {A} a.
Arguments Thrown {A} message.

Definition M (S A : Type) : Type := S -> S * outcome A.

Definition ret {S A} (a : A) : M S A := fun s => (s, Returned a).
Definition throw {S A} (message : string) : M S A := fun s => (s, Thrown message).
Definition bind {S A B} (m : M S A) (k : A -> M S B) : M S B :=
  fun s => match m s with
           | (s', Returned a) => k a s'
           | (s', Thrown e) => (s', Thrown e)
           end.
Definition try_catch {S A} (m : M S A) (handler : string -> M S A) : M S A :=
  fun s => match m s with
           | (s', Returned a) => (s', Returned a)
           | (s', Thrown e) => handler e s'
           end.
Definition gets {S A} (f : S -> A) : M S A := fun s => (s, Returned (f s)).
Definition modify {S} (f : S -> S) : M S unit := fun s => (f s, Returned tt).

Notation "'let*' x ':=' c1 'in' c2" := (bind c1 (fun x => c2))
  (at level 10, x pattern, c1 at level 100, c2 at level 200).

(** ** Data model ([checkout-agent.service.ts], lines 6-32) *)

Inductive SessionStatus : Type := active | pending_payment | completed | cancelled.

Inductive Role : Type := user | assistant.

Record Message : Type := { role : Role; content : string }.

Module CartItem.
Record t : Type := mk {
  id : string;
  name : string;
  description : option string;
  price : Z;
  quantity : Z
}.
Definition with_quantity (q : Z) (i : t) : t :=
    mk (id i) (name i) (description i) (price i) q.
End CartItem.

Record CheckoutSession : Type := {
  sessionId : string;
  customerId : option string;
  userId : option string;
  cart : list CartItem.t;
  totalAmount : Z;
  currency : string;
  conversationHistory : list Message;
  paymentMethod : option string;
  status : SessionStatus;
  shippingAddressId : option string;
  billingAddressId : option string;
  paymentMethodId : option string
}.

#[global] Instance SessionStatus_eq_dec : EqDecision SessionStatus.
Proof. solve_decision. Defined.
#[global] Instance Role_eq_dec : EqDecision Role.
Proof. solve_decision. Defined.
#[global] Instance Message_eq_dec : EqDecision Message.
Proof. solve_decision. Defined.
#[global] Instance CartItem_eq_dec : EqDecision CartItem.t.
Proof. solve_decision. Defined.

(** Field assignments [session.f = v]. *)
Definition set_status (v : SessionStatus) (s : CheckoutSession) : CheckoutSession :=
  {| sessionId := sessionId s; customerId := customerId s; userId := userId s;
     cart := cart s; totalAmount := totalAmount s; currency := currency s;
     conversationHistory := conversationHistory s; paymentMethod := paymentMethod s;
     status := v; shippingAddressId := shippingAddressId s;
     billingAddressId := billingAddressId s; paymentMethodId := paymentMethodId s |}.
Definition set_cart (v : list CartItem.t) (s : CheckoutSession) : CheckoutSession :=
  {| sessionId := sessionId s; customerId := customerId s; userId := userId s;
     cart := v; totalAmount := totalAmount s; currency := currency s;
     conversationHistory := conversationHistory s; paymentMethod := paymentMethod s;
     status := status s; shippingAddressId := shippingAddressId s;
     billingAddressId := billingAddressId s; paymentMethodId := paymentMethodId s |}.
Definition set_totalAmount (v : Z) (s : CheckoutSession) : CheckoutSession :=
  {| sessionId := sessionId s; customerId := customerId s; userId := userId s;
     cart := cart s; totalAmount := v; currency := currency s;
     conversationHistory := conversationHistory s; paymentMethod := paymentMethod s;
     status := status s; shippingAddressId := shippingAddressId s;
     billingAddressId := billingAddressId s; paymentMethodId := paymentMethodId s |}.
Definition set_conversationHistory (v : list Message) (s : CheckoutSession) : CheckoutSession :=
  {| sessionId := sessionId s; customerId := customerId s; userId := userId s;
     cart := cart s; totalAmount := totalAmount s; currency := currency s;
     conversationHistory := v; paymentMethod := paymentMethod s;
     status := status s; shippingAddressId := shippingAddressId s;
     billingAddressId := billingAddressId s; paymentMethodId := paymentMethodId s |}.
Definition set_shippingAddressId (v : option string) (s : CheckoutSession) : CheckoutSession :=
  {| sessionId := sessionId s; customerId := customerId s; userId := userId s;
     cart := cart s; totalAmount := totalAmount s; currency := currency s;
     conversationHistory := conversationHistory s; paymentMethod := paymentMethod s;
     status := status s; shippingAddressId := v;
     billingAddressId := billingAddressId s; paymentMethodId := paymentMethodId s |}.
Definition set_billingAddressId (v : option string) (s : CheckoutSession) : CheckoutSession :=
  {| sessionId := sessionId s; customerId := customerId s; userId := userId s;
     cart := cart s; totalAmount := totalAmount s; currency := currency s;
     conversationHistory := conversationHistory s; paymentMethod := paymentMethod s;
     status := status s; shippingAddressId := shippingAddressId s;
     billingAddressId := v; paymentMethodId := paymentMethodId s |}.
Definition set_paymentMethodId (v : option string) (s : CheckoutSession) : CheckoutSession :=
  {| sessionId := sessionId s; customerId := customerId s; userId := userId s;
     cart := cart s; totalAmount := totalAmount s; currency := currency s;
     conversationHistory := conversationHistory s; paymentMethod := paymentMethod s;
     status := status s; shippingAddressId := shippingAddressId s;
     billingAddressId := billingAddressId s; paymentMethodId := v |}.

(** ** The payment gateway ([omise.service.ts]) *)

(** The objects the gateway answers with are untyped in the source; these are
    the fields the checkout agent reads. *)
Module Charge.
Record t : Type := mk {
  id : string;
  status : string;
  failure_message : option string;
  authorize_uri : option string;
  amount : Z;
  currency : string
}.
End Charge.

Module Source.
Record t : Type := mk {
  id : string;
  (** [source.scannable_code?.image?.download_uri] *)
  download_uri : option string
}.
End Source.

Module ChargeParams.
Record t : Type := mk {
  amount : Z;
  currency : string;
  description : string;
  source : option string;
  (** [metadata: { sessionId, items: JSON.stringify(session.cart) }] *)
  metadata : option (string * list CartItem.t);
  return_uri : option string
}.
End ChargeParams.

Module SourceParams.
Record t : Type := mk { type : string; amount : Z; currency : string }.
End SourceParams.

(** ** The e-commerce platform ([ecommerce-platform.interface.ts]) *)

Module Product.
Record t : Type := mk {
  id : string;
  sku : string;
  name : string;
  description : string;
  price : Z;
  currency : string;
  stock : Z
}.
End Product.

(** The active platform behind [EcommercePlatformManager]; every call may
    throw (no active platform, HTTP failure). *)
Record EcommercePlatformManager : Type := {
  getProduct : nat -> string -> outcome Product.t;
  searchProductBySku_ : nat -> string -> outcome (option Product.t);
  listProducts_ : nat -> Z -> option string -> outcome (list Product.t)
}.

(** ** Saved profiles ([user-profile.service.ts], lines 8-71)

    Dates are the value of the call counter when they are written; the
    [preferences] object is flattened into the profile. *)

Inductive PaymentMethodType : Type := card | promptpay | internet_banking | mobile_banking.

#[global] Instance PaymentMethodType_eq_dec : EqDecision PaymentMethodType.
Proof. solve_decision. Defined.

Definition show_PaymentMethodType (t : PaymentMethodType) : string :=
  match t with
  | card => "card"
  | promptpay => "promptpay"
  | internet_banking => "internet_banking"
  | mobile_banking => "mobile_banking"
  end.

Module PaymentMethod.
Record t : Type := mk {
  id : string;
  type : PaymentMethodType;
  isDefault : bool;
  cardToken : option string;
  cardBrand : option string;
  cardLastDigits : option string;
  cardExpiryMonth : option string;
  cardExpiryYear : option string;
  cardHolderName : option string;
  bankCode : option string;
  phoneNumber : option string;
  createdAt : nat
}.
Definition with_isDefault (b : bool) (m : t) : t :=
    mk (id m) (type m) b (cardToken m) (cardBrand m) (cardLastDigits m)
       (cardExpiryMonth m) (cardExpiryYear m) (cardHolderName m) (bankCode m)
       (phoneNumber m) (createdAt m).
End PaymentMethod.

Module SavedAddress.
Record t : Type := mk {
  id : string;
  label : option string;
  isDefault : bool;
  firstName : string;
  lastName : string;
  address1 : string;
  address2 : option string;
  city : string;
  state : string;
  postalCode : string;
  country : string;
  phone : option string
}.
Definition with_isDefault (b : bool) (a : t) : t :=
    mk (id a) (label a) b (firstName a) (lastName a) (address1 a) (address2 a)
       (city a) (state a) (postalCode a) (country a) (phone a).
End SavedAddress.

Module UserProfile.
Record t : Type := mk {
  id : string;
  email : string;
  firstName : string;
  lastName : string;
  phone : option string;
  shippingAddresses : list SavedAddress.t;
  billingAddresses : list SavedAddress.t;
  paymentMethods : list PaymentMethod.t;
  defaultShippingAddressId : option string;
  defaultBillingAddressId : option string;
  defaultPaymentMethodId : option string;
  updatedAt : nat;
  lastCheckoutAt : option nat;
  totalOrders : Z;
  totalSpent : Z
}.
Definition with_shipping (l : list SavedAddress.t) (d : option string) (p : t) : t :=
  mk (id p) (email p) (firstName p) (lastName p) (phone p) l (billingAddresses p)
     (paymentMethods p) d (defaultBillingAddressId p) (defaultPaymentMethodId p)
     (updatedAt p) (lastCheckoutAt p) (totalOrders p) (totalSpent p).
Definition with_billing (l : list SavedAddress.t) (d : option string) (p : t) : t :=
  mk (id p) (email p) (firstName p) (lastName p) (phone p) (shippingAddresses p) l
     (paymentMethods p) (defaultShippingAddressId p) d (defaultPaymentMethodId p)
     (updatedAt p) (lastCheckoutAt p) (totalOrders p) (totalSpent p).
Definition with_payment (l : list PaymentMethod.t) (d : option string) (p : t) : t :=
  mk (id p) (email p) (firstName p) (lastName p) (phone p) (shippingAddresses p)
     (billingAddresses p) l (defaultShippingAddressId p) (defaultBillingAddressId p) d
     (updatedAt p) (lastCheckoutAt p) (totalOrders p) (totalSpent p).
Definition with_updatedAt (n : nat) (p : t) : t :=
  mk (id p) (email p) (firstName p) (lastName p) (phone p) (shippingAddresses p)
     (billingAddresses p) (paymentMethods p) (defaultShippingAddressId p)
     (defaultBillingAddressId p) (defaultPaymentMethodId p)
     n (lastCheckoutAt p) (totalOrders p) (totalSpent p).
Definition with_checkout (n : nat) (orders spent : Z) (p : t) : t :=
  mk (id p) (email p) (firstName p) (lastName p) (phone p) (shippingAddresses p)
     (billingAddresses p) (paymentMethods p) (defaultShippingAddressId p)
     (defaultBillingAddressId p) (defaultPaymentMethodId p)
     (updatedAt p) (Some n) orders spent.
End UserProfile.

Module AddAddressParams.
Record t : Type := mk {
  firstName : string;
  lastName : string;
  address1 : string;
  address2 : option string;
  city : string;
  state : string;
  postalCode : string;
  country : string;
  phone : option string;
  label : option string;
  isDefault : option bool
}.
End AddAddressParams.

Module AddPaymentMethodParams.
Record t : Type := mk {
  type : PaymentMethodType;
  cardToken : option string;
  cardBrand : option string;
  cardLastDigits : option string;
  cardExpiryMonth : option string;
  cardExpiryYear : option string;
  cardHolderName : option string;
  bankCode : option string;
  isDefault : option bool
}.
End AddPaymentMethodParams.

(** ** The language model's reply *)

(** The [input] object of a tool call.  A string the tool's schema requires
    is a [string]; an optional one is an [option string]; a missing number is
    read as [0] (every use of an optional number is [n || d], which treats
    both alike) and a missing boolean as [false] (used as [b || false]). *)
Record ToolInput : Type := {
  card_token : option string;
  bank : string;
  charge_id : string;
  sku : string;
  product_id : string;
  in_quantity : Z;
  cart_item_id : string;
  limit : Z;
  search : option string;
  first_name : string;
  last_name : string;
  in_address1 : string;
  in_address2 : option string;
  in_city : string;
  in_state : string;
  postal_code : string;
  in_country : string;
  in_phone : option string;
  in_label : option string;
  is_default : bool;
  in_type : PaymentMethodType;
  card_brand : option string;
  card_last_digits : option string;
  card_expiry_month : option string;
  card_expiry_year : option string;
  card_holder_name : option string;
  bank_code : option string;
  use_saved_payment : option bool
}.

Inductive ContentBlock : Type :=
| text (text : string)
| tool_use (name : string) (input : ToolInput)
| other_block.

(** ** The world outside the service *)

(** Answers of the collaborators.  The first argument is the value of the
    call counter when the call is made.  [anthropic_messages_create] receives
    the session, from which the system prompt, the message list and the tool
    list of the request are computed. *)
Record Externals : Type := {
  anthropic_messages_create : nat -> CheckoutSession -> outcome (list ContentBlock);
  createCharge : nat -> ChargeParams.t -> outcome Charge.t;
  createSource : nat -> SourceParams.t -> outcome Source.t;
  getCharge : nat -> string -> outcome Charge.t;
  ecommercePlatformManager : option EcommercePlatformManager;
  (** whether [userProfileService] was passed to the constructor *)
  userProfileService : bool;
  (** [`${Date.now()}_${Math.random().toString(36)...}`] *)
  random_id : nat -> string
}.

(** What a tool handler can reach: the session object it was handed, the
    profile store and the call counter. *)
Record Turn : Type := {
  session : CheckoutSession;
  profiles : gmap string UserProfile.t;
  clock : nat
}.

Definition on_session (f : CheckoutSession -> CheckoutSession) (t : Turn) : Turn :=
  {| session := f (session t); profiles := profiles t; clock := clock t |}.
Definition on_profiles (f : gmap string UserProfile.t -> gmap string UserProfile.t)
    (t : Turn) : Turn :=
  {| session := session t; profiles := f (profiles t); clock := clock t |}.
Definition tick (t : Turn) : Turn :=
  {| session := session t; profiles := profiles t; clock := S (clock t) |}.

(** An awaited call to a collaborator. *)
Definition call {A} (f : nat -> outcome A) : M Turn A :=
  fun t => (tick t, f (clock t)).

(** Reading the clock for a timestamp or a fresh identifier. *)
Definition now : M Turn nat := fun t => (tick t, Returned (clock t)).

(** ** [UserProfileService] ([user-profile.service.ts]) *)

Module UserProfileService.
Section WithExternals.
Variable ext : Externals.

(** Lines 114-116. *)
Definition getProfile (userId : string) : M Turn (option UserProfile.t) :=
  gets (fun t => profiles t !! userId).

(** The quick-checkout result object (lines 466-470). *)
Record QuickCheckoutData : Type := {
  shippingAddress : option SavedAddress.t;
  billingAddress : option SavedAddress.t;
  paymentMethod : option PaymentMethod.t
}.

(** [a || b] on objects that may be [undefined] or [null]. *)
Definition or_obj {A} (a b : option A) : option A :=
  match a with Some x => Some x | None => b end.

(** Lines 155-181. *)
Definition addShippingAddress (userId : string) (address : AddAddressParams.t)
    : M Turn SavedAddress.t :=
  let* found := getProfile userId in
  match found with
  | None => throw ("Profile " ++ userId ++ " not found")
  | Some profile =>
    let* n := now in
    let addressId := "addr_" ++ random_id ext n in
    let savedAddress :=
      SavedAddress.mk addressId (AddAddressParams.label address)
        (default false (AddAddressParams.isDefault address))
        (AddAddressParams.firstName address) (AddAddressParams.lastName address)
        (AddAddressParams.address1 address) (AddAddressParams.address2 address)
        (AddAddressParams.city address) (AddAddressParams.state address)
        (AddAddressParams.postalCode address) (AddAddressParams.country address)
        (AddAddressParams.phone address) in
    let profile :=
      if SavedAddress.isDefault savedAddress
      then UserProfile.with_shipping
             (map (SavedAddress.with_isDefault false) (UserProfile.shippingAddresses profile))
             (Some addressId) profile
      else profile in
    let profile :=
      UserProfile.with_shipping (UserProfile.shippingAddresses profile ++ [savedAddress])
        (UserProfile.defaultShippingAddressId profile) profile in
    let* n' := now in
    let profile := UserProfile.with_updatedAt n' profile in
    let* _ := modify (on_profiles (insert userId profile)) in
    ret savedAddress
  end.

(** Lines 186-212. *)
Definition addBillingAddress (userId : string) (address : AddAddressParams.t)
    : M Turn SavedAddress.t :=
  let* found := getProfile userId in
  match found with
  | None => throw ("Profile " ++ userId ++ " not found")
  | Some profile =>
    let* n := now in
    let addressId := "addr_" ++ random_id ext n in
    let savedAddress :=
      SavedAddress.mk addressId (AddAddressParams.label address)
        (default false (AddAddressParams.isDefault address))
        (AddAddressParams.firstName address) (AddAddressParams.lastName address)
        (AddAddressParams.address1 address) (AddAddressParams.address2 address)
        (AddAddressParams.city address) (AddAddressParams.state address)
        (AddAddressParams.postalCode address) (AddAddressParams.country address)
        (AddAddressParams.phone address) in
    let profile :=
      if SavedAddress.isDefault savedAddress
      then UserProfile.with_billing
             (map (SavedAddress.with_isDefault false) (UserProfile.billingAddresses profile))
             (Some addressId) profile
      else profile in
    let profile :=
      UserProfile.with_billing (UserProfile.billingAddresses profile ++ [savedAddress])
        (UserProfile.defaultBillingAddressId profile) profile in
    let* n' := now in
    let profile := UserProfile.with_updatedAt n' profile in
    let* _ := modify (on_profiles (insert userId profile)) in
    ret savedAddress
  end.

(** Lines 293-320. *)
Definition addPaymentMethod (userId : string) (paymentMethod : AddPaymentMethodParams.t)
    : M Turn PaymentMethod.t :=
  let* found := getProfile userId in
  match found with
  | None => throw ("Profile " ++ userId ++ " not found")
  | Some profile =>
    let* n := now in
    let methodId := "pm_" ++ random_id ext n in
    let* created := now in
    let savedMethod :=
      PaymentMethod.mk methodId (AddPaymentMethodParams.type paymentMethod)
        (default false (AddPaymentMethodParams.isDefault paymentMethod))
        (AddPaymentMethodParams.cardToken paymentMethod)
        (AddPaymentMethodParams.cardBrand paymentMethod)
        (AddPaymentMethodParams.cardLastDigits paymentMethod)
        (AddPaymentMethodParams.cardExpiryMonth paymentMethod)
        (AddPaymentMethodParams.cardExpiryYear paymentMethod)
        (AddPaymentMethodParams.cardHolderName paymentMethod)
        (AddPaymentMethodParams.bankCode paymentMethod)
        None created in
    let profile :=
      if PaymentMethod.isDefault savedMethod
      then UserProfile.with_payment
             (map (PaymentMethod.with_isDefault false) (UserProfile.paymentMethods profile))
             (Some methodId) profile
      else profile in
    let profile :=
      UserProfile.with_payment (UserProfile.paymentMethods profile ++ [savedMethod])
        (UserProfile.defaultPaymentMethodId profile) profile in
    let* n' := now in
    let profile := UserProfile.with_updatedAt n' profile in
    let* _ := modify (on_profiles (insert userId profile)) in
    ret savedMethod
  end.

(** Lines 387-394. *)
Definition getDefaultShippingAddress (userId : string) : M Turn (option SavedAddress.t) :=
  let* found := getProfile userId in
  match found with
  | None => ret None
  | Some profile =>
    ret (or_obj (List.find SavedAddress.isDefault (UserProfile.shippingAddresses profile))
                (UserProfile.shippingAddresses profile !! 0%nat))
  end.

(** Lines 399-406. *)
Definition getDefaultBillingAddress (userId : string) : M Turn (option SavedAddress.t) :=
  let* found := getProfile userId in
  match found with
  | None => ret None
  | Some profile =>
    ret (or_obj (List.find SavedAddress.isDefault (UserProfile.billingAddresses profile))
                (UserProfile.billingAddresses profile !! 0%nat))
  end.

(** Lines 411-418. *)
Definition getDefaultPaymentMethod (userId : string) : M Turn (option PaymentMethod.t) :=
  let* found := getProfile userId in
  match found with
  | None => ret None
  | Some profile =>
    ret (or_obj (List.find PaymentMethod.isDefault (UserProfile.paymentMethods profile))
                (UserProfile.paymentMethods profile !! 0%nat))
  end.

(** Lines 423-435. *)
Definition recordCheckout (userId : string) (orderAmount : Z) : M Turn unit :=
  let* found := getProfile userId in
  match found with
  | None => throw ("Profile " ++ userId ++ " not found")
  | Some profile =>
    let* n := now in
    let profile :=
      UserProfile.with_checkout n (UserProfile.totalOrders profile + 1)
        (UserProfile.totalSpent profile + orderAmount) profile in
    let* n' := now in
    let profile := UserProfile.with_updatedAt n' profile in
    modify (on_profiles (insert userId profile))
  end.

(** Lines 466-485. *)
Definition getQuickCheckoutData (userId : string) : M Turn QuickCheckoutData :=
  let* found := getProfile userId in
  match found with
  | None => ret {| shippingAddress := None; billingAddress := None; paymentMethod := None |}
  | Some _ =>
    let* sa := getDefaultShippingAddress userId in
    let* ba := getDefaultBillingAddress userId in
    let* pm := getDefaultPaymentMethod userId in
    ret {| shippingAddress := sa; billingAddress := ba; paymentMethod := pm |}
  end.

End WithExternals.
End UserProfileService.

(** ** [CheckoutAgentService] ([checkout-agent.service.ts]) *)

(** The line feed of the template literals. *)
Definition nl : string := String (Ascii.ascii_of_nat 10) EmptyString.

(** Lines 610-612. *)
Definition calculateTotal (cart : list CartItem.t) : Z :=
  fold_left (fun sum item => sum + CartItem.price item * CartItem.quantity item) cart 0.

(** [(amount / 100).toFixed(2)] for an integer [amount] that a JavaScript
    number holds exactly (below [2^53] in absolute value). *)
Definition toFixed2_cents (amount : Z) : string :=
  let a := Z.abs amount in
  (if amount <? 0 then "-" else EmptyString) ++ show_Z (a / 100) ++ "."
  ++ (if a mod 100 <? 10 then "0" else EmptyString) ++ show_Z (a mod 100).

(** Lines 617-620. *)
Definition formatAmount (amount : Z) (currency : string) : string :=
  toFixed2_cents amount ++ " " ++ currency.

(** The service object: its session map, and the profile store and call
    counter it shares with every turn. *)
Record Agent : Type := {
  sessions : gmap string CheckoutSession;
  agent_profiles : gmap string UserProfile.t;
  agent_clock : nat
}.

(** The argument of [createCharge] in [processCardPayment] (lines 524-533). *)
Definition card_charge_request (s : CheckoutSession) (cardToken : option string)
    : ChargeParams.t :=
  ChargeParams.mk (totalAmount s) (currency s) ("Order payment - Session " ++ sessionId s)
    cardToken (Some (sessionId s, cart s)) None.

(** The argument of [createCharge] for a charge against a source (lines
    553-559 and 586-592). *)
Definition source_charge_request (s : CheckoutSession) (source : Source.t)
    : ChargeParams.t :=
  ChargeParams.mk (totalAmount s) (currency s) ("Order payment - Session " ++ sessionId s)
    (Some (Source.id source)) None
    (Some ("http://localhost:3000/checkout/callback/" ++ sessionId s)).

(** The argument of [createSource] in [createPromptPayPayment] (lines 547-551). *)
Definition promptpay_source_request (s : CheckoutSession) : SourceParams.t :=
  SourceParams.mk "promptpay" (totalAmount s) (currency s).

(** Lines 573-578 (own keys of the object literal only). *)
Definition bankTypes (bank : string) : option string :=
  if String.eqb bank "bbl" then Some "internet_banking_bbl"
  else if String.eqb bank "kbank" then Some "internet_banking_kbank"
  else if String.eqb bank "scb" then Some "internet_banking_scb"
  else if String.eqb bank "ktb" then Some "internet_banking_ktb"
  else None.

(** The argument of [createSource] in [createInternetBankingPayment] (lines
    580-584). *)
Definition bank_source_request (s : CheckoutSession) (bank : string) : SourceParams.t :=
  SourceParams.mk (or_else (bankTypes bank) "internet_banking_bbl")
    (totalAmount s) (currency s).

Section CheckoutAgentService.
Variable ext : Externals.

(** Lines 625-627. *)
Definition generateSessionId : M Agent string :=
  fun a => ({| sessions := sessions a; agent_profiles := agent_profiles a;
               agent_clock := S (agent_clock a) |},
            Returned ("sess_" ++ random_id ext (agent_clock a))).

(** Lines 63-79.  [currency] is [None] when the argument is omitted. *)
Definition createSession (cart : list CartItem.t) (currency : option string)
    (userId : option string) : M Agent CheckoutSession :=
  let* sessionId := generateSessionId in
  let totalAmount := calculateTotal cart in
  let session :=
    {| sessionId := sessionId; customerId := None; userId := userId; cart := cart;
       totalAmount := totalAmount; currency := default "THB" currency;
       conversationHistory := []; paymentMethod := None; status := active;
       shippingAddressId := None; billingAddressId := None;
       paymentMethodId := None |} in
  let* _ := modify (fun a => {| sessions := <[sessionId := session]> (sessions a);
                                agent_profiles := agent_profiles a;
                                agent_clock := agent_clock a |}) in
  ret session.

(** Lines 84-86. *)
Definition getSession (sessionId : string) : M Agent (option CheckoutSession) :=
  gets (fun a => sessions a !! sessionId).

(** Lines 520-541.  The declared type of [cardToken] is [string]; the value
    handed over by [handleToolCall] is whatever the model sent. *)
Definition processCardPayment (cardToken : option string) : M Turn string :=
  let* s := gets session in
  let* charge := call (fun n => createCharge ext n (card_charge_request s cardToken)) in
  if String.eqb (Charge.status charge) "successful" || String.eqb (Charge.status charge) "pending"
  then
    let* _ := modify (on_session (set_status
        (if String.eqb (Charge.status charge) "successful" then completed else pending_payment))) in
    ret ("Payment processed successfully! Charge ID: " ++ Charge.id charge
         ++ ", Status: " ++ Charge.status charge)
  else
    ret ("Payment failed: " ++ or_else (Charge.failure_message charge) "Unknown error").

(** Lines 546-564. *)
Definition createPromptPayPayment : M Turn string :=
  let* s := gets session in
  let* source := call (fun n => createSource ext n (promptpay_source_request s)) in
  let* charge := call (fun n => createCharge ext n (source_charge_request s source)) in
  let* _ := modify (on_session (set_status pending_payment)) in
  ret ("PromptPay QR code generated! Scan URL: "
       ++ show_opt (UserProfileService.or_obj (truthy (Source.download_uri source))
                      (Charge.authorize_uri charge))
       ++ nl ++ "Charge ID: " ++ Charge.id charge).

(** Lines 569-597. *)
Definition createInternetBankingPayment (bank : string) : M Turn string :=
  let* s := gets session in
  let* source := call (fun n => createSource ext n (bank_source_request s bank)) in
  let* charge := call (fun n => createCharge ext n (source_charge_request s source)) in
  let* _ := modify (on_session (set_status pending_payment)) in
  ret ("Internet banking payment created! Please visit: "
       ++ show_opt (Charge.authorize_uri charge)
       ++ nl ++ "Charge ID: " ++ Charge.id charge).

(** Lines 602-605. *)
Definition checkPaymentStatus (chargeId : string) : M Turn string :=
  let* charge := call (fun n => getCharge ext n chargeId) in
  ret ("Payment status: " ++ Charge.status charge ++ ", Amount: "
       ++ formatAmount (Charge.amount charge) (Charge.currency charge)).

(** Lines 634-646. *)
Definition searchProductBySku (sku : string) : M Turn string :=
  match ecommercePlatformManager ext with
  | None => ret "E-commerce platform integration is not available"
  | Some manager =>
    let* product := call (fun n => searchProductBySku_ manager n sku) in
    match product with
    | None => ret ("No product found with SKU: " ++ sku)
    | Some product =>
      ret ("Found product: " ++ Product.name product ++ nl
           ++ "SKU: " ++ Product.sku product ++ nl
           ++ "Price: " ++ formatAmount (Product.price product) (Product.currency product)
           ++ nl ++ "Stock: " ++ show_Z (Product.stock product) ++ nl
           ++ "Description: " ++ Product.description product)
    end
  end.

(** Lines 651-670. *)
Definition addProductToCart (productId : string) (quantity : Z) : M Turn string :=
  match ecommercePlatformManager ext with
  | None => ret "E-commerce platform integration is not available"
  | Some manager =>
    let* product := call (fun n => getProduct manager n productId) in
    let cartItem :=
      CartItem.mk (Product.id product) (Product.name product)
        (Some (Product.description product)) (Product.price product) quantity in
    let* _ := modify (on_session (fun s => set_cart (cart s ++ [cartItem]) s)) in
    let* _ := modify (on_session (fun s => set_totalAmount (calculateTotal (cart s)) s)) in
    let* s := gets session in
    ret ("Added " ++ show_Z quantity ++ "x " ++ Product.name product
         ++ " to cart. New total: " ++ formatAmount (totalAmount s) (currency s))
  end.

(** Lines 675-692. *)
Definition updateCartItem (cartItemId : string) (quantity : Z) : M Turn string :=
  let* s := gets session in
  match list_find (fun item => CartItem.id item = cartItemId) (cart s) with
  | None => ret ("Cart item with ID " ++ cartItemId ++ " not found")
  | Some (itemIndex, item) =>
    if decide (quantity = 0) then
      let removedItem := item in
      let* _ := modify (on_session (fun s => set_cart (delete itemIndex (cart s)) s)) in
      let* _ := modify (on_session (fun s => set_totalAmount (calculateTotal (cart s)) s)) in
      let* s := gets session in
      ret ("Removed " ++ CartItem.name removedItem ++ " from cart. New total: "
           ++ formatAmount (totalAmount s) (currency s))
    else
      let* _ := modify (on_session (fun s =>
          set_cart (alter (CartItem.with_quantity quantity) itemIndex (cart s)) s)) in
      let* _ := modify (on_session (fun s => set_totalAmount (calculateTotal (cart s)) s)) in
      let* s := gets session in
      ret ("Updated " ++ CartItem.name item ++ " quantity to " ++ show_Z quantity
           ++ ". New total: " ++ formatAmount (totalAmount s) (currency s))
  end.

(** Lines 697-713. *)
Definition listProducts (limit : Z) (search : option string) : M Turn string :=
  match ecommercePlatformManager ext with
  | None => ret "E-commerce platform integration is not available"
  | Some manager =>
    let* products := call (fun n => listProducts_ manager n limit search) in
    match products with
    | [] => ret "No products found"
    | _ =>
      let productList :=
        String.concat nl
          (map (fun p => "- " ++ Product.name p ++ " (SKU: " ++ Product.sku p ++ ") - "
                         ++ formatAmount (Product.price p) (Product.currency p)
                         ++ " - Stock: " ++ show_Z (Product.stock p)) products) in
      ret ("Available products:" ++ nl ++ productList)
    end
  end.

(** The object literal handed to [addShippingAddress] and
    [addBillingAddress] (lines 729-741 and 760-772). *)
Definition address_params (address : ToolInput) : AddAddressParams.t :=
  AddAddressParams.mk (first_name address) (last_name address) (in_address1 address)
    (in_address2 address) (in_city address) (in_state address) (postal_code address)
    (in_country address) (in_phone address) (in_label address)
    (Some (is_default address || false)).

(** Lines 720-746. *)
Definition saveShippingAddress (address : ToolInput) : M Turn string :=
  if negb (userProfileService ext) then ret "User profile service is not available"
  else
    let* s := gets session in
    match truthy (userId s) with
    | None =>
      ret "No user profile associated with this session. Please create a user profile first."
    | Some uid =>
      let* savedAddress :=
        UserProfileService.addShippingAddress ext uid (address_params address) in
      let* _ := modify (on_session
                  (set_shippingAddressId (Some (SavedAddress.id savedAddress)))) in
      ret ("Shipping address saved successfully! "
           ++ (if SavedAddress.isDefault savedAddress then "(Set as default)" else EmptyString)
           ++ nl ++ "Address ID: " ++ SavedAddress.id savedAddress)
    end.

(** Lines 751-777. *)
Definition saveBillingAddress (address : ToolInput) : M Turn string :=
  if negb (userProfileService ext) then ret "User profile service is not available"
  else
    let* s := gets session in
    match truthy (userId s) with
    | None =>
      ret "No user profile associated with this session. Please create a user profile first."
    | Some uid =>
      let* savedAddress :=
        UserProfileService.addBillingAddress ext uid (address_params address) in
      let* _ := modify (on_session
                  (set_billingAddressId (Some (SavedAddress.id savedAddress)))) in
      ret ("Billing address saved successfully! "
           ++ (if SavedAddress.isDefault savedAddress then "(Set as default)" else EmptyString)
           ++ nl ++ "Address ID: " ++ SavedAddress.id savedAddress)
    end.

(** One line of the address lists (lines 797 and 801). *)
Definition address_line (addr : SavedAddress.t) : string :=
  "- " ++ or_else (SavedAddress.label addr) "Address" ++ ": " ++ SavedAddress.address1 addr
  ++ ", " ++ SavedAddress.city addr ++ ", " ++ SavedAddress.state addr ++ " "
  ++ SavedAddress.postalCode addr
  ++ (if SavedAddress.isDefault addr then " (Default)" else EmptyString).

(** Lines 782-805. *)
Definition getSavedAddresses : M Turn string :=
  if negb (userProfileService ext) then ret "User profile service is not available"
  else
    let* s := gets session in
    match truthy (userId s) with
    | None => ret "No user profile associated with this session."
    | Some uid =>
      let* found := UserProfileService.getProfile uid in
      match found with
      | None => ret "User profile not found"
      | Some profile =>
        let shippingAddresses :=
          String.concat nl (map address_line (UserProfile.shippingAddresses profile)) in
        let billingAddresses :=
          String.concat nl (map address_line (UserProfile.billingAddresses profile)) in
        ret ("Shipping Addresses:" ++ nl ++ or_else (Some shippingAddresses) "None saved"
             ++ nl ++ nl ++ "Billing Addresses:" ++ nl
             ++ or_else (Some billingAddresses) "None saved")
      end
    end.

(** Lines 810-834. *)
Definition savePaymentMethod (paymentMethod : ToolInput) : M Turn string :=
  if negb (userProfileService ext) then ret "User profile service is not available"
  else
    let* s := gets session in
    match truthy (userId s) with
    | None =>
      ret "No user profile associated with this session. Please create a user profile first."
    | Some uid =>
      let* savedMethod :=
        UserProfileService.addPaymentMethod ext uid
          (AddPaymentMethodParams.mk (in_type paymentMethod) (card_token paymentMethod)
             (card_brand paymentMethod) (card_last_digits paymentMethod)
             (card_expiry_month paymentMethod) (card_expiry_year paymentMethod)
             (card_holder_name paymentMethod) (bank_code paymentMethod)
             (Some (is_default paymentMethod || false))) in
      let* _ := modify (on_session
                  (set_paymentMethodId (Some (PaymentMethod.id savedMethod)))) in
      ret ("Payment method saved successfully! "
           ++ (if PaymentMethod.isDefault savedMethod then "(Set as default)" else EmptyString)
           ++ nl ++ "Payment Method ID: " ++ PaymentMethod.id savedMethod)
    end.

(** Lines 839-876. *)
Definition getQuickCheckoutData : M Turn string :=
  if negb (userProfileService ext) then ret "User profile service is not available"
  else
    let* s := gets session in
    match truthy (userId s) with
    | None => ret "No user profile associated with this session."
    | Some uid =>
      let* checkoutData := UserProfileService.getQuickCheckoutData uid in
      let result := "Quick Checkout Data:" ++ nl ++ nl in
      let result :=
        match UserProfileService.shippingAddress checkoutData with
        | Some a =>
          result ++ "Shipping Address: " ++ SavedAddress.address1 a ++ ", "
          ++ SavedAddress.city a ++ ", " ++ SavedAddress.state a ++ nl
        | None => result ++ "Shipping Address: Not saved" ++ nl
        end in
      let result :=
        match UserProfileService.billingAddress checkoutData with
        | Some a =>
          result ++ "Billing Address: " ++ SavedAddress.address1 a ++ ", "
          ++ SavedAddress.city a ++ ", " ++ SavedAddress.state a ++ nl
        | None => result ++ "Billing Address: Not saved" ++ nl
        end in
      let result :=
        match UserProfileService.paymentMethod checkoutData with
        | Some pm =>
          if decide (PaymentMethod.type pm = card)
          then result ++ "Payment Method: " ++ or_else (PaymentMethod.cardBrand pm) "Card"
               ++ " ending in " ++ show_opt (PaymentMethod.cardLastDigits pm) ++ nl
          else result ++ "Payment Method: "
               ++ show_PaymentMethodType (PaymentMethod.type pm) ++ nl
        | None => result ++ "Payment Method: Not saved" ++ nl
        end in
      ret result
    end.

(** Lines 911-916: the end of [processQuickCheckout], reached after one of
    the payment handlers has returned [result]. *)
Definition recordQuickCheckout (uid : string) (result : string) : M Turn string :=
  let* s := gets session in
  let* _ :=
    if decide (status s = completed)
    then UserProfileService.recordCheckout uid (totalAmount s)
    else ret tt in
  ret ("Quick Checkout:" ++ nl ++ result).

(** Lines 881-917.  [useSavedPayment] is not read by the body. *)
Definition processQuickCheckout (useSavedPayment : option bool) : M Turn string :=
  if negb (userProfileService ext) then ret "User profile service is not available"
  else
    let* s := gets session in
    match truthy (userId s) with
    | None =>
      ret "No user profile associated with this session. Cannot process quick checkout."
    | Some uid =>
      let* checkoutData := UserProfileService.getQuickCheckoutData uid in
      match UserProfileService.paymentMethod checkoutData with
      | None => ret "No saved payment method found. Please add a payment method first."
      | Some paymentMethod =>
        match PaymentMethod.type paymentMethod,
              truthy (PaymentMethod.cardToken paymentMethod),
              truthy (PaymentMethod.bankCode paymentMethod) with
        | card, Some cardToken, _ =>
          let* result := processCardPayment (Some cardToken) in
          recordQuickCheckout uid result
        | promptpay, _, _ =>
          let* result := createPromptPayPayment in
          recordQuickCheckout uid result
        | internet_banking, _, Some bankCode =>
          let* result := createInternetBankingPayment bankCode in
          recordQuickCheckout uid result
        | _, _, _ => ret "Saved payment method is incomplete or invalid."
        end
      end
    end.

(** The [switch] of lines 464-511. *)
Definition dispatch (toolName : string) (input : ToolInput) : M Turn string :=
  if String.eqb toolName "process_card_payment" then processCardPayment (card_token input)
  else if String.eqb toolName "create_promptpay_payment" then createPromptPayPayment
  else if String.eqb toolName "create_internet_banking_payment"
    then createInternetBankingPayment (bank input)
  else if String.eqb toolName "check_payment_status" then checkPaymentStatus (charge_id input)
  else if String.eqb toolName "search_product_by_sku" then searchProductBySku (sku input)
  else if String.eqb toolName "add_product_to_cart"
    then addProductToCart (product_id input) (num_or (in_quantity input) 1)
  else if String.eqb toolName "update_cart_item"
    then updateCartItem (cart_item_id input) (in_quantity input)
  else if String.eqb toolName "list_products"
    then listProducts (num_or (limit input) 10) (search input)
  else if String.eqb toolName "save_shipping_address" then saveShippingAddress input
  else if String.eqb toolName "save_billing_address" then saveBillingAddress input
  else if String.eqb toolName "get_saved_addresses" then getSavedAddresses
  else if String.eqb toolName "save_payment_method" then savePaymentMethod input
  else if String.eqb toolName "get_quick_checkout_data" then getQuickCheckoutData
  else if String.eqb toolName "process_quick_checkout"
    then processQuickCheckout (use_saved_payment input)
  else ret ("Unknown tool: " ++ toolName).

(** Lines 458-515: the [switch] inside [try], and the [catch]. *)
Definition handleToolCall (toolName : string) (input : ToolInput) : M Turn string :=
  try_catch (dispatch toolName input) (fun message => ret ("Error: " ++ message)).

(** The loop of lines 119-133 over [response.content]. *)
Fixpoint process_content (response_content : list ContentBlock) (assistantMessage : string)
    : M Turn string :=
  match response_content with
  | [] => ret assistantMessage
  | text t :: rest => process_content rest (assistantMessage ++ t)
  | tool_use name input :: rest =>
    let* toolResult := handleToolCall name input in
    process_content rest (assistantMessage ++ nl ++ nl ++ toolResult)
  | other_block :: rest => process_content rest assistantMessage
  end.

(** [conversationHistory.push(message)]. *)
Definition push_message (m : Message) (s : CheckoutSession) : CheckoutSession :=
  set_conversationHistory (conversationHistory s ++ [m]) s.

(** Lines 97-141: [chat] once the session object has been found. *)
Definition chat_turn (userMessage : string) : M Turn string :=
  let* _ := modify (on_session (push_message {| role := user; content := userMessage |})) in
  let* s := gets session in
  let* response := call (fun n => anthropic_messages_create ext n s) in
  let* assistantMessage := process_content response EmptyString in
  let* _ := modify (on_session
              (push_message {| role := assistant; content := assistantMessage |})) in
  ret assistantMessage.

(** Lines 91-142.  The session object lives in the map: whatever the turn
    wrote to it is in the map when [chat] returns or throws. *)
Definition chat (sessionId : string) (userMessage : string) : M Agent string :=
  fun a =>
    match sessions a !! sessionId with
    | None => (a, Thrown "Session not found")
    | Some found =>
      let '(t, result) :=
        chat_turn userMessage
          {| session := found; profiles := agent_profiles a; clock := agent_clock a |} in
      ({| sessions := <[sessionId := session t]> (sessions a);
          agent_profiles := profiles t; agent_clock := clock t |}, result)
    end.

(** [POST /api/checkout/session] ([index.ts], lines 53-72).  [cart] is
    [None] when the body has no [cart] or one that is not an array. *)
Inductive Response : Type :=
| json (body : CheckoutSession)
| status_json (code : Z) (error : string).

Definition post_checkout_session (cart : option (list CartItem.t))
    (currency userId : option string) : Agent -> Agent * Response :=
  fun a =>
    match cart with
    | None | Some [] => (a, status_json 400 "Invalid cart data")
    | Some cart =>
      match createSession cart (Some (default "THB" currency)) userId a with
      | (a', Returned session) => (a', json session)
      | (a', Thrown message) => (a', status_json 500 message)
      end
    end.

End CheckoutAgentService.

(** ** [UserProfileService]: editing saved entries ([user-profile.service.ts],
    lines 214-382) *)

(** [Partial<Omit<PaymentMethod, 'id' | 'createdAt'>>].  A field is [None]
    when the property is absent; an optional field of [PaymentMethod] that is
    present may hold [undefined], the inner [None].  The two required fields,
    when present, hold a value. *)
Module PaymentMethodUpdates.
Record t : Type := mk {
  type : option PaymentMethodType;
  isDefault : option bool;
  cardToken : option (option string);
  cardBrand : option (option string);
  cardLastDigits : option (option string);
  cardExpiryMonth : option (option string);
  cardExpiryYear : option (option string);
  cardHolderName : option (option string);
  bankCode : option (option string);
  phoneNumber : option (option string)
}.
(** [Object.assign(method, updates)]. *)
Definition assign (m : PaymentMethod.t) (u : t) : PaymentMethod.t :=
  PaymentMethod.mk (PaymentMethod.id m)
    (default (PaymentMethod.type m) (type u))
    (default (PaymentMethod.isDefault m) (isDefault u))
    (default (PaymentMethod.cardToken m) (cardToken u))
    (default (PaymentMethod.cardBrand m) (cardBrand u))
    (default (PaymentMethod.cardLastDigits m) (cardLastDigits u))
    (default (PaymentMethod.cardExpiryMonth m) (cardExpiryMonth u))
    (default (PaymentMethod.cardExpiryYear m) (cardExpiryYear u))
    (default (PaymentMethod.cardHolderName m) (cardHolderName u))
    (default (PaymentMethod.bankCode m) (bankCode u))
    (default (PaymentMethod.phoneNumber m) (phoneNumber u))
    (PaymentMethod.createdAt m).
End PaymentMethodUpdates.

(** ['shipping' | 'billing']. *)
Inductive AddressType : Type := shipping | billing.

Module ProfileEdits.

(** The list [updateAddress] and [deleteAddress] work on (lines 228 and 264). *)
Definition addresses (type : AddressType) (profile : UserProfile.t)
    : list SavedAddress.t :=
  match type with
  | shipping => UserProfile.shippingAddresses profile
  | billing => UserProfile.billingAddresses profile
  end.

(** Writing that list and the preference that goes with it. *)
Definition with_addresses (type : AddressType) (l : list SavedAddress.t)
    (d : option string) (profile : UserProfile.t) : UserProfile.t :=
  match type with
  | shipping => UserProfile.with_shipping l d profile
  | billing => UserProfile.with_billing l d profile
  end.

Definition defaultAddressId (type : AddressType) (profile : UserProfile.t)
    : option string :=
  match type with
  | shipping => UserProfile.defaultShippingAddressId profile
  | billing => UserProfile.defaultBillingAddressId profile
  end.

(** Lines 258-288. *)
Definition deleteAddress (userId addressId : string) (type : AddressType) : M Turn bool :=
  let* found := UserProfileService.getProfile userId in
  match found with
  | None => throw ("Profile " ++ userId ++ " not found")
  | Some profile =>
    match list_find (fun a => SavedAddress.id a = addressId) (addresses type profile) with
    | None => ret false
    | Some (index, address) =>
      let wasDefault := SavedAddress.isDefault address in
      let remaining := delete index (addresses type profile) in
      let profile := with_addresses type remaining (defaultAddressId type profile) profile in
      let profile :=
        match wasDefault, remaining with
        | true, first :: rest =>
          with_addresses type (SavedAddress.with_isDefault true first :: rest)
            (Some (SavedAddress.id first)) profile
        | _, _ => profile
        end in
      let* n := now in
      let profile := UserProfile.with_updatedAt n profile in
      let* _ := modify (on_profiles (insert userId profile)) in
      ret true
    end
  end.

(** Lines 325-353. *)
Definition updatePaymentMethod (userId methodId : string)
    (updates : PaymentMethodUpdates.t) : M Turn PaymentMethod.t :=
  let* found := UserProfileService.getProfile userId in
  match found with
  | None => throw ("Profile " ++ userId ++ " not found")
  | Some profile =>
    match list_find (fun m => PaymentMethod.id m = methodId)
            (UserProfile.paymentMethods profile) with
    | None => throw ("Payment method " ++ methodId ++ " not found")
    | Some (index, method) =>
      let setDefault := default false (PaymentMethodUpdates.isDefault updates) in
      let profile :=
        if setDefault
        then UserProfile.with_payment
               (map (PaymentMethod.with_isDefault false)
                  (UserProfile.paymentMethods profile))
               (Some methodId) profile
        else profile in
      let method :=
        PaymentMethodUpdates.assign
          (if setDefault then PaymentMethod.with_isDefault false method else method)
          updates in
      let profile :=
        UserProfile.with_payment
          (<[index := method]> (UserProfile.paymentMethods profile))
          (UserProfile.defaultPaymentMethodId profile) profile in
      let* n := now in
      let profile := UserProfile.with_updatedAt n profile in
      let* _ := modify (on_profiles (insert userId profile)) in
      ret method
    end
  end.

(** Lines 358-382. *)
Definition deletePaymentMethod (userId methodId : string) : M Turn bool :=
  let* found := UserProfileService.getProfile userId in
  match found with
  | None => throw ("Profile " ++ userId ++ " not found")
  | Some profile =>
    match list_find (fun m => PaymentMethod.id m = methodId)
            (UserProfile.paymentMethods profile) with
    | None => ret false
    | Some (index, method) =>
      let wasDefault := PaymentMethod.isDefault method in
      let remaining := delete index (UserProfile.paymentMethods profile) in
      let profile :=
        UserProfile.with_payment remaining (UserProfile.defaultPaymentMethodId profile)
          profile in
      let profile :=
        match wasDefault, remaining with
        | true, first :: rest =>
          UserProfile.with_payment (PaymentMethod.with_isDefault true first :: rest)
            (Some (PaymentMethod.id first)) profile
        | _, _ => profile
        end in
      let* n := now in
      let profile := UserProfile.with_updatedAt n profile in
      let* _ := modify (on_profiles (insert userId profile)) in
      ret true
    end
  end.

End ProfileEdits.

(** ** [UserProfileService]: the profiles and their e-mail index
    ([user-profile.service.ts], lines 73-150 and 451-461) *)

(** The two maps of the service and the call counter. *)
Record ProfileStore : Type := {
  store_profiles : gmap string UserProfile.t;
  emailIndex : gmap string string;
  store_clock : nat
}.

Module CreateProfileParams.
Record t : Type := mk {
  email : string;
  firstName : string;
  lastName : string;
  phone : option string
}.
End CreateProfileParams.

(** The object handed to [updateProfile].  Its declared type is
    [Partial<Pick<UserProfile, 'firstName' | 'lastName' | 'phone' | 'email'>>],
    but [Object.assign] (line 146) copies every own property of the object it
    is given, and the route [PUT /api/users/:userId] hands over the request
    body as it is: a property may be there for any field of the profile.
    A field is [None] when the object has no such property.  [phone] and
    [lastCheckoutAt], optional in [UserProfile], may be present and hold
    [undefined]; [preferences] replaces the three default ids together; a
    property [updatedAt] is overwritten by the third argument of
    [Object.assign].  The properties hold values of the types that
    [UserProfile] declares for them. *)
Module ProfileUpdates.
Record t : Type := mk {
  id : option string;
  email : option string;
  firstName : option string;
  lastName : option string;
  phone : option (option string);
  shippingAddresses : option (list SavedAddress.t);
  billingAddresses : option (list SavedAddress.t);
  paymentMethods : option (list PaymentMethod.t);
  preferences : option (option string * option string * option string);
  lastCheckoutAt : option (option nat);
  totalOrders : option Z;
  totalSpent : option Z
}.
(** The preferences of a profile, as one object. *)
Definition preferences_of (p : UserProfile.t)
    : option string * option string * option string :=
  (UserProfile.defaultShippingAddressId p, UserProfile.defaultBillingAddressId p,
   UserProfile.defaultPaymentMethodId p).
(** [Object.assign(profile, updates, { updatedAt })]. *)
Definition assign (p : UserProfile.t) (u : t) (updatedAt : nat) : UserProfile.t :=
  let '(defaultShipping, defaultBilling, defaultPayment) :=
    default (preferences_of p) (preferences u) in
  UserProfile.mk
    (default (UserProfile.id p) (id u))
    (default (UserProfile.email p) (email u))
    (default (UserProfile.firstName p) (firstName u))
    (default (UserProfile.lastName p) (lastName u))
    (default (UserProfile.phone p) (phone u))
    (default (UserProfile.shippingAddresses p) (shippingAddresses u))
    (default (UserProfile.billingAddresses p) (billingAddresses u))
    (default (UserProfile.paymentMethods p) (paymentMethods u))
    defaultShipping defaultBilling defaultPayment
    updatedAt
    (default (UserProfile.lastCheckoutAt p) (lastCheckoutAt u))
    (default (UserProfile.totalOrders p) (totalOrders u))
    (default (UserProfile.totalSpent p) (totalSpent u)).
End ProfileUpdates.

Module ProfileDirectory.
Section WithExternals.
Variable ext : Externals.

Definition on_store (f : gmap string UserProfile.t -> gmap string UserProfile.t)
    (st : ProfileStore) : ProfileStore :=
  {| store_profiles := f (store_profiles st); emailIndex := emailIndex st;
     store_clock := store_clock st |}.
Definition on_index (f : gmap string string -> gmap string string)
    (st : ProfileStore) : ProfileStore :=
  {| store_profiles := store_profiles st; emailIndex := f (emailIndex st);
     store_clock := store_clock st |}.
(** [Date.now()], [new Date()] and [Math.random()]. *)
Definition now : M ProfileStore nat :=
  fun st => ({| store_profiles := store_profiles st; emailIndex := emailIndex st;
                store_clock := S (store_clock st) |}, Returned (store_clock st)).

(** Lines 81-109. *)
Definition createProfile (params : CreateProfileParams.t) : M ProfileStore UserProfile.t :=
  let* taken := gets (fun st => emailIndex st !! CreateProfileParams.email params) in
  match taken with
  | Some _ =>
    throw ("Profile with email " ++ CreateProfileParams.email params ++ " already exists")
  | None =>
    let* n := now in
    let profileId := "user_" ++ random_id ext n in
    let* created := now in
    let profile :=
      UserProfile.mk profileId (CreateProfileParams.email params)
        (CreateProfileParams.firstName params) (CreateProfileParams.lastName params)
        (CreateProfileParams.phone params) [] [] [] None None None created None 0 0 in
    let* _ := modify (on_store (insert profileId profile)) in
    let* _ := modify (on_index (insert (CreateProfileParams.email params) profileId)) in
    ret profile
  end.

(** Lines 114-116. *)
Definition getProfile (userId : string) : M ProfileStore (option UserProfile.t) :=
  gets (fun st => store_profiles st !! userId).

(** Lines 121-126. *)
Definition getProfileByEmail (email : string) : M ProfileStore (option UserProfile.t) :=
  let* userId := gets (fun st => emailIndex st !! email) in
  match truthy userId with
  | None => ret None
  | Some userId => gets (fun st => store_profiles st !! userId)
  end.


(** Lines 451-461. *)
Definition deleteProfile (userId : string) : M ProfileStore bool :=
  let* found := getProfile userId in
  match found with
  | None => ret false
  | Some profile =>
    let* _ := modify (on_index (delete (UserProfile.email profile))) in
    let* _ := modify (on_store (delete userId)) in
    ret true
  end.

End WithExternals.
End ProfileDirectory.

(** ** [EcommercePlatformManager]: the registered platforms
    ([ecommerce-manager.service.ts], lines 13-110) *)

(** The manager's two fields.  A platform is given by what the checkout
    agent asks of it, the record [EcommercePlatformManager] above. *)
Record PlatformRegistry : Type := {
  platforms : gmap string EcommercePlatformManager;
  activePlatform : option string
}.

Module PlatformManager.
Section WithPlatforms.
(** [new ...Service()] followed by [platform.initialize(config)] for a
    supported platform type: the platform, or the error [initialize] throws. *)
Variable initialize : string -> outcome EcommercePlatformManager.

Definition set_active (v : option string) (r : PlatformRegistry) : PlatformRegistry :=
  {| platforms := platforms r; activePlatform := v |}.
Definition on_platforms
    (f : gmap string EcommercePlatformManager -> gmap string EcommercePlatformManager)
    (r : PlatformRegistry) : PlatformRegistry :=
  {| platforms := f (platforms r); activePlatform := activePlatform r |}.

(** Lines 20-50. *)
Definition registerPlatform (platformType : string) (identifier : option string)
    : M PlatformRegistry unit :=
  if String.eqb platformType "shopify" || String.eqb platformType "woocommerce"
     || String.eqb platformType "magento"
  then
    let* platform := (fun r => (r, initialize platformType)) in
    let platformId := or_else identifier platformType in
    let* _ := modify (on_platforms (insert platformId platform)) in
    let* current := gets activePlatform in
    match truthy current with
    | None => modify (set_active (Some platformId))
    | Some _ => ret tt
    end
  else throw ("Unsupported platform type: " ++ platformType).

(** Lines 55-61. *)
Definition setActivePlatform (platformId : string) : M PlatformRegistry unit :=
  let* known := gets (fun r => platforms r !! platformId) in
  match known with
  | None => throw ("Platform " ++ platformId ++ " not found")
  | Some _ => modify (set_active (Some platformId))
  end.

(** Lines 66-77. *)
Definition getActivePlatform : M PlatformRegistry EcommercePlatformManager :=
  let* current := gets activePlatform in
  match truthy current with
  | None => throw "No active platform set"
  | Some current =>
    let* platform := gets (fun r => platforms r !! current) in
    match platform with
    | None => throw ("Active platform " ++ current ++ " not found")
    | Some platform => ret platform
    end
  end.

(** Lines 82-89. *)
Definition getPlatform (platformId : string) : M PlatformRegistry EcommercePlatformManager :=
  let* platform := gets (fun r => platforms r !! platformId) in
  match platform with
  | None => throw ("Platform " ++ platformId ++ " not found")
  | Some platform => ret platform
  end.

(** Lines 104-110. *)
Definition removePlatform (platformId : string) : M PlatformRegistry bool :=
  let* current := gets activePlatform in
  let* _ :=
    if decide (current = Some platformId) then modify (set_active None) else ret tt in
  let* known := gets (fun r => platforms r !! platformId) in
  let* _ := modify (on_platforms (delete platformId)) in
  ret (bool_decide (is_Some known)).

End WithPlatforms.

(** The convenience methods the checkout agent calls (lines 118-136), on
    the registry as it stands during the call. *)
Definition manager (r : PlatformRegistry) : EcommercePlatformManager :=
  {| getProduct := fun n productId =>
       match snd (getActivePlatform r) with
       | Returned platform => getProduct platform n productId
       | Thrown e => Thrown e
       end;
     searchProductBySku_ := fun n sku =>
       match snd (getActivePlatform r) with
       | Returned platform => searchProductBySku_ platform n sku
       | Thrown e => Thrown e
       end;
     listProducts_ := fun n limit search =>
       match snd (getActivePlatform r) with
       | Returned platform => listProducts_ platform n limit search
       | Thrown e => Thrown e
       end |}.

End PlatformManager.

(** * Vocabulary of the properties *)

(** The sum over the cart of price times quantity. *)
Fixpoint cart_sum (cart : list CartItem.t) : Z :=
  match cart with
  | [] => 0
  | item :: rest => CartItem.price item * CartItem.quantity item + cart_sum rest
  end.

(** The derived-total invariant of a session. *)
Definition total_ok (s : CheckoutSession) : Prop := totalAmount s = cart_sum (cart s).

(** [m] relates, by [R], the session it starts from to the session it
    leaves, whether it returns or throws. *)
Definition preserves (R : CheckoutSession -> CheckoutSession -> Prop) {A : Type}
    (m : M Turn A) : Prop :=
  forall t, R (session t) (session (fst (m t))).

(** The tools whose handlers assign [session.status]. *)
Definition is_payment_tool (toolName : string) : bool :=
  String.eqb toolName "process_card_payment"
  || String.eqb toolName "create_promptpay_payment"
  || String.eqb toolName "create_internet_banking_payment"
  || String.eqb toolName "process_quick_checkout".

(** Relations between the session before and after a computation. *)
Definition same_history (s s' : CheckoutSession) : Prop :=
  conversationHistory s' = conversationHistory s.

Definition keeps_total (s s' : CheckoutSession) : Prop := total_ok s -> total_ok s'.

Definition same_status (s s' : CheckoutSession) : Prop := status s' = status s.

(** The status is kept, or becomes [completed] or [pending_payment]. *)
Definition status_moves (s s' : CheckoutSession) : Prop :=
  status s' = status s \/ status s' = completed \/ status s' = pending_payment.

(** The sessions the service can hold: made by [createSession], then handed
    to any number of tool handlers and chat turns, in any state of the profile
    store and with any answers of the collaborators. *)
Inductive session_reachable (ext : Externals) : CheckoutSession -> Prop :=
| reach_createSession items cur uid a a' s :
    createSession ext items cur uid a = (a', Returned s) ->
    session_reachable ext s
| reach_handleToolCall name input t :
    session_reachable ext (session t) ->
    session_reachable ext (session (fst (handleToolCall ext name input t)))
| reach_chat_turn userMessage t :
    session_reachable ext (session t) ->
    session_reachable ext (session (fst (chat_turn ext userMessage t))).

(** What a session can become: the sessions reached from [s] by any number
    of tool handlers and chat turns, in any state of the profile store and
    with any answers of the collaborators. *)
Inductive session_evolves (ext : Externals) (s : CheckoutSession)
    : CheckoutSession -> Prop :=
| evolves_refl : session_evolves ext s s
| evolves_handleToolCall name input t :
    session_evolves ext s (session t) ->
    session_evolves ext s (session (fst (handleToolCall ext name input t)))
| evolves_chat_turn userMessage t :
    session_evolves ext s (session t) ->
    session_evolves ext s (session (fst (chat_turn ext userMessage t))).

(** A cart the specification refuses: empty, or holding an item with a
    quantity that is not positive or a negative price. *)
Definition invalid_cart (items : list CartItem.t) : Prop :=
  items = [] \/
  exists item, item ∈ items /\ (CartItem.quantity item <= 0 \/ CartItem.price item < 0).

(** The tools whose handlers only read. *)
Definition is_read_only_tool (toolName : string) : bool :=
  String.eqb toolName "check_payment_status"
  || String.eqb toolName "search_product_by_sku"
  || String.eqb toolName "list_products"
  || String.eqb toolName "get_saved_addresses"
  || String.eqb toolName "get_quick_checkout_data".

(** The tools that need the e-commerce platform manager. *)
Definition is_platform_tool (toolName : string) : bool :=
  String.eqb toolName "search_product_by_sku"
  || String.eqb toolName "add_product_to_cart"
  || String.eqb toolName "list_products".

(** The tools that need the user profile service. *)
Definition is_profile_tool (toolName : string) : bool :=
  String.eqb toolName "save_shipping_address"
  || String.eqb toolName "save_billing_address"
  || String.eqb toolName "get_saved_addresses"
  || String.eqb toolName "save_payment_method"
  || String.eqb toolName "get_quick_checkout_data"
  || String.eqb toolName "process_quick_checkout".

(** The names the [switch] of [handleToolCall] has a case for. *)
Definition is_known_tool (toolName : string) : bool :=
  is_payment_tool toolName || is_read_only_tool toolName
  || is_platform_tool toolName || is_profile_tool toolName
  || String.eqb toolName "update_cart_item".

(** The fields of a session that are written at creation only. *)
Definition same_identity (s s' : CheckoutSession) : Prop :=
  sessionId s' = sessionId s /\ userId s' = userId s /\ currency s' = currency s
  /\ customerId s' = customerId s /\ paymentMethod s' = paymentMethod s.

(** [recordCheckout] once for each amount of a list, in order. *)
Fixpoint record_all (uid : string) (amounts : list Z) : M Turn unit :=
  match amounts with
  | [] => ret tt
  | amount :: rest =>
    let* _ := UserProfileService.recordCheckout uid amount in record_all uid rest
  end.

(** The sum of a list of amounts. *)
Definition sum_amounts (amounts : list Z) : Z := fold_right Z.add 0 amounts.

(** Every entry of the e-mail index names a stored profile that has that
    e-mail address. *)
Definition index_sound (st : ProfileStore) : Prop :=
  forall email userId,
    emailIndex st !! email = Some userId ->
    exists p, store_profiles st !! userId = Some p /\ UserProfile.email p = email.

(** The platform types [registerPlatform] has a case for. *)
Definition supported_platform (platformType : string) : Prop :=
  platformType = "shopify" \/ platformType = "woocommerce" \/ platformType = "magento".

(** No platform is registered under the empty id, and the active platform,
    when there is one, is registered. *)
Definition registry_ok (r : PlatformRegistry) : Prop :=
  platforms r !! EmptyString = None
  /\ forall platformId,
       activePlatform r = Some platformId -> is_Some (platforms r !! platformId).

(** * A concrete world for the scenarios *)

Definition no_input : ToolInput :=
  {| card_token := None; bank := EmptyString; charge_id := EmptyString; sku := EmptyString; product_id := EmptyString;
     in_quantity := 0; cart_item_id := EmptyString; limit := 0; search := None;
     first_name := EmptyString; last_name := EmptyString; in_address1 := EmptyString; in_address2 := None;
     in_city := EmptyString; in_state := EmptyString; postal_code := EmptyString; in_country := EmptyString;
     in_phone := None; in_label := None; is_default := false; in_type := card;
     card_brand := None; card_last_digits := None; card_expiry_month := None;
     card_expiry_year := None; card_holder_name := None; bank_code := None;
     use_saved_payment := None |}.

Definition with_cart_item (cid : string) (q : Z) (i : ToolInput) : ToolInput :=
  {| card_token := card_token i; bank := bank i; charge_id := charge_id i; sku := sku i;
     product_id := product_id i; in_quantity := q; cart_item_id := cid; limit := limit i;
     search := search i; first_name := first_name i; last_name := last_name i;
     in_address1 := in_address1 i; in_address2 := in_address2 i; in_city := in_city i;
     in_state := in_state i; postal_code := postal_code i; in_country := in_country i;
     in_phone := in_phone i; in_label := in_label i; is_default := is_default i;
     in_type := in_type i; card_brand := card_brand i;
     card_last_digits := card_last_digits i; card_expiry_month := card_expiry_month i;
     card_expiry_year := card_expiry_year i; card_holder_name := card_holder_name i;
     bank_code := bank_code i; use_saved_payment := use_saved_payment i |}.

Definition with_product (pid : string) (q : Z) (i : ToolInput) : ToolInput :=
  {| card_token := card_token i; bank := bank i; charge_id := charge_id i; sku := sku i;
     product_id := pid; in_quantity := q; cart_item_id := cart_item_id i; limit := limit i;
     search := search i; first_name := first_name i; last_name := last_name i;
     in_address1 := in_address1 i; in_address2 := in_address2 i; in_city := in_city i;
     in_state := in_state i; postal_code := postal_code i; in_country := in_country i;
     in_phone := in_phone i; in_label := in_label i; is_default := is_default i;
     in_type := in_type i; card_brand := card_brand i;
     card_last_digits := card_last_digits i; card_expiry_month := card_expiry_month i;
     card_expiry_year := card_expiry_year i; card_holder_name := card_holder_name i;
     bank_code := bank_code i; use_saved_payment := use_saved_payment i |}.

Definition with_card_token (tok : string) (i : ToolInput) : ToolInput :=
  {| card_token := Some tok; bank := bank i; charge_id := charge_id i; sku := sku i;
     product_id := product_id i; in_quantity := in_quantity i;
     cart_item_id := cart_item_id i; limit := limit i;
     search := search i; first_name := first_name i; last_name := last_name i;
     in_address1 := in_address1 i; in_address2 := in_address2 i; in_city := in_city i;
     in_state := in_state i; postal_code := postal_code i; in_country := in_country i;
     in_phone := in_phone i; in_label := in_label i; is_default := is_default i;
     in_type := in_type i; card_brand := card_brand i;
     card_last_digits := card_last_digits i; card_expiry_month := card_expiry_month i;
     card_expiry_year := card_expiry_year i; card_holder_name := card_holder_name i;
     bank_code := bank_code i; use_saved_payment := use_saved_payment i |}.

(** A store with one product, priced 29900. *)
Definition demo_platform : EcommercePlatformManager :=
  {| getProduct := fun _ pid =>
       if String.eqb pid "p1"
       then Returned (Product.mk "p1" "SKU-1" "Gadget" "A gadget" 29900 "THB" 5)
       else Thrown "Product not found";
     searchProductBySku_ := fun _ _ => Returned None;
     listProducts_ := fun _ _ _ => Returned [] |}.

(** A gateway that answers every charge with [charge_status] and a model
    that answers every message with [reply]. *)
Definition demo_externals (charge_status : string) (reply : outcome (list ContentBlock))
    : Externals :=
  {| anthropic_messages_create := fun _ _ => reply;
     createCharge := fun _ p =>
       Returned (Charge.mk "chrg_test_1" charge_status (Some "insufficient funds")
                   (Some "https://pay.example/authorize")
                   (ChargeParams.amount p) (ChargeParams.currency p));
     createSource := fun _ _ => Returned (Source.mk "src_test_1" None);
     getCharge := fun _ _ => Thrown "Failed to retrieve charge: not found";
     ecommercePlatformManager := Some demo_platform;
     userProfileService := true;
     random_id := fun n => NilZero.string_of_uint (Nat.to_uint n) |}.

Definition empty_agent : Agent :=
  {| sessions := ∅; agent_profiles := ∅; agent_clock := 0 |}.

Definition widget : CartItem.t := CartItem.mk "1" "Widget" None 100000 1.

(** The session [createSession([Widget], 'THB')] returns on [empty_agent]. *)
Definition widget_session : CheckoutSession :=
  {| sessionId := "sess_0"; customerId := None; userId := None; cart := [widget];
     totalAmount := 100000; currency := "THB"; conversationHistory := [];
     paymentMethod := None; status := active; shippingAddressId := None;
     billingAddressId := None; paymentMethodId := None |}.

Definition with_userId (uid : string) (s : CheckoutSession) : CheckoutSession :=
  {| sessionId := sessionId s; customerId := customerId s; userId := Some uid;
     cart := cart s; totalAmount := totalAmount s; currency := currency s;
     conversationHistory := conversationHistory s; paymentMethod := paymentMethod s;
     status := status s; shippingAddressId := shippingAddressId s;
     billingAddressId := billingAddressId s; paymentMethodId := paymentMethodId s |}.

Definition turn_of (s : CheckoutSession) : Turn :=
  {| session := s; profiles := ∅; clock := 1 |}.

(** A model reply with a tool call that fails between two texts. *)
Definition reply_with_failing_tool : list ContentBlock :=
  [text "Checking."; tool_use "check_payment_status" no_input; text " Done."].

Definition widget_agent : Agent :=
  {| sessions := {[ "sess_0" := widget_session ]}; agent_profiles := ∅; agent_clock := 1 |}.

Definition gadget : CartItem.t := CartItem.mk "2" "Gadget" None 29900 1.

(** A profile with one saved method, PromptPay, not marked as default. *)
Definition promptpay_method : PaymentMethod.t :=
  PaymentMethod.mk "pm_1" promptpay false None None None None None None None None 0.

Definition ann (methods : list PaymentMethod.t) : UserProfile.t :=
  UserProfile.mk "u1" "ann@example.com" "Ann" "Lee" None [] [] methods
    None None None 0 None 0 0.

Definition ann_turn (methods : list PaymentMethod.t) : Turn :=
  {| session := with_userId "u1" widget_session;
     profiles := {[ "u1" := ann methods ]}; clock := 1 |}.

(** A saved card, marked as default. *)
Definition saved_card : PaymentMethod.t :=
  PaymentMethod.mk "pm_2" card true (Some "tokn_saved") (Some "Visa") (Some "4242")
    None None None None None 0.


(** A profile with two shipping addresses and one billing address. *)
Definition saved_address (id : string) (is_default : bool) : SavedAddress.t :=
  SavedAddress.mk id (Some "Home") is_default "Ann" "Lee" "1 Sukhumvit Rd" None
    "Bangkok" "Bangkok" "10110" "TH" None.

Definition ann_with_addresses : UserProfile.t :=
  UserProfile.mk "u1" "ann@example.com" "Ann" "Lee" None
    [saved_address "addr_1" true; saved_address "addr_2" false]
    [saved_address "addr_3" true] [] (Some "addr_1") (Some "addr_3") None 0 None 0 0.

Definition addresses_turn : Turn :=
  {| session := with_userId "u1" widget_session;
     profiles := {[ "u1" := ann_with_addresses ]}; clock := 1 |}.

(** A request to save an address. *)
Definition home_address (is_default : option bool) : AddAddressParams.t :=
  AddAddressParams.mk "Ann" "Lee" "1 Sukhumvit Rd" None "Bangkok" "Bangkok" "10110" "TH"
    None (Some "Home") is_default.

(** An update that only marks a method as default. *)
Definition make_default : PaymentMethodUpdates.t :=
  PaymentMethodUpdates.mk None (Some true) None None None None None None None None.

(** An empty profile directory and the request that creates Ann's profile. *)
Definition empty_store : ProfileStore :=
  {| store_profiles := ∅; emailIndex := ∅; store_clock := 0 |}.

Definition ann_params : CreateProfileParams.t :=
  CreateProfileParams.mk "ann@example.com" "Ann" "Lee" None.

(** The directory after [createProfile(ann_params)] on [empty_store]. *)
Definition ann_store : ProfileStore :=
  {| store_profiles :=
       {[ "user_0" := UserProfile.mk "user_0" "ann@example.com" "Ann" "Lee" None
                        [] [] [] None None None 1 None 0 0 ]};
     emailIndex := {[ "ann@example.com" := "user_0" ]};
     store_clock := 2 |}.



(** A manager with nothing registered, as the server builds it at start. *)
Definition empty_registry : PlatformRegistry :=
  {| platforms := ∅; activePlatform := None |}.

(** Every supported platform initialises to the demo store. *)
Definition demo_initialize (platformType : string) : outcome EcommercePlatformManager :=
  Returned demo_platform.

(** * Properties *)

(** ** The cart sum *)

Lemma fold_left_cart_sum (cart : list CartItem.t) (acc : Z) :
  fold_left (fun sum item => sum + CartItem.price item * CartItem.quantity item) cart acc
  = acc + cart_sum cart.
Proof.
  revert acc. induction cart as [|item rest IH]; intros acc; cbn [fold_left cart_sum].
  - lia.
  - rewrite IH. lia.
Qed.

Lemma calculateTotal_cart_sum (cart : list CartItem.t) : calculateTotal cart = cart_sum cart.
Proof. unfold calculateTotal. rewrite fold_left_cart_sum. lia. Qed.

(** ** Computations that keep a relation on the session *)

Section Preserves.
Variable R : CheckoutSession -> CheckoutSession -> Prop.
Hypothesis R_refl : forall s, R s s.
Hypothesis R_trans : forall s1 s2 s3, R s1 s2 -> R s2 s3 -> R s1 s3.

Lemma preserves_ret {A} (a : A) : preserves R (ret a).
Proof. intros t. apply R_refl. Qed.

Lemma preserves_throw {A} (e : string) : preserves R (@throw Turn A e).
Proof. intros t. apply R_refl. Qed.

Lemma preserves_gets {A} (f : Turn -> A) : preserves R (gets f).
Proof. intros t. apply R_refl. Qed.

Lemma preserves_call {A} (f : nat -> outcome A) : preserves R (call f).
Proof. intros t. apply R_refl. Qed.

Lemma preserves_now : preserves R now.
Proof. intros t. apply R_refl. Qed.

Lemma preserves_on_profiles f : preserves R (modify (on_profiles f)).
Proof. intros t. apply R_refl. Qed.

Lemma preserves_on_session f : (forall s, R s (f s)) -> preserves R (modify (on_session f)).
Proof. intros H t. apply H. Qed.

Lemma preserves_bind {A B} (m : M Turn A) (k : A -> M Turn B) :
  preserves R m -> (forall a, preserves R (k a)) -> preserves R (bind m k).
Proof.
  intros Hm Hk t. unfold bind. specialize (Hm t).
  destruct (m t) as [t' [a|e]]; cbn [fst] in *.
  - eapply R_trans; [exact Hm|apply Hk].
  - exact Hm.
Qed.

Lemma preserves_on_session2 {B} f g (k : M Turn B) :
  (forall s, R s (g (f s))) -> preserves R k ->
  preserves R (bind (modify (on_session f)) (fun _ => bind (modify (on_session g)) (fun _ => k))).
Proof.
  intros H Hk t. unfold bind, modify. cbn.
  eapply R_trans; [apply (H (session t))|].
  apply (Hk (on_session g (on_session f t))).
Qed.

Lemma preserves_try_catch {A} (m : M Turn A) (h : string -> M Turn A) :
  preserves R m -> (forall e, preserves R (h e)) -> preserves R (try_catch m h).
Proof.
  intros Hm Hh t. unfold try_catch. specialize (Hm t).
  destruct (m t) as [t' [a|e]]; cbn [fst] in *.
  - exact Hm.
  - eapply R_trans; [exact Hm|apply Hh].
Qed.

End Preserves.

(** One step of the structural proof that a handler keeps a relation. *)
Ltac preserves_step :=
  first
    [ apply preserves_ret | apply preserves_throw | apply preserves_gets
    | apply preserves_call | apply preserves_now | apply preserves_on_profiles
    | apply preserves_on_session2
    | apply preserves_on_session
    | apply preserves_bind
    | apply preserves_try_catch
    | assumption
    | match goal with
      | |- forall _, _ => intro
      | |- preserves _ (match ?x with _ => _ end) => destruct x
      | |- _ _ (set_status (if ?b then _ else _) _) => destruct b
      | H : forall s, _ s (set_status _ s) |- _ _ (set_status _ _) => apply H
      | H : forall s c, _ s (set_totalAmount _ _) |- _ _ (set_totalAmount _ _) => apply H
      | H : forall s v, _ s (set_shippingAddressId _ s) |- _ _ (set_shippingAddressId _ _) =>
          apply H
      | H : forall s v, _ s (set_billingAddressId _ s) |- _ _ (set_billingAddressId _ _) =>
          apply H
      | H : forall s v, _ s (set_paymentMethodId _ s) |- _ _ (set_paymentMethodId _ _) =>
          apply H
      end ].

(** ** What a tool handler may do to the session *)

Section HandlerEffects.
Variable ext : Externals.
Variable R : CheckoutSession -> CheckoutSession -> Prop.
Hypothesis R_refl : forall s, R s s.
Hypothesis R_trans : forall s1 s2 s3, R s1 s2 -> R s2 s3 -> R s1 s3.
Hypothesis R_completed : forall s, R s (set_status completed s).
Hypothesis R_pending : forall s, R s (set_status pending_payment s).
Hypothesis R_cart : forall s c, R s (set_totalAmount (calculateTotal c) (set_cart c s)).
Hypothesis R_shipping : forall s v, R s (set_shippingAddressId v s).
Hypothesis R_billing : forall s v, R s (set_billingAddressId v s).
Hypothesis R_method : forall s v, R s (set_paymentMethodId v s).

Lemma processCardPayment_preserves tok : preserves R (processCardPayment ext tok).
Proof. unfold processCardPayment. repeat preserves_step. Qed.

Lemma createPromptPayPayment_preserves : preserves R (createPromptPayPayment ext).
Proof. unfold createPromptPayPayment. repeat preserves_step. Qed.

Lemma createInternetBankingPayment_preserves bank :
  preserves R (createInternetBankingPayment ext bank).
Proof. unfold createInternetBankingPayment. repeat preserves_step. Qed.

Lemma checkPaymentStatus_preserves c : preserves R (checkPaymentStatus ext c).
Proof. unfold checkPaymentStatus. repeat preserves_step. Qed.

Lemma searchProductBySku_preserves sku : preserves R (searchProductBySku ext sku).
Proof. unfold searchProductBySku. repeat preserves_step. Qed.

Lemma addProductToCart_preserves pid q : preserves R (addProductToCart ext pid q).
Proof. unfold addProductToCart. repeat preserves_step. Qed.

Lemma updateCartItem_preserves cid q : preserves R (updateCartItem cid q).
Proof. unfold updateCartItem. repeat preserves_step. Qed.

Lemma listProducts_preserves l q : preserves R (listProducts ext l q).
Proof. unfold listProducts. repeat preserves_step. Qed.

Lemma addShippingAddress_preserves uid a :
  preserves R (UserProfileService.addShippingAddress ext uid a).
Proof.
  unfold UserProfileService.addShippingAddress, UserProfileService.getProfile.
  repeat preserves_step.
Qed.

Lemma addBillingAddress_preserves uid a :
  preserves R (UserProfileService.addBillingAddress ext uid a).
Proof.
  unfold UserProfileService.addBillingAddress, UserProfileService.getProfile.
  repeat preserves_step.
Qed.

Lemma addPaymentMethod_preserves uid a :
  preserves R (UserProfileService.addPaymentMethod ext uid a).
Proof.
  unfold UserProfileService.addPaymentMethod, UserProfileService.getProfile.
  repeat preserves_step.
Qed.

Lemma recordCheckout_preserves uid n : preserves R (UserProfileService.recordCheckout uid n).
Proof.
  unfold UserProfileService.recordCheckout, UserProfileService.getProfile.
  repeat preserves_step.
Qed.

Lemma ups_getQuickCheckoutData_preserves uid :
  preserves R (UserProfileService.getQuickCheckoutData uid).
Proof.
  unfold UserProfileService.getQuickCheckoutData,
    UserProfileService.getDefaultShippingAddress,
    UserProfileService.getDefaultBillingAddress,
    UserProfileService.getDefaultPaymentMethod, UserProfileService.getProfile.
  repeat preserves_step.
Qed.

Lemma saveShippingAddress_preserves a : preserves R (saveShippingAddress ext a).
Proof.
  unfold saveShippingAddress.
  repeat first [apply addShippingAddress_preserves | preserves_step].
Qed.

Lemma saveBillingAddress_preserves a : preserves R (saveBillingAddress ext a).
Proof.
  unfold saveBillingAddress.
  repeat first [apply addBillingAddress_preserves | preserves_step].
Qed.

Lemma getSavedAddresses_preserves : preserves R (getSavedAddresses ext).
Proof.
  unfold getSavedAddresses, UserProfileService.getProfile. repeat preserves_step.
Qed.

Lemma savePaymentMethod_preserves a : preserves R (savePaymentMethod ext a).
Proof.
  unfold savePaymentMethod.
  repeat first [apply addPaymentMethod_preserves | preserves_step].
Qed.

Lemma getQuickCheckoutData_preserves : preserves R (getQuickCheckoutData ext).
Proof.
  unfold getQuickCheckoutData.
  repeat first [apply ups_getQuickCheckoutData_preserves | preserves_step].
Qed.

Lemma recordQuickCheckout_preserves uid r : preserves R (recordQuickCheckout uid r).
Proof.
  unfold recordQuickCheckout.
  repeat first [apply recordCheckout_preserves | preserves_step].
Qed.

Lemma processQuickCheckout_preserves o : preserves R (processQuickCheckout ext o).
Proof.
  unfold processQuickCheckout.
  repeat first
    [ apply ups_getQuickCheckoutData_preserves | apply recordQuickCheckout_preserves
    | apply processCardPayment_preserves | apply createPromptPayPayment_preserves
    | apply createInternetBankingPayment_preserves | preserves_step ].
Qed.

(** Tools other than the four payment tools. *)
Lemma dispatch_other_preserves name input :
  is_payment_tool name = false -> preserves R (dispatch ext name input).
Proof.
  unfold is_payment_tool, dispatch. intros H.
  repeat match goal with
  | |- preserves _ (if String.eqb ?a ?b then _ else _) =>
      destruct (String.eqb a b) eqn:?
  end; try (cbn in H; discriminate H).
  - apply checkPaymentStatus_preserves.
  - apply searchProductBySku_preserves.
  - apply addProductToCart_preserves.
  - apply updateCartItem_preserves.
  - apply listProducts_preserves.
  - apply saveShippingAddress_preserves.
  - apply saveBillingAddress_preserves.
  - apply getSavedAddresses_preserves.
  - apply savePaymentMethod_preserves.
  - apply getQuickCheckoutData_preserves.
  - apply preserves_ret; assumption.
Qed.

Lemma dispatch_preserves name input : preserves R (dispatch ext name input).
Proof.
  unfold dispatch.
  repeat match goal with
  | |- preserves _ (if String.eqb ?a ?b then _ else _) =>
      destruct (String.eqb a b)
  end.
  - apply processCardPayment_preserves.
  - apply createPromptPayPayment_preserves.
  - apply createInternetBankingPayment_preserves.
  - apply checkPaymentStatus_preserves.
  - apply searchProductBySku_preserves.
  - apply addProductToCart_preserves.
  - apply updateCartItem_preserves.
  - apply listProducts_preserves.
  - apply saveShippingAddress_preserves.
  - apply saveBillingAddress_preserves.
  - apply getSavedAddresses_preserves.
  - apply savePaymentMethod_preserves.
  - apply getQuickCheckoutData_preserves.
  - apply processQuickCheckout_preserves.
  - apply preserves_ret; assumption.
Qed.

Lemma handleToolCall_other_preserves name input :
  is_payment_tool name = false -> preserves R (handleToolCall ext name input).
Proof.
  intros H. unfold handleToolCall. apply preserves_try_catch; [assumption| |].
  - apply dispatch_other_preserves, H.
  - intros e. apply preserves_ret; assumption.
Qed.

Lemma handleToolCall_preserves name input : preserves R (handleToolCall ext name input).
Proof.
  unfold handleToolCall. apply preserves_try_catch; [assumption| |].
  - apply dispatch_preserves.
  - intros e. apply preserves_ret; assumption.
Qed.

Lemma process_content_preserves blocks acc : preserves R (process_content ext blocks acc).
Proof.
  revert acc. induction blocks as [|block rest IH]; intros acc; cbn [process_content].
  - apply preserves_ret; assumption.
  - destruct block as [t|name input|]; [apply IH| |apply IH].
    apply preserves_bind; try assumption; [|intros r; apply IH].
    apply handleToolCall_preserves.
Qed.

End HandlerEffects.

(** ** The relations the handlers keep *)

Lemma status_moves_trans s1 s2 s3 :
  status_moves s1 s2 -> status_moves s2 s3 -> status_moves s1 s3.
Proof. unfold status_moves. intros H12 H23. destruct H23 as [->|H23]; auto. Qed.

Lemma keeps_total_cart s c : keeps_total s (set_totalAmount (calculateTotal c) (set_cart c s)).
Proof. intros _. unfold total_ok. cbn. apply calculateTotal_cart_sum. Qed.

Lemma handleToolCall_same_history ext name input t :
  conversationHistory (session (fst (handleToolCall ext name input t)))
  = conversationHistory (session t).
Proof.
  apply (handleToolCall_preserves ext same_history); unfold same_history;
    try reflexivity; intros; congruence.
Qed.

Lemma process_content_same_history ext blocks acc t :
  conversationHistory (session (fst (process_content ext blocks acc t)))
  = conversationHistory (session t).
Proof.
  apply (process_content_preserves ext same_history); unfold same_history;
    try reflexivity; intros; congruence.
Qed.

Lemma handleToolCall_keeps_total ext name input t :
  total_ok (session t) -> total_ok (session (fst (handleToolCall ext name input t))).
Proof.
  apply (handleToolCall_preserves ext keeps_total); unfold keeps_total;
    try (intros; apply keeps_total_cart); auto.
Qed.

Lemma process_content_keeps_total ext blocks acc t :
  total_ok (session t) -> total_ok (session (fst (process_content ext blocks acc t))).
Proof.
  apply (process_content_preserves ext keeps_total); unfold keeps_total;
    try (intros; apply keeps_total_cart); auto.
Qed.

(** ** Failures the turn can and cannot see *)

Lemma handleToolCall_returns ext name input t :
  exists toolResult, snd (handleToolCall ext name input t) = Returned toolResult.
Proof.
  unfold handleToolCall, try_catch.
  destruct (dispatch ext name input t) as [t' [r|e]]; cbn; eauto.
Qed.

Lemma process_content_returns ext blocks acc t :
  exists reply, snd (process_content ext blocks acc t) = Returned reply.
Proof.
  revert acc t. induction blocks as [|block rest IH]; intros acc t; cbn [process_content].
  - cbn. eauto.
  - destruct block as [txt|name input|]; [apply IH| |apply IH].
    unfold bind. destruct (handleToolCall_returns ext name input t) as [r Hr].
    destruct (handleToolCall ext name input t) as [t' o]. cbn in Hr. subst o. apply IH.
Qed.

(** What [chat_turn] leaves behind, by the outcome of the model call. *)
Lemma chat_turn_unfold ext userMessage t :
  let asked := push_message {| role := user; content := userMessage |} (session t) in
  let t1 := tick (on_session (fun _ => asked) t) in
  chat_turn ext userMessage t =
  match anthropic_messages_create ext (clock t) asked with
  | Thrown e => (t1, Thrown e)
  | Returned response =>
    match process_content ext response EmptyString t1 with
    | (t2, Returned reply) =>
      (on_session (push_message {| role := assistant; content := reply |}) t2,
       Returned reply)
    | (t2, Thrown e) => (t2, Thrown e)
    end
  end.
Proof.
  cbv zeta. unfold chat_turn, bind, modify, gets, call, ret. cbn.
  destruct (anthropic_messages_create ext (clock t) _) as [response|e]; [|reflexivity].
  unfold on_session at 1, tick. cbn.
  destruct (process_content ext response EmptyString _) as [t2 [reply|e]]; reflexivity.
Qed.

(** ** The scenarios of the specification *)

Example createSession_widget :
  createSession (demo_externals "successful" (Returned [])) [widget] (Some "THB") None
    empty_agent
  = ({| sessions := {[ "sess_0" := widget_session ]}; agent_profiles := ∅;
        agent_clock := 1 |}, Returned widget_session).
Proof. vm_compute. reflexivity. Qed.

Example createSession_two_units :
  totalAmount widget_session = 100000 /\
  exists a s, createSession (demo_externals "successful" (Returned []))
                [CartItem.mk "1" "Item" None 50000 2] None None empty_agent
              = (a, Returned s) /\ totalAmount s = 100000.
Proof. split; [reflexivity|]. eexists _, _. split; [vm_compute; reflexivity|reflexivity]. Qed.

Example add_product_scenario :
  let '(t, r) := handleToolCall (demo_externals "successful" (Returned []))
                   "add_product_to_cart" (with_product "p1" 1 no_input)
                   (turn_of widget_session) in
  totalAmount (session t) = 129900
  /\ r = Returned "Added 1x Gadget to cart. New total: 1299.00 THB".
Proof. vm_compute. split; reflexivity. Qed.

(** ** Session creation *)

Lemma createSession_unfold ext items cur uid a :
  let sid := "sess_" ++ random_id ext (agent_clock a) in
  let s := {| sessionId := sid; customerId := None; userId := uid; cart := items;
              totalAmount := calculateTotal items; currency := default "THB" cur;
              conversationHistory := []; paymentMethod := None; status := active;
              shippingAddressId := None; billingAddressId := None;
              paymentMethodId := None |} in
  createSession ext items cur uid a
  = ({| sessions := <[sid := s]> (sessions a); agent_profiles := agent_profiles a;
        agent_clock := S (agent_clock a) |}, Returned s).
Proof. reflexivity. Qed.

(** ** The derived total *)

Lemma chat_turn_keeps_total ext userMessage t :
  total_ok (session t) -> total_ok (session (fst (chat_turn ext userMessage t))).
Proof.
  intros H. rewrite chat_turn_unfold. cbv zeta.
  destruct (anthropic_messages_create ext (clock t) _) as [response|e]; [|exact H].
  match goal with |- context [process_content ext response EmptyString ?t1] =>
    pose proof (process_content_keeps_total ext response EmptyString t1 H) as H1;
    destruct (process_content ext response EmptyString t1) as [t2 [reply|e]]
  end; exact H1.
Qed.

(** C1.  Every session the service holds has [totalAmount] equal to the sum
    over its cart of price times quantity: this holds for the session
    [createSession] returns and is re-established by every tool handler, in
    particular by [add_product_to_cart] and [update_cart_item], the only ones
    that write the cart; [totalAmount] is written nowhere else. *)
Theorem totalAmount_is_cart_sum (ext : Externals) (s : CheckoutSession) :
  session_reachable ext s -> totalAmount s = cart_sum (cart s).
Proof.
  induction 1 as [items cur uid a a' s Hc|name input t _ IH|userMessage t _ IH].
  - rewrite createSession_unfold in Hc. cbv zeta in Hc.
    inversion Hc; subst. cbn. apply calculateTotal_cart_sum.
  - apply handleToolCall_keeps_total, IH.
  - apply chat_turn_keeps_total, IH.
Qed.

Lemma totalAmount_is_cart_sum_witness :
  let ext := demo_externals "successful" (Returned []) in
  let s := session (fst (handleToolCall ext "add_product_to_cart"
                           (with_product "p1" 1 no_input) (turn_of widget_session))) in
  session_reachable ext s /\ totalAmount s = cart_sum (cart s) /\ totalAmount s = 129900.
Proof.
  cbv zeta.
  assert (Hr : session_reachable (demo_externals "successful" (Returned []))
                 (session (turn_of widget_session))).
  { eapply reach_createSession. exact createSession_widget. }
  split; [apply reach_handleToolCall, Hr|].
  split; [|vm_compute; reflexivity].
  apply (totalAmount_is_cart_sum (demo_externals "successful" (Returned []))).
  apply reach_handleToolCall, Hr.
Defined.

(** ** Cart validation *)

(** C2, as stated, fails: [createSession] returns a session for the empty
    cart, and for a cart whose only item has quantity [-1]. *)
Lemma createSession_accepts_invalid_cart :
  let ext := demo_externals "successful" (Returned []) in
  let refund := CartItem.mk "1" "Widget" None 100000 (-1) in
  (invalid_cart [] /\
   ~ (exists a' e, createSession ext [] None None empty_agent = (a', Thrown e)))
  /\ invalid_cart [refund]
  /\ exists a' s, createSession ext [refund] None None empty_agent = (a', Returned s)
                  /\ totalAmount s = -100000.
Proof.
  cbv zeta. repeat split.
  - left. reflexivity.
  - intros (a' & e & H). rewrite createSession_unfold in H. discriminate H.
  - right. eexists. split; [apply list_elem_of_here|]. left. cbn. lia.
  - eexists _, _. split; [apply createSession_unfold|]. reflexivity.
Qed.

(** C2, amended.  [createSession] validates nothing and never fails: for
    every cart of cart items it stores and returns a session whose
    [totalAmount] is the sum over the cart, whose status is [active] and whose
    history is empty.  Only the route [POST /api/checkout/session] refuses a
    cart: it answers 400 ['Invalid cart data'] exactly when the cart is
    missing, not an array, or empty, and then creates nothing; for every other
    cart it answers with the session [createSession] has just stored. *)
Theorem createSession_never_fails (ext : Externals) (items : list CartItem.t)
    (cur uid : option string) (a : Agent) :
  (exists a' s,
      createSession ext items cur uid a = (a', Returned s)
      /\ sessions a' !! sessionId s = Some s
      /\ cart s = items
      /\ totalAmount s = cart_sum items
      /\ status s = active
      /\ conversationHistory s = []
      /\ userId s = uid
      /\ currency s = default "THB" cur)
  /\ post_checkout_session ext (Some []) cur uid a = (a, status_json 400 "Invalid cart data")
  /\ post_checkout_session ext None cur uid a = (a, status_json 400 "Invalid cart data")
  /\ (forall body_cart,
        (exists code message,
            snd (post_checkout_session ext body_cart cur uid a) = status_json code message)
        <-> (body_cart = None \/ body_cart = Some []))
  /\ (forall item rest,
        exists a' s,
          post_checkout_session ext (Some (item :: rest)) cur uid a = (a', json s)
          /\ createSession ext (item :: rest) (Some (default "THB" cur)) uid a
             = (a', Returned s)
          /\ sessions a' !! sessionId s = Some s
          /\ cart s = item :: rest
          /\ totalAmount s = cart_sum (item :: rest)
          /\ status s = active
          /\ userId s = uid
          /\ currency s = default "THB" cur).
Proof.
  split; [|split; [reflexivity|split; [reflexivity|split]]].
  - eexists _, _. split; [apply createSession_unfold|]. cbn.
    repeat split; [apply lookup_insert_eq|apply calculateTotal_cart_sum].
  - intros body_cart. split.
    + intros (code & message & H). destruct body_cart as [[|item rest]|]; auto.
      unfold post_checkout_session in H. rewrite createSession_unfold in H.
      cbv zeta in H. discriminate H.
    + intros [->| ->]; eexists _, _; reflexivity.
  - intros item rest. unfold post_checkout_session.
    rewrite createSession_unfold. cbv zeta.
    eexists _, _. split; [reflexivity|]. split; [reflexivity|]. cbn.
    repeat split; [apply lookup_insert_eq|].
    apply (calculateTotal_cart_sum (item :: rest)).
Qed.

(** ** Payment handlers and the session status *)

Lemma processCardPayment_unfold ext tok t :
  processCardPayment ext tok t =
  match createCharge ext (clock t) (card_charge_request (session t) tok) with
  | Thrown e => (tick t, Thrown e)
  | Returned charge =>
    if String.eqb (Charge.status charge) "successful"
    then (on_session (set_status completed) (tick t),
          Returned ("Payment processed successfully! Charge ID: " ++ Charge.id charge
                    ++ ", Status: " ++ Charge.status charge))
    else if String.eqb (Charge.status charge) "pending"
    then (on_session (set_status pending_payment) (tick t),
          Returned ("Payment processed successfully! Charge ID: " ++ Charge.id charge
                    ++ ", Status: " ++ Charge.status charge))
    else (tick t,
          Returned ("Payment failed: "
                    ++ or_else (Charge.failure_message charge) "Unknown error"))
  end.
Proof.
  unfold processCardPayment, bind, gets, call, modify, ret. cbn.
  destruct (createCharge ext (clock t) _) as [charge|e]; [|reflexivity].
  destruct (String.eqb (Charge.status charge) "successful"); [reflexivity|].
  destruct (String.eqb (Charge.status charge) "pending"); reflexivity.
Qed.

(** C3.  [process_card_payment] on a charge the gateway returns: status
    ['successful'] sets the session to [completed], status ['pending'] sets it
    to [pending_payment], and any other status leaves the session as it was
    and returns a failure text; in no case does the handler throw. *)
Theorem process_card_payment_outcome (ext : Externals) (input : ToolInput) (t : Turn)
    (charge : Charge.t) :
  createCharge ext (clock t) (card_charge_request (session t) (card_token input))
    = Returned charge ->
  let t' := fst (handleToolCall ext "process_card_payment" input t) in
  let r := snd (handleToolCall ext "process_card_payment" input t) in
  (Charge.status charge = "successful" ->
     status (session t') = completed
     /\ r = Returned ("Payment processed successfully! Charge ID: " ++ Charge.id charge
                      ++ ", Status: successful"))
  /\ (Charge.status charge = "pending" ->
     status (session t') = pending_payment
     /\ r = Returned ("Payment processed successfully! Charge ID: " ++ Charge.id charge
                      ++ ", Status: pending"))
  /\ (Charge.status charge <> "successful" -> Charge.status charge <> "pending" ->
     session t' = session t
     /\ r = Returned ("Payment failed: "
                      ++ or_else (Charge.failure_message charge) "Unknown error")).
Proof.
  intros Hc. cbv zeta. unfold handleToolCall, try_catch.
  change (dispatch ext "process_card_payment" input)
    with (processCardPayment ext (card_token input)).
  rewrite processCardPayment_unfold, Hc.
  repeat split.
  - rewrite H. reflexivity.
  - rewrite H. reflexivity.
  - rewrite H. reflexivity.
  - rewrite H. reflexivity.
  - apply String.eqb_neq in H, H0. rewrite H, H0. reflexivity.
  - apply String.eqb_neq in H, H0. rewrite H, H0. reflexivity.
Qed.

Lemma process_card_payment_outcome_witness :
  let ext := demo_externals "successful" (Returned []) in
  let input := with_card_token "tokn_test_1" no_input in
  let t := turn_of widget_session in
  status (session t) = active
  /\ status (session (fst (handleToolCall ext "process_card_payment" input t))) = completed
  /\ snd (handleToolCall ext "process_card_payment" input t)
     = Returned "Payment processed successfully! Charge ID: chrg_test_1, Status: successful".
Proof.
  cbv zeta. split; [reflexivity|].
  apply (process_card_payment_outcome (demo_externals "successful" (Returned []))
           (with_card_token "tokn_test_1" no_input) (turn_of widget_session)
           (Charge.mk "chrg_test_1" "successful" (Some "insufficient funds")
              (Some "https://pay.example/authorize") 100000 "THB")).
  - reflexivity.
  - reflexivity.
Defined.

Lemma createPromptPayPayment_unfold ext t :
  createPromptPayPayment ext t =
  match createSource ext (clock t) (promptpay_source_request (session t)) with
  | Thrown e => (tick t, Thrown e)
  | Returned source =>
    match createCharge ext (S (clock t)) (source_charge_request (session t) source) with
    | Thrown e => (tick (tick t), Thrown e)
    | Returned charge =>
      (on_session (set_status pending_payment) (tick (tick t)),
       Returned ("PromptPay QR code generated! Scan URL: "
                 ++ show_opt (UserProfileService.or_obj (truthy (Source.download_uri source))
                                (Charge.authorize_uri charge))
                 ++ nl ++ "Charge ID: " ++ Charge.id charge))
    end
  end.
Proof.
  unfold createPromptPayPayment, bind, gets, call, modify, ret. cbn.
  destruct (createSource ext (clock t) _) as [source|e]; [|reflexivity]. cbn.
  destruct (createCharge ext (S (clock t)) _) as [charge|e]; reflexivity.
Qed.

Lemma createInternetBankingPayment_unfold ext bank t :
  createInternetBankingPayment ext bank t =
  match createSource ext (clock t) (bank_source_request (session t) bank) with
  | Thrown e => (tick t, Thrown e)
  | Returned source =>
    match createCharge ext (S (clock t)) (source_charge_request (session t) source) with
    | Thrown e => (tick (tick t), Thrown e)
    | Returned charge =>
      (on_session (set_status pending_payment) (tick (tick t)),
       Returned ("Internet banking payment created! Please visit: "
                 ++ show_opt (Charge.authorize_uri charge)
                 ++ nl ++ "Charge ID: " ++ Charge.id charge))
    end
  end.
Proof.
  unfold createInternetBankingPayment, bind, gets, call, modify, ret. cbn.
  destruct (createSource ext (clock t) _) as [source|e]; [|reflexivity]. cbn.
  destruct (createCharge ext (S (clock t)) _) as [charge|e]; reflexivity.
Qed.

(** C4.  [create_promptpay_payment] and [create_internet_banking_payment]
    set the session to [pending_payment] as soon as the source and the charge
    have been created, whatever the created charge says about its own
    status; nothing else of the session changes. *)
Theorem redirect_payment_sets_pending (ext : Externals) (input : ToolInput) (t : Turn)
    (source : Source.t) (charge : Charge.t) :
  createCharge ext (S (clock t)) (source_charge_request (session t) source)
    = Returned charge ->
  (createSource ext (clock t) (promptpay_source_request (session t)) = Returned source ->
   session (fst (handleToolCall ext "create_promptpay_payment" input t))
     = set_status pending_payment (session t)
   /\ exists shown, snd (handleToolCall ext "create_promptpay_payment" input t)
                    = Returned shown)
  /\ (createSource ext (clock t) (bank_source_request (session t) (bank input))
        = Returned source ->
      session (fst (handleToolCall ext "create_internet_banking_payment" input t))
        = set_status pending_payment (session t)
      /\ exists shown, snd (handleToolCall ext "create_internet_banking_payment" input t)
                       = Returned shown).
Proof.
  intros Hc. split; intros Hs; unfold handleToolCall, try_catch.
  - change (dispatch ext "create_promptpay_payment" input)
      with (createPromptPayPayment ext).
    rewrite createPromptPayPayment_unfold, Hs, Hc. cbn. eauto.
  - change (dispatch ext "create_internet_banking_payment" input)
      with (createInternetBankingPayment ext (bank input)).
    rewrite createInternetBankingPayment_unfold, Hs, Hc. cbn. eauto.
Qed.

Lemma redirect_payment_sets_pending_witness :
  let ext := demo_externals "successful" (Returned []) in
  let t := turn_of widget_session in
  status (session (fst (handleToolCall ext "create_promptpay_payment" no_input t)))
    = pending_payment
  /\ status (session (fst (handleToolCall ext "create_internet_banking_payment"
                             no_input t))) = pending_payment.
Proof.
  cbv zeta.
  pose proof (redirect_payment_sets_pending (demo_externals "successful" (Returned []))
                no_input (turn_of widget_session) (Source.mk "src_test_1" None)
                (Charge.mk "chrg_test_1" "successful" (Some "insufficient funds")
                   (Some "https://pay.example/authorize") 100000 "THB")
                eq_refl) as [Hp Hb].
  destruct (Hp eq_refl) as [-> _]. destruct (Hb eq_refl) as [-> _].
  split; reflexivity.
Defined.

(** ** Terminal states *)

Lemma handleToolCall_status_moves ext name input t :
  status_moves (session t) (session (fst (handleToolCall ext name input t))).
Proof.
  apply (handleToolCall_preserves ext status_moves);
    try (intros; left; reflexivity).
  - apply status_moves_trans.
  - intros s. right. left. reflexivity.
  - intros s. right. right. reflexivity.
Qed.

Lemma handleToolCall_other_same_status ext name input t :
  is_payment_tool name = false ->
  status (session (fst (handleToolCall ext name input t))) = status (session t).
Proof.
  intros H.
  apply (handleToolCall_other_preserves ext same_status); unfold same_status;
    try reflexivity; try assumption.
  intros; congruence.
Qed.

(** C5, as stated, fails: [create_promptpay_payment] moves a [completed]
    session to [pending_payment], and a successful [process_card_payment]
    moves a [cancelled] session to [completed]. *)
Lemma completed_session_is_reopened :
  let ext := demo_externals "successful" (Returned []) in
  let done := turn_of (set_status completed widget_session) in
  let dropped := turn_of (set_status cancelled widget_session) in
  (status (session done) = completed
   /\ status (session (fst (handleToolCall ext "create_promptpay_payment" no_input done)))
      = pending_payment)
  /\ (status (session dropped) = cancelled
      /\ status (session (fst (handleToolCall ext "process_card_payment"
                                 (with_card_token "tokn_test_1" no_input) dropped)))
         = completed).
Proof. cbv zeta. repeat split; vm_compute; reflexivity. Qed.

Lemma status_moves_refl s : status_moves s s.
Proof. left. reflexivity. Qed.

Lemma process_content_status_moves ext blocks acc t :
  status_moves (session t) (session (fst (process_content ext blocks acc t))).
Proof.
  apply (process_content_preserves ext status_moves);
    try (intros; left; reflexivity).
  - apply status_moves_trans.
  - intros s. right. left. reflexivity.
  - intros s. right. right. reflexivity.
Qed.

Lemma chat_turn_status_moves ext userMessage t :
  status_moves (session t) (session (fst (chat_turn ext userMessage t))).
Proof.
  rewrite chat_turn_unfold. cbv zeta.
  destruct (anthropic_messages_create ext (clock t) _) as [response|e];
    [|left; reflexivity].
  match goal with |- context [process_content ext response EmptyString ?t1] =>
    pose proof (process_content_status_moves ext response EmptyString t1) as H1;
    destruct (process_content ext response EmptyString t1) as [t2 [reply|e]]
  end; exact H1.
Qed.

Lemma session_evolves_status_moves ext s s' :
  session_evolves ext s s' -> status_moves s s'.
Proof.
  induction 1 as [|name input t _ IH|userMessage t _ IH].
  - apply status_moves_refl.
  - eapply status_moves_trans; [exact IH|apply handleToolCall_status_moves].
  - eapply status_moves_trans; [exact IH|apply chat_turn_status_moves].
Qed.

(** C5, amended.  No tool handler ever sets a session to [active] or to
    [cancelled]: through any number of tool calls and chat turns the status
    is what it was at the start, or [completed], or [pending_payment].  So a
    session that has left [active] (in particular a [completed] or
    [cancelled] one) never becomes [active] again, and a session is
    [cancelled] only if it was so at the start.  Only the four payment tools
    ([process_card_payment], [create_promptpay_payment],
    [create_internet_banking_payment], [process_quick_checkout]) change the
    status at all: every other tool returns with the status it found. *)
Theorem terminal_status_not_resurrected (ext : Externals) (s s' : CheckoutSession) :
  session_evolves ext s s' ->
  (status s' = status s \/ status s' = completed \/ status s' = pending_payment)
  /\ (status s <> active -> status s' <> active)
  /\ (status s = completed \/ status s = cancelled -> status s' <> active)
  /\ (status s' = cancelled -> status s = cancelled)
  /\ (forall name input t,
        is_payment_tool name = false ->
        status (session (fst (handleToolCall ext name input t))) = status (session t)).
Proof.
  intros Hev. apply session_evolves_status_moves in Hev. unfold status_moves in Hev.
  split; [exact Hev|]. split; [|split; [|split]].
  - intros Hs Ha. destruct Hev as [Hm|[Hm|Hm]]; congruence.
  - intros Hterm Ha. destruct Hev as [Hm|[Hm|Hm]], Hterm; congruence.
  - intros Hc. destruct Hev as [Hm|[Hm|Hm]]; congruence.
  - intros name input t. apply handleToolCall_other_same_status.
Qed.

Lemma terminal_status_not_resurrected_witness :
  let ext := demo_externals "successful" (Returned []) in
  let done := turn_of (set_status completed widget_session) in
  let t1 := fst (handleToolCall ext "create_promptpay_payment" no_input done) in
  let t2 := fst (handleToolCall ext "update_cart_item" (with_cart_item "1" 3 no_input) t1) in
  session_evolves ext (session done) (session t2)
  /\ status (session t1) = pending_payment
  /\ status (session t2) <> active.
Proof.
  cbv zeta.
  assert (Hev : session_evolves (demo_externals "successful" (Returned []))
                  (session (turn_of (set_status completed widget_session)))
                  (session
                     (fst (handleToolCall (demo_externals "successful" (Returned []))
                             "update_cart_item" (with_cart_item "1" 3 no_input)
                             (fst (handleToolCall
                                     (demo_externals "successful" (Returned []))
                                     "create_promptpay_payment" no_input
                                     (turn_of (set_status completed widget_session)))))))).
  { apply evolves_handleToolCall, evolves_handleToolCall, evolves_refl. }
  split; [exact Hev|]. split; [vm_compute; reflexivity|].
  apply (terminal_status_not_resurrected (demo_externals "successful" (Returned []))
           _ _ Hev).
  left. reflexivity.
Defined.

(** ** The chat turn *)

(** C6.  [chat] on a known session appends the user message before the
    model is called (the model is called on the session that already holds
    it), so the message stays when the model call fails; when the model
    answers, the whole reply is appended after it as one assistant message.
    The history the session had is kept as a prefix in both cases, whatever
    the tool handlers of the turn did, and [chat] fails only when the model
    call does. *)
Theorem chat_appends_to_history (ext : Externals) (sid userMessage : string) (a : Agent)
    (s : CheckoutSession) :
  sessions a !! sid = Some s ->
  let asked := {| role := user; content := userMessage |} in
  let a' := fst (chat ext sid userMessage a) in
  match snd (chat ext sid userMessage a) with
  | Returned reply =>
    (exists response,
        anthropic_messages_create ext (agent_clock a) (push_message asked s)
        = Returned response)
    /\ exists s', sessions a' !! sid = Some s'
                  /\ conversationHistory s'
                     = (conversationHistory s
                        ++ [asked; {| role := assistant; content := reply |}])%list
  | Thrown e =>
    anthropic_messages_create ext (agent_clock a) (push_message asked s) = Thrown e
    /\ exists s', sessions a' !! sid = Some s'
                  /\ conversationHistory s' = (conversationHistory s ++ [asked])%list
  end.
Proof.
  intros Hs. cbv zeta. unfold chat. rewrite Hs, chat_turn_unfold. cbv zeta. cbn [session clock].
  destruct (anthropic_messages_create ext (agent_clock a) _) as [response|e] eqn:Hm.
  - match goal with |- context [process_content ext response EmptyString ?t1] =>
      pose proof (process_content_same_history ext response EmptyString t1) as Hh;
      destruct (process_content_returns ext response EmptyString t1) as [reply Hr];
      destruct (process_content ext response EmptyString t1) as [t2 o]
    end.
    cbn in Hr, Hh. subst o. cbn. split; [eauto|].
    eexists. split; [apply lookup_insert_eq|]. cbn.
    rewrite Hh. rewrite <- app_assoc. reflexivity.
  - cbn. split; [reflexivity|].
    eexists. split; [apply lookup_insert_eq|]. reflexivity.
Qed.

Lemma chat_appends_to_history_witness :
  let ext := demo_externals "successful" (Returned reply_with_failing_tool) in
  let reply := "Checking." ++ nl ++ nl
               ++ "Error: Failed to retrieve charge: not found" ++ " Done." in
  snd (chat ext "sess_0" "Has it gone through?" widget_agent) = Returned reply
  /\ exists s', sessions (fst (chat ext "sess_0" "Has it gone through?" widget_agent))
                  !! "sess_0" = Some s'
                /\ conversationHistory s'
                   = [ {| role := user; content := "Has it gone through?" |};
                       {| role := assistant; content := reply |} ].
Proof.
  cbv zeta.
  pose proof (chat_appends_to_history
                (demo_externals "successful" (Returned reply_with_failing_tool))
                "sess_0" "Has it gone through?" widget_agent widget_session eq_refl) as H.
  cbv zeta in H.
  assert (Hr : snd (chat (demo_externals "successful" (Returned reply_with_failing_tool))
                      "sess_0" "Has it gone through?" widget_agent)
               = Returned ("Checking." ++ nl ++ nl
                           ++ "Error: Failed to retrieve charge: not found" ++ " Done."))
    by (vm_compute; reflexivity).
  rewrite Hr in H. split; [reflexivity|]. exact (proj2 H).
Defined.

(** C7.  When the handler of a tool call throws, [handleToolCall] returns
    the text ['Error: ' + message] in its place, the loop over the reply goes
    on with the remaining segments from the state the handler left, and the
    loop itself always returns; so [chat] returns a reply whenever the session
    exists and the model call returns. *)
Theorem failing_tool_call_is_folded (ext : Externals) (name : string) (input : ToolInput)
    (rest : list ContentBlock) (acc : string) (t t' : Turn) (message : string) :
  dispatch ext name input t = (t', Thrown message) ->
  handleToolCall ext name input t = (t', Returned ("Error: " ++ message))
  /\ process_content ext (tool_use name input :: rest) acc t
     = process_content ext rest (acc ++ nl ++ nl ++ "Error: " ++ message) t'
  /\ (exists reply,
         snd (process_content ext (tool_use name input :: rest) acc t) = Returned reply)
  /\ (forall (a : Agent) (sid userMessage : string) (s : CheckoutSession)
             (response : list ContentBlock),
         sessions a !! sid = Some s ->
         anthropic_messages_create ext (agent_clock a)
           (push_message {| role := user; content := userMessage |} s)
         = Returned response ->
         exists reply, snd (chat ext sid userMessage a) = Returned reply).
Proof.
  intros Hd.
  assert (Hh : handleToolCall ext name input t = (t', Returned ("Error: " ++ message))).
  { unfold handleToolCall, try_catch. rewrite Hd. reflexivity. }
  split; [exact Hh|]. split; [|split].
  - cbn [process_content]. unfold bind at 1. rewrite Hh. reflexivity.
  - apply process_content_returns.
  - intros a sid userMessage s response Hs Hm.
    unfold chat. rewrite Hs, chat_turn_unfold. cbv zeta. cbn [session clock].
    rewrite Hm.
    match goal with |- context [process_content ext ?bs EmptyString ?t1] =>
      destruct (process_content_returns ext bs EmptyString t1) as [reply Hr];
      destruct (process_content ext bs EmptyString t1) as [t2 o]
    end.
    cbn in Hr. subst o. cbn. eauto.
Qed.

Lemma failing_tool_call_is_folded_witness :
  let ext := demo_externals "successful" (Returned reply_with_failing_tool) in
  let t := turn_of widget_session in
  dispatch ext "check_payment_status" no_input t
    = (tick t, Thrown "Failed to retrieve charge: not found")
  /\ process_content ext [tool_use "check_payment_status" no_input; text " Done."]
       "Checking." t
     = (tick t, Returned ("Checking." ++ nl ++ nl
                          ++ "Error: Failed to retrieve charge: not found" ++ " Done.")).
Proof.
  cbv zeta. split; [reflexivity|].
  rewrite (proj1 (proj2 (failing_tool_call_is_folded
             (demo_externals "successful" (Returned reply_with_failing_tool))
             "check_payment_status" no_input [text " Done."] "Checking."
             (turn_of widget_session) (tick (turn_of widget_session))
             "Failed to retrieve charge: not found" eq_refl))).
  reflexivity.
Defined.

(** ** Updating the cart *)

Lemma list_find_middle (cid : string) (l1 l2 : list CartItem.t) (item : CartItem.t) :
  CartItem.id item = cid ->
  (forall x, x ∈ l1 -> CartItem.id x <> cid) ->
  list_find (fun i => CartItem.id i = cid) (l1 ++ item :: l2)%list = Some (length l1, item).
Proof.
  intros Hi. induction l1 as [|x l1 IH]; intros Hl; cbn.
  - rewrite decide_True by exact Hi. reflexivity.
  - rewrite decide_False by (apply Hl, list_elem_of_here).
    rewrite IH; [reflexivity|]. intros y Hy. apply Hl, list_elem_of_further, Hy.
Qed.

Lemma list_find_absent (cid : string) (l : list CartItem.t) :
  (forall x, x ∈ l -> CartItem.id x <> cid) ->
  list_find (fun i => CartItem.id i = cid) l = None.
Proof.
  intros Hl. apply list_find_None, Forall_forall. intros x Hx. apply Hl, Hx.
Qed.

Lemma delete_middle_item (l1 l2 : list CartItem.t) (item : CartItem.t) :
  delete (length l1) (l1 ++ item :: l2)%list = (l1 ++ l2)%list.
Proof. induction l1 as [|x l1 IH]; cbn; [reflexivity|]. f_equal. exact IH. Qed.

Lemma alter_middle_item f (l1 l2 : list CartItem.t) (item : CartItem.t) :
  alter f (length l1) (l1 ++ item :: l2)%list = (l1 ++ f item :: l2)%list.
Proof. induction l1 as [|x l1 IH]; cbn; [reflexivity|]. f_equal. exact IH. Qed.

Lemma updateCartItem_unfold cid q t :
  updateCartItem cid q t =
  match list_find (fun i => CartItem.id i = cid) (cart (session t)) with
  | None => (t, Returned ("Cart item with ID " ++ cid ++ " not found"))
  | Some (itemIndex, item) =>
    let items :=
      if decide (q = 0) then delete itemIndex (cart (session t))
      else alter (CartItem.with_quantity q) itemIndex (cart (session t)) in
    let s' := set_totalAmount (calculateTotal items) (set_cart items (session t)) in
    (on_session (fun _ => s') t,
     Returned (if decide (q = 0)
               then "Removed " ++ CartItem.name item ++ " from cart. New total: "
                    ++ formatAmount (totalAmount s') (currency s')
               else "Updated " ++ CartItem.name item ++ " quantity to " ++ show_Z q
                    ++ ". New total: " ++ formatAmount (totalAmount s') (currency s')))
  end.
Proof.
  unfold updateCartItem, bind, gets, modify, ret. cbn.
  destruct (list_find _ (cart (session t))) as [[itemIndex item]|]; [|reflexivity].
  destruct (decide (q = 0)); reflexivity.
Qed.

(** C8.  [update_cart_item] looks for the first cart item with the given
    id.  When there is one, quantity [0] removes that item and nothing else,
    any other quantity replaces the quantity of that item and nothing else,
    and in both cases [totalAmount] becomes the sum over the new cart.  When
    no item has the id, the handler answers "not found" and the session is
    left as it was. *)
Theorem update_cart_item_effect (ext : Externals) (input : ToolInput) (t : Turn) :
  let cid := cart_item_id input in
  let q := in_quantity input in
  let t' := fst (handleToolCall ext "update_cart_item" input t) in
  let r := snd (handleToolCall ext "update_cart_item" input t) in
  (forall (l1 l2 : list CartItem.t) (item : CartItem.t),
      cart (session t) = (l1 ++ item :: l2)%list ->
      CartItem.id item = cid ->
      (forall x, x ∈ l1 -> CartItem.id x <> cid) ->
      (q = 0 ->
       session t' = set_totalAmount (cart_sum (l1 ++ l2)%list)
                      (set_cart (l1 ++ l2)%list (session t))
       /\ r = Returned ("Removed " ++ CartItem.name item ++ " from cart. New total: "
                        ++ formatAmount (cart_sum (l1 ++ l2)%list) (currency (session t))))
      /\ (q <> 0 ->
          let items := (l1 ++ CartItem.with_quantity q item :: l2)%list in
          session t' = set_totalAmount (cart_sum items) (set_cart items (session t))
          /\ r = Returned ("Updated " ++ CartItem.name item ++ " quantity to " ++ show_Z q
                           ++ ". New total: "
                           ++ formatAmount (cart_sum items) (currency (session t)))))
  /\ ((forall x, x ∈ cart (session t) -> CartItem.id x <> cid) ->
      t' = t /\ r = Returned ("Cart item with ID " ++ cid ++ " not found")).
Proof.
  cbv zeta. unfold handleToolCall, try_catch.
  change (dispatch ext "update_cart_item" input)
    with (updateCartItem (cart_item_id input) (in_quantity input)).
  rewrite updateCartItem_unfold. split.
  - intros l1 l2 item Hc Hi Hl.
    rewrite Hc, (list_find_middle _ l1 l2 item Hi Hl). cbv zeta.
    split; intros Hq.
    + rewrite !decide_True by exact Hq. rewrite delete_middle_item.
      cbn. rewrite calculateTotal_cart_sum. split; reflexivity.
    + rewrite !decide_False by exact Hq. rewrite alter_middle_item.
      cbn. rewrite calculateTotal_cart_sum. split; reflexivity.
  - intros Hl. rewrite (list_find_absent _ _ Hl). split; reflexivity.
Qed.

Lemma update_cart_item_effect_witness :
  let ext := demo_externals "successful" (Returned []) in
  let t := turn_of (set_totalAmount 129900 (set_cart [widget; gadget] widget_session)) in
  (cart (session (fst (handleToolCall ext "update_cart_item"
                         (with_cart_item "2" 0 no_input) t))) = [widget]
   /\ totalAmount (session (fst (handleToolCall ext "update_cart_item"
                                   (with_cart_item "2" 0 no_input) t))) = 100000)
  /\ (cart (session (fst (handleToolCall ext "update_cart_item"
                            (with_cart_item "2" 3 no_input) t)))
      = [widget; CartItem.with_quantity 3 gadget]
      /\ totalAmount (session (fst (handleToolCall ext "update_cart_item"
                                      (with_cart_item "2" 3 no_input) t))) = 189700)
  /\ (fst (handleToolCall ext "update_cart_item" (with_cart_item "9" 0 no_input) t) = t
      /\ snd (handleToolCall ext "update_cart_item" (with_cart_item "9" 0 no_input) t)
         = Returned "Cart item with ID 9 not found").
Proof.
  cbv zeta.
  pose (ext := demo_externals "successful" (Returned [])).
  pose (t := turn_of (set_totalAmount 129900 (set_cart [widget; gadget] widget_session))).
  assert (Hfresh : forall x : CartItem.t, x ∈ [widget] -> CartItem.id x <> "2").
  { intros x Hx. apply list_elem_of_singleton in Hx. subst x. discriminate. }
  assert (Habsent : forall x : CartItem.t,
             x ∈ cart (session t) -> CartItem.id x <> "9").
  { intros x Hx. cbn in Hx. apply elem_of_cons in Hx as [->|Hx]; [discriminate|].
    apply list_elem_of_singleton in Hx. subst x. discriminate. }
  destruct (update_cart_item_effect ext (with_cart_item "2" 0 no_input) t) as [Hfound _].
  destruct (Hfound [widget] [] gadget eq_refl eq_refl Hfresh) as [Hzero _].
  destruct (Hzero eq_refl) as [Hs0 _].
  destruct (update_cart_item_effect ext (with_cart_item "2" 3 no_input) t) as [Hfound3 _].
  destruct (Hfound3 [widget] [] gadget eq_refl eq_refl Hfresh) as [_ Hset].
  destruct (Hset ltac:(discriminate)) as [Hs3 _].
  destruct (update_cart_item_effect ext (with_cart_item "9" 0 no_input) t) as [_ Hnone].
  fold ext t. rewrite Hs0, Hs3.
  split; [split; reflexivity|]. split; [split; reflexivity|].
  exact (Hnone Habsent).
Defined.

(** ** Quick checkout *)

Lemma getDefaultPaymentMethod_unfold uid t :
  UserProfileService.getDefaultPaymentMethod uid t =
  (t, Returned
        match profiles t !! uid with
        | None => None
        | Some profile =>
          UserProfileService.or_obj
            (List.find PaymentMethod.isDefault (UserProfile.paymentMethods profile))
            (UserProfile.paymentMethods profile !! 0%nat)
        end).
Proof.
  unfold UserProfileService.getDefaultPaymentMethod, UserProfileService.getProfile,
    bind, gets, ret.
  destruct (profiles t !! uid); reflexivity.
Qed.

Lemma ups_getQuickCheckoutData_unfold uid t :
  exists d,
    UserProfileService.getQuickCheckoutData uid t = (t, Returned d)
    /\ UserProfileService.paymentMethod d =
       match profiles t !! uid with
       | None => None
       | Some profile =>
         UserProfileService.or_obj
           (List.find PaymentMethod.isDefault (UserProfile.paymentMethods profile))
           (UserProfile.paymentMethods profile !! 0%nat)
       end.
Proof.
  unfold UserProfileService.getQuickCheckoutData,
    UserProfileService.getDefaultShippingAddress,
    UserProfileService.getDefaultBillingAddress,
    UserProfileService.getDefaultPaymentMethod, UserProfileService.getProfile,
    bind, gets, ret.
  cbv beta. destruct (profiles t !! uid) as [profile|] eqn:E.
  - cbv beta iota. rewrite !E. eexists; split; reflexivity.
  - eexists; split; reflexivity.
Qed.


(** What [processQuickCheckout] does once the profile service is there and
    the session has a user id: everything hangs on the method that
    [getQuickCheckoutData] reports. *)
Lemma processQuickCheckout_unfold ext o t uid d :
  userProfileService ext = true ->
  truthy (userId (session t)) = Some uid ->
  UserProfileService.getQuickCheckoutData uid t = (t, Returned d) ->
  processQuickCheckout ext o t =
  match UserProfileService.paymentMethod d with
  | None => (t, Returned "No saved payment method found. Please add a payment method first.")
  | Some paymentMethod =>
    match PaymentMethod.type paymentMethod,
          truthy (PaymentMethod.cardToken paymentMethod),
          truthy (PaymentMethod.bankCode paymentMethod) with
    | card, Some cardToken, _ =>
      bind (processCardPayment ext (Some cardToken)) (recordQuickCheckout uid) t
    | promptpay, _, _ =>
      bind (createPromptPayPayment ext) (recordQuickCheckout uid) t
    | internet_banking, _, Some bankCode =>
      bind (createInternetBankingPayment ext bankCode) (recordQuickCheckout uid) t
    | _, _, _ => (t, Returned "Saved payment method is incomplete or invalid.")
    end
  end.
Proof.
  intros He Hu Hd. unfold processQuickCheckout. rewrite He. cbn [negb].
  unfold bind at 1, gets at 1. rewrite Hu. unfold bind at 1. rewrite Hd.
  destruct (UserProfileService.paymentMethod d) as [pm|]; [|reflexivity].
  destruct (PaymentMethod.type pm), (truthy (PaymentMethod.cardToken pm)),
    (truthy (PaymentMethod.bankCode pm)); reflexivity.
Qed.


(** C9, as stated, fails: with a saved method that is not marked as default
    (so no default method is saved), [process_quick_checkout] charges it and
    the session moves from [active] to [pending_payment]. *)
Lemma quick_checkout_charges_without_default :
  let ext := demo_externals "successful" (Returned []) in
  let t := ann_turn [promptpay_method] in
  userId (session t) = Some "u1"
  /\ (exists p, profiles t !! "u1" = Some p
                /\ UserProfile.defaultPaymentMethodId p = None
                /\ forall m, m ∈ UserProfile.paymentMethods p ->
                             PaymentMethod.isDefault m = false)
  /\ status (session t) = active
  /\ status (session (fst (handleToolCall ext "process_quick_checkout" no_input t)))
     = pending_payment
  /\ snd (handleToolCall ext "process_quick_checkout" no_input t)
     = Returned ("Quick Checkout:" ++ nl
                 ++ "PromptPay QR code generated! Scan URL: https://pay.example/authorize"
                 ++ nl ++ "Charge ID: chrg_test_1").
Proof.
  cbv zeta. split; [reflexivity|]. split.
  - exists (ann [promptpay_method]). split; [reflexivity|]. split; [reflexivity|].
    intros m Hm. apply list_elem_of_singleton in Hm. subst m. reflexivity.
  - split; [reflexivity|]. split; vm_compute; reflexivity.
Qed.

(** C9, amended.  For a session with a user id, when the profile is missing
    or has no saved payment method at all, [process_quick_checkout] answers
    that no saved payment method was found and changes nothing: neither the
    session (its status included) nor the profile store. *)
Theorem quick_checkout_without_saved_method (ext : Externals) (input : ToolInput)
    (t : Turn) (uid : string) :
  userProfileService ext = true ->
  truthy (userId (session t)) = Some uid ->
  (profiles t !! uid = None
   \/ exists p, profiles t !! uid = Some p /\ UserProfile.paymentMethods p = []) ->
  handleToolCall ext "process_quick_checkout" input t
  = (t, Returned "No saved payment method found. Please add a payment method first.").
Proof.
  intros He Hu Hp. unfold handleToolCall, try_catch.
  change (dispatch ext "process_quick_checkout" input)
    with (processQuickCheckout ext (use_saved_payment input)).
  destruct (ups_getQuickCheckoutData_unfold uid t) as (d & Hd & Hpm).
  rewrite (processQuickCheckout_unfold ext _ t uid d He Hu Hd), Hpm.
  destruct Hp as [->|(p & -> & ->)]; reflexivity.
Qed.

Lemma quick_checkout_without_saved_method_witness :
  let ext := demo_externals "successful" (Returned []) in
  let t := ann_turn [] in
  handleToolCall ext "process_quick_checkout" no_input t
  = (t, Returned "No saved payment method found. Please add a payment method first.")
  /\ status (session t) = active.
Proof.
  cbv zeta. split; [|reflexivity].
  apply (quick_checkout_without_saved_method (demo_externals "successful" (Returned []))
           no_input (ann_turn []) "u1" eq_refl eq_refl).
  right. exists (ann []). split; reflexivity.
Defined.

Lemma recordCheckout_unfold uid amount t p :
  profiles t !! uid = Some p ->
  UserProfileService.recordCheckout uid amount t
  = (on_profiles
       (insert uid
          (UserProfile.with_updatedAt (S (clock t))
             (UserProfile.with_checkout (clock t) (UserProfile.totalOrders p + 1)
                (UserProfile.totalSpent p + amount) p)))
       (tick (tick t)), Returned tt).
Proof.
  intros Hp.
  unfold UserProfileService.recordCheckout, UserProfileService.getProfile,
    bind, gets, now, modify. cbv beta. rewrite Hp. reflexivity.
Qed.



(** * Further properties of the service *)

(** ** Tools that only read *)

Lemma checkPaymentStatus_frame ext c t :
  session (fst (checkPaymentStatus ext c t)) = session t
  /\ profiles (fst (checkPaymentStatus ext c t)) = profiles t.
Proof.
  unfold checkPaymentStatus, bind, call, ret.
  destruct (getCharge ext (clock t) c); split; reflexivity.
Qed.

Lemma searchProductBySku_frame ext k t :
  session (fst (searchProductBySku ext k t)) = session t
  /\ profiles (fst (searchProductBySku ext k t)) = profiles t.
Proof.
  unfold searchProductBySku.
  destruct (ecommercePlatformManager ext) as [manager|]; [|split; reflexivity].
  unfold bind, call, ret.
  destruct (searchProductBySku_ manager (clock t) k) as [[product|]|e]; split; reflexivity.
Qed.

Lemma listProducts_frame ext l q t :
  session (fst (listProducts ext l q t)) = session t
  /\ profiles (fst (listProducts ext l q t)) = profiles t.
Proof.
  unfold listProducts.
  destruct (ecommercePlatformManager ext) as [manager|]; [|split; reflexivity].
  unfold bind, call, ret.
  destruct (listProducts_ manager (clock t) l q) as [[|p ps]|e]; split; reflexivity.
Qed.

Lemma getSavedAddresses_frame ext t : fst (getSavedAddresses ext t) = t.
Proof.
  unfold getSavedAddresses.
  destruct (userProfileService ext); [|reflexivity]. cbn [negb].
  unfold UserProfileService.getProfile, bind, gets, ret. cbv beta.
  destruct (truthy (userId (session t))) as [uid|]; [|reflexivity].
  cbv beta. destruct (profiles t !! uid); reflexivity.
Qed.

Lemma getQuickCheckoutData_frame ext t : fst (getQuickCheckoutData ext t) = t.
Proof.
  unfold getQuickCheckoutData.
  destruct (userProfileService ext); [|reflexivity]. cbn [negb].
  unfold bind at 1, gets at 1.
  destruct (truthy (userId (session t))) as [uid|]; [|reflexivity].
  destruct (ups_getQuickCheckoutData_unfold uid t) as (d & Hd & _).
  unfold bind. rewrite Hd. reflexivity.
Qed.

Lemma handleToolCall_frame_of_dispatch ext name input t :
  session (fst (dispatch ext name input t)) = session t
  /\ profiles (fst (dispatch ext name input t)) = profiles t ->
  session (fst (handleToolCall ext name input t)) = session t
  /\ profiles (fst (handleToolCall ext name input t)) = profiles t.
Proof.
  unfold handleToolCall, try_catch.
  destruct (dispatch ext name input t) as [t' [r|e]]; cbn; auto.
Qed.

(** X1.  The handlers of [check_payment_status], [search_product_by_sku],
    [list_products], [get_saved_addresses] and [get_quick_checkout_data] only
    read: whatever the collaborators answer, the session and the profile store
    are left as they were. *)
Theorem read_only_tools_change_nothing (ext : Externals) (name : string)
    (input : ToolInput) (t : Turn) :
  is_read_only_tool name = true ->
  session (fst (handleToolCall ext name input t)) = session t
  /\ profiles (fst (handleToolCall ext name input t)) = profiles t.
Proof.
  unfold is_read_only_tool. intros H.
  apply handleToolCall_frame_of_dispatch.
  repeat (apply orb_true_iff in H; destruct H as [H|H]);
    apply String.eqb_eq in H; subst name.
  - apply checkPaymentStatus_frame.
  - apply searchProductBySku_frame.
  - apply listProducts_frame.
  - change (dispatch ext "get_saved_addresses" input) with (getSavedAddresses ext).
    rewrite getSavedAddresses_frame. split; reflexivity.
  - change (dispatch ext "get_quick_checkout_data" input) with (getQuickCheckoutData ext).
    rewrite getQuickCheckoutData_frame. split; reflexivity.
Qed.

Lemma read_only_tools_change_nothing_witness :
  let ext := demo_externals "successful" (Returned []) in
  let t := ann_turn [promptpay_method] in
  session (fst (handleToolCall ext "check_payment_status" no_input t)) = session t
  /\ profiles (fst (handleToolCall ext "get_quick_checkout_data" no_input t)) = profiles t.
Proof.
  cbv zeta. split.
  - apply (read_only_tools_change_nothing (demo_externals "successful" (Returned []))
             "check_payment_status" no_input (ann_turn [promptpay_method]) eq_refl).
  - apply (read_only_tools_change_nothing (demo_externals "successful" (Returned []))
             "get_quick_checkout_data" no_input (ann_turn [promptpay_method]) eq_refl).
Defined.

(** ** Tools whose capability is not configured *)

(** X2.  When no e-commerce platform manager was given to the service, the
    three platform tools answer that the integration is not available; no
    collaborator is called and nothing changes. *)
Theorem platform_tools_without_manager (ext : Externals) (name : string)
    (input : ToolInput) (t : Turn) :
  ecommercePlatformManager ext = None ->
  is_platform_tool name = true ->
  handleToolCall ext name input t
  = (t, Returned "E-commerce platform integration is not available").
Proof.
  unfold is_platform_tool. intros Hm H.
  repeat (apply orb_true_iff in H; destruct H as [H|H]);
    apply String.eqb_eq in H; subst name; unfold handleToolCall, try_catch.
  - change (dispatch ext "search_product_by_sku" input)
      with (searchProductBySku ext (sku input)).
    unfold searchProductBySku. rewrite Hm. reflexivity.
  - change (dispatch ext "add_product_to_cart" input)
      with (addProductToCart ext (product_id input) (num_or (in_quantity input) 1)).
    unfold addProductToCart. rewrite Hm. reflexivity.
  - change (dispatch ext "list_products" input)
      with (listProducts ext (num_or (limit input) 10) (search input)).
    unfold listProducts. rewrite Hm. reflexivity.
Qed.

Lemma platform_tools_without_manager_witness :
  let ext := {| anthropic_messages_create := fun _ _ => Returned [];
                createCharge := fun _ _ => Thrown "Failed to create charge: offline";
                createSource := fun _ _ => Thrown "Failed to create source: offline";
                getCharge := fun _ _ => Thrown "Failed to retrieve charge: offline";
                ecommercePlatformManager := None;
                userProfileService := false;
                random_id := fun _ => "x" |} in
  handleToolCall ext "add_product_to_cart" (with_product "p1" 2 no_input)
    (turn_of widget_session)
  = (turn_of widget_session,
     Returned "E-commerce platform integration is not available").
Proof.
  cbv zeta.
  apply platform_tools_without_manager; reflexivity.
Defined.

Lemma profile_tool_cases (name : string) :
  is_profile_tool name = true ->
  name = "save_shipping_address" \/ name = "save_billing_address"
  \/ name = "get_saved_addresses" \/ name = "save_payment_method"
  \/ name = "get_quick_checkout_data" \/ name = "process_quick_checkout".
Proof.
  unfold is_profile_tool. intros H.
  repeat (apply orb_true_iff in H; destruct H as [H|H]);
    apply String.eqb_eq in H; auto 10.
Qed.

(** X3.  The six profile tools do nothing but explain themselves when they
    cannot reach a profile: without a profile service they answer that it is
    not available, and with one but no user id on the session (missing or
    empty) they answer that no user profile is associated with the session.
    In both cases the state is untouched. *)
Theorem profile_tools_without_profile (ext : Externals) (name : string)
    (input : ToolInput) (t : Turn) :
  is_profile_tool name = true ->
  (userProfileService ext = false ->
   handleToolCall ext name input t
   = (t, Returned "User profile service is not available"))
  /\ (userProfileService ext = true ->
      truthy (userId (session t)) = None ->
      exists shown,
        handleToolCall ext name input t = (t, Returned shown)
        /\ String.prefix "No user profile associated with this session." shown = true).
Proof.
  intros H. apply profile_tool_cases in H.
  split.
  - intros He.
    destruct H as [->|[->|[->|[->|[->| ->]]]]]; unfold handleToolCall, try_catch;
      [ change (dispatch ext "save_shipping_address" input)
          with (saveShippingAddress ext input); unfold saveShippingAddress
      | change (dispatch ext "save_billing_address" input)
          with (saveBillingAddress ext input); unfold saveBillingAddress
      | change (dispatch ext "get_saved_addresses" input)
          with (getSavedAddresses ext); unfold getSavedAddresses
      | change (dispatch ext "save_payment_method" input)
          with (savePaymentMethod ext input); unfold savePaymentMethod
      | change (dispatch ext "get_quick_checkout_data" input)
          with (getQuickCheckoutData ext); unfold getQuickCheckoutData
      | change (dispatch ext "process_quick_checkout" input)
          with (processQuickCheckout ext (use_saved_payment input));
        unfold processQuickCheckout ];
      rewrite He; reflexivity.
  - intros He Hu.
    destruct H as [->|[->|[->|[->|[->| ->]]]]]; unfold handleToolCall, try_catch;
      [ change (dispatch ext "save_shipping_address" input)
          with (saveShippingAddress ext input); unfold saveShippingAddress
      | change (dispatch ext "save_billing_address" input)
          with (saveBillingAddress ext input); unfold saveBillingAddress
      | change (dispatch ext "get_saved_addresses" input)
          with (getSavedAddresses ext); unfold getSavedAddresses
      | change (dispatch ext "save_payment_method" input)
          with (savePaymentMethod ext input); unfold savePaymentMethod
      | change (dispatch ext "get_quick_checkout_data" input)
          with (getQuickCheckoutData ext); unfold getQuickCheckoutData
      | change (dispatch ext "process_quick_checkout" input)
          with (processQuickCheckout ext (use_saved_payment input));
        unfold processQuickCheckout ];
      rewrite He; cbn [negb]; unfold bind, gets; rewrite Hu;
      eexists; (split; [reflexivity|reflexivity]).
Qed.

Lemma profile_tools_without_profile_witness :
  let ext := demo_externals "successful" (Returned []) in
  let t := turn_of widget_session in
  exists shown,
    handleToolCall ext "process_quick_checkout" no_input t = (t, Returned shown)
    /\ String.prefix "No user profile associated with this session." shown = true.
Proof.
  cbv zeta.
  exact (proj2 (profile_tools_without_profile
                  (demo_externals "successful" (Returned []))
                  "process_quick_checkout" no_input (turn_of widget_session) eq_refl)
           eq_refl eq_refl).
Defined.

(** ** Names the switch does not know *)

(** X4.  A tool name that the [switch] has no case for is answered with
    ['Unknown tool: ' + name]; nothing is called and nothing changes. *)
Theorem unknown_tool_is_reported (ext : Externals) (name : string) (input : ToolInput)
    (t : Turn) :
  is_known_tool name = false ->
  handleToolCall ext name input t = (t, Returned ("Unknown tool: " ++ name)).
Proof.
  unfold is_known_tool, is_payment_tool, is_read_only_tool, is_platform_tool,
    is_profile_tool.
  intros H.
  repeat match goal with
         | E : _ || _ = false |- _ => apply orb_false_iff in E; destruct E
         end.
  unfold handleToolCall, try_catch, dispatch.
  repeat match goal with
         | E : String.eqb name _ = false |- _ => rewrite !E; clear E
         end.
  reflexivity.
Qed.

Lemma unknown_tool_is_reported_witness :
  handleToolCall (demo_externals "successful" (Returned [])) "refund_charge" no_input
    (turn_of widget_session)
  = (turn_of widget_session, Returned "Unknown tool: refund_charge").
Proof. apply unknown_tool_is_reported. reflexivity. Defined.

(** ** Adding a product *)

Lemma cart_sum_app (l1 l2 : list CartItem.t) :
  cart_sum (l1 ++ l2)%list = cart_sum l1 + cart_sum l2.
Proof. induction l1 as [|item rest IH]; cbn [app cart_sum]; [|rewrite IH]; lia. Qed.

(** X5.  [add_product_to_cart] with a platform manager: when the product is
    fetched, one item is appended to the cart, carrying the product's id, name,
    description and price and the requested quantity, or quantity 1 when the
    request has none or asks for 0; [totalAmount] becomes the old cart sum plus
    price times that quantity.  When fetching the product throws, the session
    and the profile store are left as they were and the reply carries
    ['Error: ' + message]. *)
Theorem add_product_to_cart_effect (ext : Externals) (input : ToolInput) (t : Turn)
    (manager : EcommercePlatformManager) :
  ecommercePlatformManager ext = Some manager ->
  let q := if decide (in_quantity input = 0) then 1 else in_quantity input in
  let t' := fst (handleToolCall ext "add_product_to_cart" input t) in
  let r := snd (handleToolCall ext "add_product_to_cart" input t) in
  profiles t' = profiles t
  /\ (forall product,
         getProduct manager (clock t) (product_id input) = Returned product ->
         let item := CartItem.mk (Product.id product) (Product.name product)
                       (Some (Product.description product)) (Product.price product) q in
         let total := cart_sum (cart (session t)) + Product.price product * q in
         session t' = set_totalAmount total
                        (set_cart (cart (session t) ++ [item]) (session t))
         /\ r = Returned ("Added " ++ show_Z q ++ "x " ++ Product.name product
                          ++ " to cart. New total: "
                          ++ formatAmount total (currency (session t))))
  /\ (forall e,
         getProduct manager (clock t) (product_id input) = Thrown e ->
         session t' = session t /\ r = Returned ("Error: " ++ e)).
Proof.
  intros Hm. cbv zeta. unfold handleToolCall, try_catch.
  change (dispatch ext "add_product_to_cart" input)
    with (addProductToCart ext (product_id input) (num_or (in_quantity input) 1)).
  unfold addProductToCart. rewrite Hm. unfold bind, call, modify, gets, ret, num_or.
  destruct (getProduct manager (clock t) (product_id input)) as [product|e];
    cbn -[calculateTotal formatAmount show_Z cart_sum].
  - split; [reflexivity|]. split; [|discriminate].
    intros p' Hp. injection Hp as <-.
    rewrite calculateTotal_cart_sum, cart_sum_app. cbn [cart_sum].
    rewrite Z.add_0_r. split; reflexivity.
  - split; [reflexivity|]. split; [discriminate|].
    intros e' He. injection He as <-. split; reflexivity.
Qed.

Lemma add_product_to_cart_effect_witness :
  let ext := demo_externals "successful" (Returned []) in
  let t := turn_of widget_session in
  cart (session (fst (handleToolCall ext "add_product_to_cart"
                        (with_product "p1" 0 no_input) t)))
  = [widget; CartItem.mk "p1" "Gadget" (Some "A gadget") 29900 1]
  /\ snd (handleToolCall ext "add_product_to_cart" (with_product "p9" 2 no_input) t)
     = Returned "Error: Product not found".
Proof.
  cbv zeta.
  destruct (add_product_to_cart_effect (demo_externals "successful" (Returned []))
              (with_product "p1" 0 no_input) (turn_of widget_session) demo_platform
              eq_refl) as (_ & Hok & _).
  destruct (Hok _ eq_refl) as [-> _].
  destruct (add_product_to_cart_effect (demo_externals "successful" (Returned []))
              (with_product "p9" 2 no_input) (turn_of widget_session) demo_platform
              eq_refl) as (_ & _ & Hko).
  destruct (Hko _ eq_refl) as [_ ->].
  split; reflexivity.
Defined.

(** ** What no handler writes *)

Lemma same_identity_refl s : same_identity s s.
Proof. unfold same_identity. auto. Qed.

Lemma same_identity_trans s1 s2 s3 :
  same_identity s1 s2 -> same_identity s2 s3 -> same_identity s1 s3.
Proof. unfold same_identity. intuition congruence. Qed.

Lemma process_content_same_identity ext blocks acc t :
  same_identity (session t) (session (fst (process_content ext blocks acc t))).
Proof.
  apply (process_content_preserves ext same_identity);
    try exact same_identity_refl; try exact same_identity_trans;
    intros; unfold same_identity; cbn; repeat split.
Qed.

(** X6.  No tool handler and no chat turn writes the fields a session gets
    at creation: [sessionId], [userId], [currency], [customerId] and
    [paymentMethod] are the same after any tool call and after any [chat],
    whether it returns or throws. *)
Theorem session_identity_is_kept (ext : Externals) :
  (forall name input t,
      same_identity (session t) (session (fst (handleToolCall ext name input t))))
  /\ (forall sid userMessage a s,
         sessions a !! sid = Some s ->
         exists s', sessions (fst (chat ext sid userMessage a)) !! sid = Some s'
                    /\ same_identity s s').
Proof.
  split.
  - intros name input t.
    apply (handleToolCall_preserves ext same_identity);
      try exact same_identity_refl; try exact same_identity_trans;
      intros; unfold same_identity; cbn; repeat split.
  - intros sid userMessage a s Hs. unfold chat. rewrite Hs, chat_turn_unfold.
    cbv zeta. cbn [session clock].
    destruct (anthropic_messages_create ext (agent_clock a) _) as [response|e].
    + match goal with |- context [process_content ext response EmptyString ?t1] =>
        pose proof (process_content_same_identity ext response EmptyString t1) as Hi;
        destruct (process_content ext response EmptyString t1) as [t2 [reply|e]]
      end; cbn in Hi |- *;
        (eexists; split; [apply lookup_insert_eq|]);
        unfold same_identity in *; cbn; exact Hi.
    + cbn. eexists; split; [apply lookup_insert_eq|].
      unfold same_identity; cbn; repeat split.
Qed.

Lemma session_identity_is_kept_witness :
  let ext := demo_externals "successful"
               (Returned [tool_use "create_promptpay_payment" no_input]) in
  exists s', sessions (fst (chat ext "sess_0" "PromptPay please" widget_agent))
               !! "sess_0" = Some s'
             /\ same_identity widget_session s'.
Proof.
  cbv zeta.
  exact (proj2 (session_identity_is_kept
                  (demo_externals "successful"
                     (Returned [tool_use "create_promptpay_payment" no_input])))
           "sess_0" "PromptPay please" widget_agent widget_session eq_refl).
Defined.

(** ** Sessions are independent *)

(** X7.  [chat] reads and writes one session only: every other entry of the
    session map is the same afterwards, and for an id that is not in the map
    [chat] throws 'Session not found' without calling the model or changing
    anything. *)
Theorem chat_touches_one_session (ext : Externals) (sid userMessage : string) (a : Agent) :
  (forall other, other <> sid ->
                 sessions (fst (chat ext sid userMessage a)) !! other = sessions a !! other)
  /\ (sessions a !! sid = None ->
      chat ext sid userMessage a = (a, Thrown "Session not found")).
Proof.
  unfold chat. split.
  - intros other Ho. destruct (sessions a !! sid) as [found|]; [|reflexivity].
    destruct (chat_turn ext userMessage _) as [t r]. cbn.
    apply lookup_insert_ne. congruence.
  - intros ->. reflexivity.
Qed.

Lemma chat_touches_one_session_witness :
  let ext := demo_externals "successful"
               (Returned [tool_use "create_promptpay_payment" no_input]) in
  let a := {| sessions := <[ "sess_7" := set_status completed widget_session ]>
                            (sessions widget_agent);
              agent_profiles := ∅; agent_clock := 8 |} in
  sessions (fst (chat ext "sess_0" "PromptPay please" a)) !! "sess_7"
  = Some (set_status completed widget_session)
  /\ chat ext "sess_9" "Hello" a = (a, Thrown "Session not found").
Proof.
  cbv zeta.
  match goal with |- sessions (fst (chat ?ext ?sid ?msg ?a)) !! _ = _ /\ _ =>
    pose proof (chat_touches_one_session ext sid msg a) as [Hother _];
    pose proof (chat_touches_one_session ext "sess_9" "Hello" a) as [_ Hnone]
  end.
  split.
  - rewrite Hother by discriminate. reflexivity.
  - apply Hnone. reflexivity.
Defined.

(** X8.  [getSession] finds the session [createSession] has just returned,
    under the id that session carries, and reads without writing;
    [createSession] leaves every other entry of the session map and the whole
    profile store as they were. *)
Theorem createSession_then_getSession (ext : Externals) (items : list CartItem.t)
    (cur uid : option string) (a : Agent) :
  exists a' s,
    createSession ext items cur uid a = (a', Returned s)
    /\ getSession (sessionId s) a' = (a', Returned (Some s))
    /\ (forall other, other <> sessionId s -> sessions a' !! other = sessions a !! other)
    /\ agent_profiles a' = agent_profiles a.
Proof.
  eexists _, _. split; [apply createSession_unfold|]. cbv zeta.
  unfold getSession, gets. cbn. rewrite lookup_insert_eq.
  split; [reflexivity|]. split; [|reflexivity].
  intros other Ho. apply lookup_insert_ne. congruence.
Qed.

Lemma createSession_then_getSession_witness :
  let ext := demo_externals "successful" (Returned []) in
  exists a' s,
    createSession ext [gadget] None None widget_agent = (a', Returned s)
    /\ getSession (sessionId s) a' = (a', Returned (Some s))
    /\ sessions a' !! "sess_0" = Some widget_session.
Proof.
  cbv zeta.
  destruct (createSession_then_getSession (demo_externals "successful" (Returned []))
              [gadget] None None widget_agent) as (a' & s & Hc & Hg & Hother & _).
  exists a', s. split; [exact Hc|]. split; [exact Hg|].
  rewrite createSession_unfold in Hc. cbv zeta in Hc.
  injection Hc as <- <-. vm_compute. reflexivity.
Defined.

(** ** The reply is assembled segment by segment *)

Lemma string_app_cons (c : Ascii.ascii) (s1 s2 : string) :
  String c s1 ++ s2 = String c (s1 ++ s2).
Proof. reflexivity. Qed.

Lemma string_app_nil_r (s : string) : s ++ EmptyString = s.
Proof. induction s as [|c s IH]; [reflexivity|]. rewrite string_app_cons, IH. reflexivity. Qed.

Lemma string_app_assoc (s1 s2 s3 : string) : (s1 ++ s2) ++ s3 = s1 ++ (s2 ++ s3).
Proof.
  induction s1 as [|c s1 IH]; [reflexivity|].
  rewrite !string_app_cons, IH. reflexivity.
Qed.

(** X9.  The loop over the model's reply composes: running it over two
    lists of segments in a row is running it over the first and then, from the
    state and the text reached, over the second.  A reply made of text
    segments only is their concatenation, with no separator, and changes
    nothing. *)
Theorem process_content_composes (ext : Externals) (first second : list ContentBlock)
    (texts : list string) (acc : string) (t : Turn) :
  process_content ext (first ++ second) acc t
  = bind (process_content ext first acc) (process_content ext second) t
  /\ process_content ext (map text texts) acc t
     = (t, Returned (acc ++ fold_right String.append EmptyString texts)).
Proof.
  split.
  - revert acc t. induction first as [|block rest IH]; intros acc t; [reflexivity|].
    cbn [app process_content].
    destruct block as [txt|name input|]; [apply IH| |apply IH].
    unfold bind.
    destruct (handleToolCall ext name input t) as [t1 [r|e]]; [|reflexivity].
    rewrite IH. reflexivity.
  - revert acc. induction texts as [|txt rest IH]; intros acc.
    + cbn. rewrite string_app_nil_r. reflexivity.
    + cbn [map process_content fold_right]. rewrite IH, string_app_assoc. reflexivity.
Qed.

(** ** Quick checkout and the profile's order statistics *)

Lemma find_first_default (before after : list PaymentMethod.t) (m : PaymentMethod.t) :
  (forall x, x ∈ before -> PaymentMethod.isDefault x = false) ->
  PaymentMethod.isDefault m = true ->
  UserProfileService.or_obj
    (List.find PaymentMethod.isDefault (before ++ m :: after)%list)
    ((before ++ m :: after)%list !! 0%nat) = Some m.
Proof.
  intros Hb Hm. induction before as [|x before IH]; cbn.
  - rewrite Hm. reflexivity.
  - rewrite (Hb x) by apply list_elem_of_here.
    assert (Hf : List.find PaymentMethod.isDefault (before ++ m :: after)%list = Some m).
    { clear IH. induction before as [|y before IH]; cbn.
      - rewrite Hm. reflexivity.
      - rewrite (Hb y) by apply list_elem_of_further, list_elem_of_here.
        apply IH. intros z Hz. apply Hb.
        apply elem_of_cons in Hz as [->|Hz];
          [apply list_elem_of_here|do 2 apply list_elem_of_further; exact Hz]. }
    rewrite Hf. reflexivity.
Qed.

(** X10.  Quick checkout with a saved default card that the gateway charges
    successfully: the session becomes [completed] and the checkout is recorded
    on the profile once, adding one order and the session's [totalAmount] to
    the money spent; the saved methods and addresses are not touched. *)
Theorem quick_checkout_records_the_order (ext : Externals) (input : ToolInput) (t : Turn)
    (uid cardToken : string) (p : UserProfile.t) (before after : list PaymentMethod.t)
    (m : PaymentMethod.t) (charge : Charge.t) :
  userProfileService ext = true ->
  truthy (userId (session t)) = Some uid ->
  profiles t !! uid = Some p ->
  UserProfile.paymentMethods p = (before ++ m :: after)%list ->
  (forall x, x ∈ before -> PaymentMethod.isDefault x = false) ->
  PaymentMethod.isDefault m = true ->
  PaymentMethod.type m = card ->
  truthy (PaymentMethod.cardToken m) = Some cardToken ->
  createCharge ext (clock t) (card_charge_request (session t) (Some cardToken))
    = Returned charge ->
  Charge.status charge = "successful" ->
  let t' := fst (handleToolCall ext "process_quick_checkout" input t) in
  session t' = set_status completed (session t)
  /\ snd (handleToolCall ext "process_quick_checkout" input t)
     = Returned ("Quick Checkout:" ++ nl ++ "Payment processed successfully! Charge ID: "
                 ++ Charge.id charge ++ ", Status: successful")
  /\ exists p', profiles t' !! uid = Some p'
                /\ UserProfile.totalOrders p' = UserProfile.totalOrders p + 1
                /\ UserProfile.totalSpent p'
                   = UserProfile.totalSpent p + totalAmount (session t)
                /\ UserProfile.paymentMethods p' = UserProfile.paymentMethods p
                /\ UserProfile.shippingAddresses p' = UserProfile.shippingAddresses p
                /\ UserProfile.billingAddresses p' = UserProfile.billingAddresses p.
Proof.
  intros He Hu Hp Hl Hb Hm Hty Htok Hc Hst. cbv zeta.
  destruct (handleToolCall ext "process_quick_checkout" input t) as [t' r] eqn:Hh.
  unfold handleToolCall, try_catch in Hh.
  change (dispatch ext "process_quick_checkout" input)
    with (processQuickCheckout ext (use_saved_payment input)) in Hh.
  destruct (ups_getQuickCheckoutData_unfold uid t) as (d & Hd & Hpm).
  rewrite Hp, Hl, (find_first_default before after m Hb Hm) in Hpm.
  rewrite (processQuickCheckout_unfold ext _ t uid d He Hu Hd), Hpm, Hty, Htok in Hh.
  unfold bind at 1 in Hh. rewrite processCardPayment_unfold, Hc, Hst in Hh.
  cbn [String.eqb Ascii.eqb Bool.eqb andb] in Hh.
  unfold recordQuickCheckout, bind, gets, ret in Hh.
  cbn [session on_session tick status set_status] in Hh.
  rewrite decide_True in Hh by reflexivity.
  rewrite (recordCheckout_unfold uid _ _ p) in Hh by exact Hp.
  injection Hh as <- <-.
  cbn [fst snd session on_profiles profiles tick on_session totalAmount set_status].
  split; [reflexivity|]. split; [reflexivity|].
  eexists. split; [apply lookup_insert_eq|]. cbn. repeat split.
Qed.

Lemma quick_checkout_records_the_order_witness :
  let ext := demo_externals "successful" (Returned []) in
  let t := ann_turn [promptpay_method; saved_card] in
  status (session (fst (handleToolCall ext "process_quick_checkout" no_input t)))
  = completed
  /\ exists p', profiles (fst (handleToolCall ext "process_quick_checkout" no_input t))
                  !! "u1" = Some p'
                /\ UserProfile.totalOrders p' = 1
                /\ UserProfile.totalSpent p' = 100000.
Proof.
  cbv zeta.
  assert (Hb : forall x, x ∈ [promptpay_method] -> PaymentMethod.isDefault x = false).
  { intros x Hx. apply list_elem_of_singleton in Hx. subst x. reflexivity. }
  destruct (quick_checkout_records_the_order
              (demo_externals "successful" (Returned [])) no_input
              (ann_turn [promptpay_method; saved_card]) "u1" "tokn_saved"
              (ann [promptpay_method; saved_card]) [promptpay_method] [] saved_card
              (Charge.mk "chrg_test_1" "successful" (Some "insufficient funds")
                 (Some "https://pay.example/authorize") 100000 "THB")
              eq_refl eq_refl eq_refl eq_refl Hb eq_refl eq_refl eq_refl eq_refl eq_refl)
    as (Hs & _ & p' & Hp' & Ho & Hsp & _).
  split; [rewrite Hs; reflexivity|].
  exists p'. split; [exact Hp'|]. split; [exact Ho|exact Hsp].
Defined.

Lemma processCardPayment_profiles ext tok t :
  profiles (fst (processCardPayment ext tok t)) = profiles t.
Proof.
  rewrite processCardPayment_unfold.
  destruct (createCharge ext (clock t) _) as [charge|e]; [|reflexivity].
  destruct (String.eqb (Charge.status charge) "successful"); [reflexivity|].
  destruct (String.eqb (Charge.status charge) "pending"); reflexivity.
Qed.

Lemma createPromptPayPayment_profiles ext t :
  profiles (fst (createPromptPayPayment ext t)) = profiles t.
Proof.
  rewrite createPromptPayPayment_unfold.
  destruct (createSource ext (clock t) _) as [source|e]; [|reflexivity].
  destruct (createCharge ext (S (clock t)) _) as [charge|e]; reflexivity.
Qed.

Lemma createInternetBankingPayment_profiles ext bank t :
  profiles (fst (createInternetBankingPayment ext bank t)) = profiles t.
Proof.
  rewrite createInternetBankingPayment_unfold.
  destruct (createSource ext (clock t) _) as [source|e]; [|reflexivity].
  destruct (createCharge ext (S (clock t)) _) as [charge|e]; reflexivity.
Qed.

Lemma recordCheckout_session uid amount t :
  session (fst (UserProfileService.recordCheckout uid amount t)) = session t.
Proof.
  symmetry. apply (recordCheckout_preserves eq); [reflexivity|].
  intros s1 s2 s3 -> ->. reflexivity.
Qed.

Lemma pay_then_record (pay : M Turn string) (uid : string) (t : Turn) :
  (forall t0, profiles (fst (pay t0)) = profiles t0) ->
  status (session (fst (bind pay (recordQuickCheckout uid) t))) <> completed ->
  profiles (fst (bind pay (recordQuickCheckout uid) t)) = profiles t.
Proof.
  intros Hpay. unfold bind at 1 2. specialize (Hpay t).
  destruct (pay t) as [t1 [r|e]]; cbn [fst] in *; [|intros _; exact Hpay].
  unfold recordQuickCheckout, bind, gets, ret.
  destruct (decide (status (session t1) = completed)) as [Hdone|Hnot].
  - pose proof (recordCheckout_session uid (totalAmount (session t1)) t1) as Hs.
    destruct (UserProfileService.recordCheckout uid (totalAmount (session t1)) t1)
      as [t2 [[]|e]]; cbn [fst] in *; rewrite Hs; intros Hn; contradiction.
  - intros _. exact Hpay.
Qed.

(** X11.  [process_quick_checkout] writes to the profile store only to record
    a completed checkout: whenever the session is not [completed] after the
    call (payment pending, declined, failed, or not attempted), the profile
    store is exactly as it was. *)
Theorem quick_checkout_records_only_completed (ext : Externals) (input : ToolInput)
    (t : Turn) :
  status (session (fst (handleToolCall ext "process_quick_checkout" input t)))
    <> completed ->
  profiles (fst (handleToolCall ext "process_quick_checkout" input t)) = profiles t.
Proof.
  assert (Hd : forall t',
             status (session (fst (dispatch ext "process_quick_checkout" input t)))
               <> completed ->
             t' = fst (dispatch ext "process_quick_checkout" input t) ->
             profiles t' = profiles t).
  { intros t' Hn ->. revert Hn.
    change (dispatch ext "process_quick_checkout" input)
      with (processQuickCheckout ext (use_saved_payment input)).
    destruct (userProfileService ext) eqn:He;
      [|unfold processQuickCheckout; rewrite He; reflexivity].
    destruct (truthy (userId (session t))) as [uid|] eqn:Hu;
      [|unfold processQuickCheckout; rewrite He; cbn [negb]; unfold bind, gets;
        rewrite Hu; reflexivity].
    destruct (ups_getQuickCheckoutData_unfold uid t) as (d & Hq & _).
    rewrite (processQuickCheckout_unfold ext _ t uid d He Hu Hq).
    destruct (UserProfileService.paymentMethod d) as [pm|]; [|reflexivity].
    destruct (PaymentMethod.type pm), (truthy (PaymentMethod.cardToken pm)),
      (truthy (PaymentMethod.bankCode pm)); try reflexivity;
      apply pay_then_record; intros t0;
      first [ apply processCardPayment_profiles
            | apply createPromptPayPayment_profiles
            | apply createInternetBankingPayment_profiles ]. }
  unfold handleToolCall, try_catch.
  specialize (Hd (fst (dispatch ext "process_quick_checkout" input t))).
  destruct (dispatch ext "process_quick_checkout" input t) as [t' [r|e]];
    cbn [fst ret] in *; intros Hn; apply Hd; auto.
Qed.

Lemma quick_checkout_records_only_completed_witness :
  let ext := demo_externals "successful" (Returned []) in
  let t := ann_turn [promptpay_method] in
  profiles (fst (handleToolCall ext "process_quick_checkout" no_input t)) = profiles t.
Proof.
  cbv zeta.
  apply (quick_checkout_records_only_completed
           (demo_externals "successful" (Returned [])) no_input
           (ann_turn [promptpay_method])).
  vm_compute. discriminate.
Defined.

(** X12.  The record is made on the status the session has after the payment
    step, not on the outcome of that step: with a session that is already
    [completed], a saved default card that the gateway declines still adds one
    order and the session's [totalAmount] to the profile, while the reply
    reports the failed payment. *)
Theorem quick_checkout_on_completed_session (ext : Externals) (input : ToolInput)
    (t : Turn) (uid cardToken : string) (p : UserProfile.t)
    (before after : list PaymentMethod.t) (m : PaymentMethod.t) (charge : Charge.t) :
  userProfileService ext = true ->
  truthy (userId (session t)) = Some uid ->
  profiles t !! uid = Some p ->
  UserProfile.paymentMethods p = (before ++ m :: after)%list ->
  (forall x, x ∈ before -> PaymentMethod.isDefault x = false) ->
  PaymentMethod.isDefault m = true ->
  PaymentMethod.type m = card ->
  truthy (PaymentMethod.cardToken m) = Some cardToken ->
  status (session t) = completed ->
  createCharge ext (clock t) (card_charge_request (session t) (Some cardToken))
    = Returned charge ->
  Charge.status charge <> "successful" ->
  Charge.status charge <> "pending" ->
  let t' := fst (handleToolCall ext "process_quick_checkout" input t) in
  session t' = session t
  /\ snd (handleToolCall ext "process_quick_checkout" input t)
     = Returned ("Quick Checkout:" ++ nl ++ "Payment failed: "
                 ++ or_else (Charge.failure_message charge) "Unknown error")
  /\ exists p', profiles t' !! uid = Some p'
                /\ UserProfile.totalOrders p' = UserProfile.totalOrders p + 1
                /\ UserProfile.totalSpent p'
                   = UserProfile.totalSpent p + totalAmount (session t).
Proof.
  intros He Hu Hp Hl Hb Hm Hty Htok Hdone Hc Hs1 Hs2. cbv zeta.
  destruct (handleToolCall ext "process_quick_checkout" input t) as [t' r] eqn:Hh.
  unfold handleToolCall, try_catch in Hh.
  change (dispatch ext "process_quick_checkout" input)
    with (processQuickCheckout ext (use_saved_payment input)) in Hh.
  destruct (ups_getQuickCheckoutData_unfold uid t) as (d & Hd & Hpm).
  rewrite Hp, Hl, (find_first_default before after m Hb Hm) in Hpm.
  rewrite (processQuickCheckout_unfold ext _ t uid d He Hu Hd), Hpm, Hty, Htok in Hh.
  unfold bind at 1 in Hh. rewrite processCardPayment_unfold, Hc in Hh.
  apply String.eqb_neq in Hs1, Hs2. rewrite Hs1, Hs2 in Hh.
  unfold recordQuickCheckout, bind, gets, ret in Hh.
  cbn [session tick] in Hh.
  rewrite decide_True in Hh by exact Hdone.
  rewrite (recordCheckout_unfold uid _ _ p) in Hh by exact Hp.
  injection Hh as <- <-.
  cbn [fst snd session on_profiles profiles tick].
  split; [reflexivity|]. split; [reflexivity|].
  eexists. split; [apply lookup_insert_eq|]. cbn. split; reflexivity.
Qed.

Lemma quick_checkout_on_completed_session_witness :
  let ext := demo_externals "failed" (Returned []) in
  let t := on_session (set_status completed) (ann_turn [saved_card]) in
  snd (handleToolCall ext "process_quick_checkout" no_input t)
  = Returned ("Quick Checkout:" ++ nl ++ "Payment failed: insufficient funds")
  /\ exists p', profiles (fst (handleToolCall ext "process_quick_checkout" no_input t))
                  !! "u1" = Some p'
                /\ UserProfile.totalOrders p' = 1.
Proof.
  cbv zeta.
  assert (Hb : forall x : PaymentMethod.t, x ∈ [] -> PaymentMethod.isDefault x = false).
  { intros x Hx. apply elem_of_nil in Hx. contradiction. }
  destruct (quick_checkout_on_completed_session
              (demo_externals "failed" (Returned [])) no_input
              (on_session (set_status completed) (ann_turn [saved_card]))
              "u1" "tokn_saved" (ann [saved_card]) [] [] saved_card
              (Charge.mk "chrg_test_1" "failed" (Some "insufficient funds")
                 (Some "https://pay.example/authorize") 100000 "THB")
              eq_refl eq_refl eq_refl eq_refl Hb eq_refl eq_refl eq_refl eq_refl eq_refl
              ltac:(discriminate) ltac:(discriminate))
    as (_ & Hr & p' & Hp' & Ho & _).
  split; [exact Hr|]. exists p'. split; [exact Hp'|exact Ho].
Defined.

(** ** The profile service: one default per kind *)

Lemma filter_unset_methods (l : list PaymentMethod.t) :
  List.filter PaymentMethod.isDefault (map (PaymentMethod.with_isDefault false) l) = [].
Proof. induction l as [|x l IH]; [reflexivity|exact IH]. Qed.

Lemma filter_unset_addresses (l : list SavedAddress.t) :
  List.filter SavedAddress.isDefault (map (SavedAddress.with_isDefault false) l) = [].
Proof. induction l as [|x l IH]; [reflexivity|exact IH]. Qed.

Lemma addPaymentMethod_unfold ext uid params t p :
  profiles t !! uid = Some p ->
  let methodId := "pm_" ++ random_id ext (clock t) in
  let m := PaymentMethod.mk methodId (AddPaymentMethodParams.type params)
             (default false (AddPaymentMethodParams.isDefault params))
             (AddPaymentMethodParams.cardToken params)
             (AddPaymentMethodParams.cardBrand params)
             (AddPaymentMethodParams.cardLastDigits params)
             (AddPaymentMethodParams.cardExpiryMonth params)
             (AddPaymentMethodParams.cardExpiryYear params)
             (AddPaymentMethodParams.cardHolderName params)
             (AddPaymentMethodParams.bankCode params) None (S (clock t)) in
  let p1 := if PaymentMethod.isDefault m
            then UserProfile.with_payment
                   (map (PaymentMethod.with_isDefault false) (UserProfile.paymentMethods p))
                   (Some methodId) p
            else p in
  let p2 := UserProfile.with_payment (UserProfile.paymentMethods p1 ++ [m])
              (UserProfile.defaultPaymentMethodId p1) p1 in
  UserProfileService.addPaymentMethod ext uid params t
  = (on_profiles (insert uid (UserProfile.with_updatedAt (S (S (clock t))) p2))
       (tick (tick (tick t))), Returned m).
Proof.
  intros Hp. cbv zeta.
  unfold UserProfileService.addPaymentMethod, UserProfileService.getProfile,
    bind, gets, now, modify, ret. cbv beta. rewrite Hp. reflexivity.
Qed.

(** What [addPaymentMethod] returns and stores. *)
Lemma addPaymentMethod_result (ext : Externals) (uid : string)
    (params : AddPaymentMethodParams.t) (t : Turn) (p : UserProfile.t) :
  profiles t !! uid = Some p ->
  let t' := fst (UserProfileService.addPaymentMethod ext uid params t) in
  exists m p',
    snd (UserProfileService.addPaymentMethod ext uid params t) = Returned m
    /\ profiles t' !! uid = Some p'
    /\ session t' = session t
    /\ (forall other, other <> uid -> profiles t' !! other = profiles t !! other)
    /\ PaymentMethod.id m = "pm_" ++ random_id ext (clock t)
    /\ map PaymentMethod.id (UserProfile.paymentMethods p')
       = (map PaymentMethod.id (UserProfile.paymentMethods p) ++ [PaymentMethod.id m])%list
    /\ last (UserProfile.paymentMethods p') = Some m
    /\ (AddPaymentMethodParams.isDefault params = Some true ->
        List.filter PaymentMethod.isDefault (UserProfile.paymentMethods p') = [m]
        /\ UserProfile.defaultPaymentMethodId p' = Some (PaymentMethod.id m))
    /\ (AddPaymentMethodParams.isDefault params <> Some true ->
        List.filter PaymentMethod.isDefault (UserProfile.paymentMethods p')
        = List.filter PaymentMethod.isDefault (UserProfile.paymentMethods p)
        /\ UserProfile.defaultPaymentMethodId p' = UserProfile.defaultPaymentMethodId p).
Proof.
  intros Hp. cbv zeta. rewrite (addPaymentMethod_unfold ext uid params t p Hp).
  cbv zeta. cbn [fst snd on_profiles profiles session tick].
  eexists _, _. split; [reflexivity|]. split; [apply lookup_insert_eq|].
  split; [reflexivity|].
  split; [intros other Ho; apply lookup_insert_ne; congruence|].
  split; [reflexivity|].
  destruct (AddPaymentMethodParams.isDefault params) as [[|]|];
    cbn -[random_id]; rewrite ?map_app, ?map_map, ?last_snoc, ?List.filter_app,
      ?filter_unset_methods; cbn -[random_id]; rewrite ?app_nil_r;
    (split; [try reflexivity|]);
    try (rewrite <- (map_ext _ _ (fun x => eq_refl (PaymentMethod.id x)));
         reflexivity);
    (split; [reflexivity|]); split; try discriminate; try congruence;
    intros _; split; reflexivity.
Qed.

(** X13.  [addPaymentMethod] on an existing profile appends the method
    behind the methods already saved, whose ids and order are kept, under the
    id ['pm_'] followed by what the clock and the random generator give.  The
    id is not checked against the saved ones: with the saved ids pairwise
    distinct, the ids stay pairwise distinct exactly when the drawn id is not
    among them.  Added as default, the method is afterwards the only one
    marked as default and [defaultPaymentMethodId] names it; added otherwise,
    the methods marked as default and [defaultPaymentMethodId] are what they
    were.  The session and the other profiles are not touched. *)
Theorem addPaymentMethod_keeps_one_default (ext : Externals) (uid : string)
    (params : AddPaymentMethodParams.t) (t : Turn) (p : UserProfile.t) :
  profiles t !! uid = Some p ->
  let t' := fst (UserProfileService.addPaymentMethod ext uid params t) in
  exists m p',
    snd (UserProfileService.addPaymentMethod ext uid params t) = Returned m
    /\ profiles t' !! uid = Some p'
    /\ session t' = session t
    /\ (forall other, other <> uid -> profiles t' !! other = profiles t !! other)
    /\ PaymentMethod.id m = "pm_" ++ random_id ext (clock t)
    /\ map PaymentMethod.id (UserProfile.paymentMethods p')
       = (map PaymentMethod.id (UserProfile.paymentMethods p) ++ [PaymentMethod.id m])%list
    /\ last (UserProfile.paymentMethods p') = Some m
    /\ (NoDup (map PaymentMethod.id (UserProfile.paymentMethods p)) ->
        (NoDup (map PaymentMethod.id (UserProfile.paymentMethods p'))
         <-> "pm_" ++ random_id ext (clock t)
             ∉ map PaymentMethod.id (UserProfile.paymentMethods p)))
    /\ (AddPaymentMethodParams.isDefault params = Some true ->
        List.filter PaymentMethod.isDefault (UserProfile.paymentMethods p') = [m]
        /\ UserProfile.defaultPaymentMethodId p' = Some (PaymentMethod.id m))
    /\ (AddPaymentMethodParams.isDefault params <> Some true ->
        List.filter PaymentMethod.isDefault (UserProfile.paymentMethods p')
        = List.filter PaymentMethod.isDefault (UserProfile.paymentMethods p)
        /\ UserProfile.defaultPaymentMethodId p' = UserProfile.defaultPaymentMethodId p).
Proof.
  intros Hp. cbv zeta.
  destruct (addPaymentMethod_result ext uid params t p Hp)
    as (m & p' & Hr & Hp' & Hs & Ho & Hid & Hids & Hlast & Hd1 & Hd2).
  exists m, p'. do 7 (split; [assumption|]). split; [|split; assumption].
  intros Hnd. rewrite Hids, Hid, NoDup_app. split.
  - intros (_ & Hdisj & _) Hin. apply (Hdisj _ Hin), list_elem_of_here.
  - intros Hnew. split; [exact Hnd|]. split; [|apply NoDup_singleton].
    intros x Hx Hx'. apply list_elem_of_singleton in Hx'. subst x. contradiction.
Qed.

Lemma addPaymentMethod_keeps_one_default_witness :
  let ext := demo_externals "successful" (Returned []) in
  let params := AddPaymentMethodParams.mk promptpay None None None None None None None
                  (Some true) in
  let t' := fst (UserProfileService.addPaymentMethod ext "u1" params
                   (ann_turn [saved_card])) in
  exists m p', profiles t' !! "u1" = Some p'
               /\ PaymentMethod.id m = "pm_1"
               /\ List.filter PaymentMethod.isDefault (UserProfile.paymentMethods p') = [m]
               /\ map PaymentMethod.id (UserProfile.paymentMethods p') = ["pm_2"; "pm_1"].
Proof.
  cbv zeta.
  destruct (addPaymentMethod_keeps_one_default
              (demo_externals "successful" (Returned [])) "u1"
              (AddPaymentMethodParams.mk promptpay None None None None None None None
                 (Some true))
              (ann_turn [saved_card]) (ann [saved_card]) eq_refl)
    as (m & p' & _ & Hp' & _ & _ & Hid & Hids & _ & _ & Hdef & _).
  exists m, p'. split; [exact Hp'|]. split; [exact Hid|].
  split; [apply Hdef; reflexivity|]. rewrite Hids, Hid. reflexivity.
Defined.

(** The address [addShippingAddress] and [addBillingAddress] build from
    their argument. *)
Lemma addShippingAddress_unfold ext uid params t p :
  profiles t !! uid = Some p ->
  let addressId := "addr_" ++ random_id ext (clock t) in
  let a := SavedAddress.mk addressId (AddAddressParams.label params)
             (default false (AddAddressParams.isDefault params))
             (AddAddressParams.firstName params) (AddAddressParams.lastName params)
             (AddAddressParams.address1 params) (AddAddressParams.address2 params)
             (AddAddressParams.city params) (AddAddressParams.state params)
             (AddAddressParams.postalCode params) (AddAddressParams.country params)
             (AddAddressParams.phone params) in
  let p1 := if SavedAddress.isDefault a
            then UserProfile.with_shipping
                   (map (SavedAddress.with_isDefault false)
                      (UserProfile.shippingAddresses p))
                   (Some addressId) p
            else p in
  let p2 := UserProfile.with_shipping (UserProfile.shippingAddresses p1 ++ [a])
              (UserProfile.defaultShippingAddressId p1) p1 in
  UserProfileService.addShippingAddress ext uid params t
  = (on_profiles (insert uid (UserProfile.with_updatedAt (S (clock t)) p2))
       (tick (tick t)), Returned a).
Proof.
  intros Hp. cbv zeta.
  unfold UserProfileService.addShippingAddress, UserProfileService.getProfile,
    bind, gets, now, modify, ret. cbv beta. rewrite Hp. reflexivity.
Qed.

Lemma addBillingAddress_unfold ext uid params t p :
  profiles t !! uid = Some p ->
  let addressId := "addr_" ++ random_id ext (clock t) in
  let a := SavedAddress.mk addressId (AddAddressParams.label params)
             (default false (AddAddressParams.isDefault params))
             (AddAddressParams.firstName params) (AddAddressParams.lastName params)
             (AddAddressParams.address1 params) (AddAddressParams.address2 params)
             (AddAddressParams.city params) (AddAddressParams.state params)
             (AddAddressParams.postalCode params) (AddAddressParams.country params)
             (AddAddressParams.phone params) in
  let p1 := if SavedAddress.isDefault a
            then UserProfile.with_billing
                   (map (SavedAddress.with_isDefault false)
                      (UserProfile.billingAddresses p))
                   (Some addressId) p
            else p in
  let p2 := UserProfile.with_billing (UserProfile.billingAddresses p1 ++ [a])
              (UserProfile.defaultBillingAddressId p1) p1 in
  UserProfileService.addBillingAddress ext uid params t
  = (on_profiles (insert uid (UserProfile.with_updatedAt (S (clock t)) p2))
       (tick (tick t)), Returned a).
Proof.
  intros Hp. cbv zeta.
  unfold UserProfileService.addBillingAddress, UserProfileService.getProfile,
    bind, gets, now, modify, ret. cbv beta. rewrite Hp. reflexivity.
Qed.

(** X14.  [addShippingAddress] and [addBillingAddress] on an existing profile
    append the address behind those already saved in their own list and leave
    the other list alone.  Added as default, the address is afterwards the
    only one of its list marked as default and the matching preference names
    it; added otherwise, the addresses marked as default are what they
    were. *)
Theorem addAddress_keeps_one_default (ext : Externals) (uid : string)
    (params : AddAddressParams.t) (t : Turn) (p : UserProfile.t) :
  profiles t !! uid = Some p ->
  (exists a p',
      UserProfileService.addShippingAddress ext uid params t
      = (on_profiles (insert uid p') (tick (tick t)), Returned a)
      /\ SavedAddress.id a = "addr_" ++ random_id ext (clock t)
      /\ map SavedAddress.id (UserProfile.shippingAddresses p')
         = (map SavedAddress.id (UserProfile.shippingAddresses p) ++ [SavedAddress.id a])%list
      /\ last (UserProfile.shippingAddresses p') = Some a
      /\ UserProfile.billingAddresses p' = UserProfile.billingAddresses p
      /\ UserProfile.paymentMethods p' = UserProfile.paymentMethods p
      /\ (AddAddressParams.isDefault params = Some true ->
          List.filter SavedAddress.isDefault (UserProfile.shippingAddresses p') = [a]
          /\ UserProfile.defaultShippingAddressId p' = Some (SavedAddress.id a))
      /\ (AddAddressParams.isDefault params <> Some true ->
          List.filter SavedAddress.isDefault (UserProfile.shippingAddresses p')
          = List.filter SavedAddress.isDefault (UserProfile.shippingAddresses p)
          /\ UserProfile.defaultShippingAddressId p'
             = UserProfile.defaultShippingAddressId p))
  /\ (exists a p',
         UserProfileService.addBillingAddress ext uid params t
         = (on_profiles (insert uid p') (tick (tick t)), Returned a)
         /\ SavedAddress.id a = "addr_" ++ random_id ext (clock t)
         /\ map SavedAddress.id (UserProfile.billingAddresses p')
            = (map SavedAddress.id (UserProfile.billingAddresses p)
               ++ [SavedAddress.id a])%list
         /\ last (UserProfile.billingAddresses p') = Some a
         /\ UserProfile.shippingAddresses p' = UserProfile.shippingAddresses p
         /\ UserProfile.paymentMethods p' = UserProfile.paymentMethods p
         /\ (AddAddressParams.isDefault params = Some true ->
             List.filter SavedAddress.isDefault (UserProfile.billingAddresses p') = [a]
             /\ UserProfile.defaultBillingAddressId p' = Some (SavedAddress.id a))
         /\ (AddAddressParams.isDefault params <> Some true ->
             List.filter SavedAddress.isDefault (UserProfile.billingAddresses p')
             = List.filter SavedAddress.isDefault (UserProfile.billingAddresses p)
             /\ UserProfile.defaultBillingAddressId p'
                = UserProfile.defaultBillingAddressId p)).
Proof.
  intros Hp. split.
  - rewrite (addShippingAddress_unfold ext uid params t p Hp). cbv zeta.
    eexists _, _. split; [reflexivity|]. split; [reflexivity|].
    destruct (AddAddressParams.isDefault params) as [[|]|];
      cbn -[random_id]; rewrite ?map_app, ?map_map, ?last_snoc, ?List.filter_app,
        ?filter_unset_addresses; cbn -[random_id]; rewrite ?app_nil_r;
      (split; [try reflexivity|]);
      try (rewrite <- (map_ext _ _ (fun x => eq_refl (SavedAddress.id x)));
           reflexivity);
      repeat (split; [reflexivity|]); split; try discriminate; try congruence;
      intros _; split; reflexivity.
  - rewrite (addBillingAddress_unfold ext uid params t p Hp). cbv zeta.
    eexists _, _. split; [reflexivity|]. split; [reflexivity|].
    destruct (AddAddressParams.isDefault params) as [[|]|];
      cbn -[random_id]; rewrite ?map_app, ?map_map, ?last_snoc, ?List.filter_app,
        ?filter_unset_addresses; cbn -[random_id]; rewrite ?app_nil_r;
      (split; [try reflexivity|]);
      try (rewrite <- (map_ext _ _ (fun x => eq_refl (SavedAddress.id x)));
           reflexivity);
      repeat (split; [reflexivity|]); split; try discriminate; try congruence;
      intros _; split; reflexivity.
Qed.

Lemma addAddress_keeps_one_default_witness :
  let ext := demo_externals "successful" (Returned []) in
  exists a p',
    UserProfileService.addShippingAddress ext "u1" (home_address (Some true))
      (ann_turn [])
    = (on_profiles (insert "u1" p') (tick (tick (ann_turn []))), Returned a)
    /\ List.filter SavedAddress.isDefault (UserProfile.shippingAddresses p') = [a]
    /\ UserProfile.defaultShippingAddressId p' = Some "addr_1".
Proof.
  cbv zeta.
  destruct (proj1 (addAddress_keeps_one_default
                     (demo_externals "successful" (Returned [])) "u1"
                     (home_address (Some true)) (ann_turn []) (ann []) eq_refl))
    as (a & p' & Hr & Hid & _ & _ & _ & _ & Hdef & _).
  exists a, p'. split; [exact Hr|].
  destruct (Hdef eq_refl) as [Hf Hd]. split; [exact Hf|].
  rewrite Hd, Hid. reflexivity.
Defined.

(** ** The profile service: a profile that is not there *)

(** X15.  The four writing methods the checkout agent calls,
    [addShippingAddress], [addBillingAddress], [addPaymentMethod] and
    [recordCheckout], throw 'Profile <id> not found' for an id that is not in
    the store and change nothing; so [save_shipping_address],
    [save_billing_address] and [save_payment_method] on a session whose user
    id has no profile answer with that error and leave the session as it
    was. *)
Theorem writes_to_missing_profile_throw (ext : Externals) (uid : string) (t : Turn) :
  profiles t !! uid = None ->
  let e := "Profile " ++ uid ++ " not found" in
  (forall params, UserProfileService.addShippingAddress ext uid params t = (t, Thrown e))
  /\ (forall params, UserProfileService.addBillingAddress ext uid params t = (t, Thrown e))
  /\ (forall params, UserProfileService.addPaymentMethod ext uid params t = (t, Thrown e))
  /\ (forall amount, UserProfileService.recordCheckout uid amount t = (t, Thrown e))
  /\ (userProfileService ext = true ->
      truthy (userId (session t)) = Some uid ->
      forall name input,
        name = "save_shipping_address" \/ name = "save_billing_address"
        \/ name = "save_payment_method" ->
        handleToolCall ext name input t = (t, Returned ("Error: " ++ e))).
Proof.
  intros Hp. cbv zeta.
  assert (Hs : forall params,
             UserProfileService.addShippingAddress ext uid params t
             = (t, Thrown ("Profile " ++ uid ++ " not found"))).
  { intros params.
    unfold UserProfileService.addShippingAddress, UserProfileService.getProfile,
      bind, gets. cbv beta. rewrite Hp. reflexivity. }
  assert (Hb : forall params,
             UserProfileService.addBillingAddress ext uid params t
             = (t, Thrown ("Profile " ++ uid ++ " not found"))).
  { intros params.
    unfold UserProfileService.addBillingAddress, UserProfileService.getProfile,
      bind, gets. cbv beta. rewrite Hp. reflexivity. }
  assert (Hm : forall params,
             UserProfileService.addPaymentMethod ext uid params t
             = (t, Thrown ("Profile " ++ uid ++ " not found"))).
  { intros params.
    unfold UserProfileService.addPaymentMethod, UserProfileService.getProfile,
      bind, gets. cbv beta. rewrite Hp. reflexivity. }
  split; [exact Hs|]. split; [exact Hb|]. split; [exact Hm|]. split.
  - intros amount.
    unfold UserProfileService.recordCheckout, UserProfileService.getProfile,
      bind, gets. cbv beta. rewrite Hp. reflexivity.
  - intros He Hu name input [->|[->| ->]]; unfold handleToolCall, try_catch.
    + change (dispatch ext "save_shipping_address" input)
        with (saveShippingAddress ext input).
      unfold saveShippingAddress. rewrite He. cbn [negb].
      unfold bind at 1, gets at 1. rewrite Hu. unfold bind at 1. rewrite Hs. reflexivity.
    + change (dispatch ext "save_billing_address" input)
        with (saveBillingAddress ext input).
      unfold saveBillingAddress. rewrite He. cbn [negb].
      unfold bind at 1, gets at 1. rewrite Hu. unfold bind at 1. rewrite Hb. reflexivity.
    + change (dispatch ext "save_payment_method" input)
        with (savePaymentMethod ext input).
      unfold savePaymentMethod. rewrite He. cbn [negb].
      unfold bind at 1, gets at 1. rewrite Hu. unfold bind at 1. rewrite Hm. reflexivity.
Qed.

Lemma writes_to_missing_profile_throw_witness :
  let ext := demo_externals "successful" (Returned []) in
  let t := turn_of (with_userId "u404" widget_session) in
  handleToolCall ext "save_payment_method" no_input t
  = (t, Returned "Error: Profile u404 not found").
Proof.
  cbv zeta.
  apply (writes_to_missing_profile_throw (demo_externals "successful" (Returned []))
           "u404" (turn_of (with_userId "u404" widget_session)) eq_refl);
    [reflexivity|reflexivity|auto].
Defined.

(** ** The profile service: order statistics *)

(** X16.  Recording a series of checkouts on an existing profile always
    succeeds and adds up: the number of orders grows by the length of the
    series and the money spent by the sum of its amounts, whatever their
    signs; the saved methods and addresses, the session and the other profiles
    are not touched. *)
Theorem recordCheckout_accumulates (uid : string) (amounts : list Z) (t : Turn)
    (p : UserProfile.t) :
  profiles t !! uid = Some p ->
  let t' := fst (record_all uid amounts t) in
  snd (record_all uid amounts t) = Returned tt
  /\ session t' = session t
  /\ (forall other, other <> uid -> profiles t' !! other = profiles t !! other)
  /\ exists p', profiles t' !! uid = Some p'
                /\ UserProfile.totalOrders p'
                   = UserProfile.totalOrders p + Z.of_nat (length amounts)
                /\ UserProfile.totalSpent p' = UserProfile.totalSpent p + sum_amounts amounts
                /\ UserProfile.paymentMethods p' = UserProfile.paymentMethods p
                /\ UserProfile.shippingAddresses p' = UserProfile.shippingAddresses p
                /\ UserProfile.billingAddresses p' = UserProfile.billingAddresses p.
Proof.
  revert t p. induction amounts as [|amount rest IH]; intros t p Hp; cbv zeta.
  - cbn. split; [reflexivity|]. split; [reflexivity|]. split; [reflexivity|].
    exists p. rewrite !Z.add_0_r. repeat split. exact Hp.
  - cbn [record_all]. unfold bind.
    rewrite (recordCheckout_unfold uid amount t p Hp).
    match goal with |- context [record_all uid rest ?t1] =>
      destruct (IH t1 _ (lookup_insert_eq _ _ _)) as (Hr & Hs & Ho & p' & Hp' & Hn & Ha & Hm & Hsa & Hba)
    end.
    cbv zeta in *. split; [exact Hr|]. split; [rewrite Hs; reflexivity|].
    split.
    + intros other Hne. rewrite (Ho other Hne). cbn. apply lookup_insert_ne. congruence.
    + exists p'. split; [exact Hp'|]. cbn in Hn, Ha, Hm, Hsa, Hba.
      rewrite Hn, Ha, Hm, Hsa, Hba. cbn [length sum_amounts fold_right].
      fold (sum_amounts rest). repeat split; lia.
Qed.

Lemma recordCheckout_accumulates_witness :
  let t' := fst (record_all "u1" [100000; 29900; 500] (ann_turn [saved_card])) in
  exists p', profiles t' !! "u1" = Some p'
             /\ UserProfile.totalOrders p' = 3
             /\ UserProfile.totalSpent p' = 130400.
Proof.
  cbv zeta.
  destruct (recordCheckout_accumulates "u1" [100000; 29900; 500]
              (ann_turn [saved_card]) (ann [saved_card]) eq_refl)
    as (_ & _ & _ & p' & Hp' & Hn & Ha & _).
  exists p'. split; [exact Hp'|]. split; [exact Hn|exact Ha].
Defined.

(** ** The profile service: which entry is the default *)

Lemma default_choice {A} (f : A -> bool) (l : list A) :
  let r := UserProfileService.or_obj (List.find f l) (l !! 0%nat) in
  (r = None <-> l = [])
  /\ forall x, r = Some x ->
               x ∈ l /\ ((exists y, y ∈ l /\ f y = true) -> f x = true).
Proof.
  cbv zeta. unfold UserProfileService.or_obj.
  destruct (List.find f l) as [d|] eqn:Hf.
  - apply find_some in Hf as [Hin Hd]. apply list_elem_of_In in Hin.
    split.
    + split; [discriminate|]. intros ->. apply elem_of_nil in Hin. contradiction.
    + intros x Hx. injection Hx as <-. auto.
  - split.
    + destruct l; cbn; split; congruence.
    + intros x Hx. split; [eapply list_elem_of_lookup_2, Hx|].
      intros (y & Hy & Hfy). apply list_elem_of_In in Hy.
      pose proof (find_none f l Hf y Hy). congruence.
Qed.

(** X17.  [getDefaultPaymentMethod], [getDefaultShippingAddress] and
    [getDefaultBillingAddress] read without writing.  Each answers [null]
    exactly when the profile is missing or has no entry of that kind;
    otherwise it answers an entry the profile holds, and one that is marked as
    default whenever any entry of that kind is. *)
Theorem default_getters_choose_saved_entries (uid : string) (t : Turn) :
  (exists r,
      UserProfileService.getDefaultPaymentMethod uid t = (t, Returned r)
      /\ (r = None <->
          profiles t !! uid = None
          \/ exists p, profiles t !! uid = Some p /\ UserProfile.paymentMethods p = [])
      /\ forall m, r = Some m ->
           exists p, profiles t !! uid = Some p
                     /\ m ∈ UserProfile.paymentMethods p
                     /\ ((exists y, y ∈ UserProfile.paymentMethods p
                                    /\ PaymentMethod.isDefault y = true) ->
                         PaymentMethod.isDefault m = true))
  /\ (exists r,
         UserProfileService.getDefaultShippingAddress uid t = (t, Returned r)
         /\ (r = None <->
             profiles t !! uid = None
             \/ exists p, profiles t !! uid = Some p
                          /\ UserProfile.shippingAddresses p = [])
         /\ forall a, r = Some a ->
              exists p, profiles t !! uid = Some p
                        /\ a ∈ UserProfile.shippingAddresses p
                        /\ ((exists y, y ∈ UserProfile.shippingAddresses p
                                       /\ SavedAddress.isDefault y = true) ->
                            SavedAddress.isDefault a = true))
  /\ (exists r,
         UserProfileService.getDefaultBillingAddress uid t = (t, Returned r)
         /\ (r = None <->
             profiles t !! uid = None
             \/ exists p, profiles t !! uid = Some p
                          /\ UserProfile.billingAddresses p = [])
         /\ forall a, r = Some a ->
              exists p, profiles t !! uid = Some p
                        /\ a ∈ UserProfile.billingAddresses p
                        /\ ((exists y, y ∈ UserProfile.billingAddresses p
                                       /\ SavedAddress.isDefault y = true) ->
                            SavedAddress.isDefault a = true)).
Proof.
  unfold UserProfileService.getDefaultPaymentMethod,
    UserProfileService.getDefaultShippingAddress,
    UserProfileService.getDefaultBillingAddress, UserProfileService.getProfile,
    bind, gets, ret. cbv beta.
  destruct (profiles t !! uid) as [p|] eqn:Hp.
  - split; [|split].
    + destruct (default_choice PaymentMethod.isDefault (UserProfile.paymentMethods p))
        as [Hnone Hsome].
      eexists. split; [reflexivity|]. split.
      * rewrite Hnone. split; [intros H; right; eauto|].
        intros [H|(p0 & H0 & H)]; congruence.
      * intros m Hm. exists p. split; [reflexivity|]. apply (Hsome m Hm).
    + destruct (default_choice SavedAddress.isDefault (UserProfile.shippingAddresses p))
        as [Hnone Hsome].
      eexists. split; [reflexivity|]. split.
      * rewrite Hnone. split; [intros H; right; eauto|].
        intros [H|(p0 & H0 & H)]; congruence.
      * intros m Hm. exists p. split; [reflexivity|]. apply (Hsome m Hm).
    + destruct (default_choice SavedAddress.isDefault (UserProfile.billingAddresses p))
        as [Hnone Hsome].
      eexists. split; [reflexivity|]. split.
      * rewrite Hnone. split; [intros H; right; eauto|].
        intros [H|(p0 & H0 & H)]; congruence.
      * intros m Hm. exists p. split; [reflexivity|]. apply (Hsome m Hm).
  - repeat split; eexists; (split; [reflexivity|]);
      (split; [split; auto|discriminate]).
Qed.

Lemma default_getters_choose_saved_entries_witness :
  let t := ann_turn [promptpay_method; saved_card] in
  exists r, UserProfileService.getDefaultPaymentMethod "u1" t = (t, Returned r)
            /\ r = Some saved_card.
Proof.
  cbv zeta.
  destruct (proj1 (default_getters_choose_saved_entries "u1"
                     (ann_turn [promptpay_method; saved_card])))
    as (r & Hr & _ & _).
  exists r. split; [exact Hr|].
  vm_compute in Hr. injection Hr as <-. reflexivity.
Defined.

(** ** Saving a payment method, then asking for the default *)

Lemma find_app_none (l : list PaymentMethod.t) (m : PaymentMethod.t) :
  PaymentMethod.isDefault m = false ->
  List.find PaymentMethod.isDefault (l ++ [m])%list = List.find PaymentMethod.isDefault l.
Proof.
  intros Hm. induction l as [|x l IH]; cbn.
  - rewrite Hm. reflexivity.
  - destruct (PaymentMethod.isDefault x); [reflexivity|exact IH].
Qed.

Lemma find_unset_then (l : list PaymentMethod.t) (m : PaymentMethod.t) :
  PaymentMethod.isDefault m = true ->
  List.find PaymentMethod.isDefault
    (map (PaymentMethod.with_isDefault false) l ++ [m])%list = Some m.
Proof.
  intros Hm. induction l as [|x l IH]; cbn; [rewrite Hm; reflexivity|exact IH].
Qed.

(** X18.  [save_payment_method] on a session whose user has a profile saves
    the method with the type, token and bank code of the request and writes
    its id to [session.paymentMethodId].  Saved as default, it is what
    [getDefaultPaymentMethod] answers next; saved otherwise, the answer of
    [getDefaultPaymentMethod] is the one it gave before, or the new method
    when it had none to give. *)
Theorem save_payment_method_then_default (ext : Externals) (input : ToolInput) (t : Turn)
    (uid : string) (p : UserProfile.t) :
  userProfileService ext = true ->
  truthy (userId (session t)) = Some uid ->
  profiles t !! uid = Some p ->
  let t' := fst (handleToolCall ext "save_payment_method" input t) in
  exists m,
    snd (handleToolCall ext "save_payment_method" input t)
    = Returned ("Payment method saved successfully! "
                ++ (if is_default input then "(Set as default)" else EmptyString)
                ++ nl ++ "Payment Method ID: " ++ PaymentMethod.id m)
    /\ session t' = set_paymentMethodId (Some (PaymentMethod.id m)) (session t)
    /\ PaymentMethod.type m = in_type input
    /\ PaymentMethod.cardToken m = card_token input
    /\ PaymentMethod.bankCode m = bank_code input
    /\ PaymentMethod.isDefault m = is_default input
    /\ (is_default input = true ->
        UserProfileService.getDefaultPaymentMethod uid t' = (t', Returned (Some m)))
    /\ (is_default input = false ->
        forall before,
          UserProfileService.getDefaultPaymentMethod uid t = (t, Returned before) ->
          UserProfileService.getDefaultPaymentMethod uid t'
          = (t', Returned (Some (default m before)))).
Proof.
  intros He Hu Hp. cbv zeta.
  destruct (handleToolCall ext "save_payment_method" input t) as [t' r] eqn:Hh.
  unfold handleToolCall, try_catch in Hh.
  change (dispatch ext "save_payment_method" input)
    with (savePaymentMethod ext input) in Hh.
  unfold savePaymentMethod in Hh. rewrite He in Hh. cbn [negb] in Hh.
  unfold bind at 1, gets at 1 in Hh. rewrite Hu in Hh. unfold bind at 1 in Hh.
  rewrite (addPaymentMethod_unfold ext uid _ t p Hp) in Hh. cbv zeta in Hh.
  unfold bind, modify, ret in Hh. rewrite orb_false_r in Hh.
  cbn [AddPaymentMethodParams.isDefault AddPaymentMethodParams.type
       AddPaymentMethodParams.cardToken AddPaymentMethodParams.bankCode
       default PaymentMethod.isDefault PaymentMethod.id] in Hh.
  injection Hh as <- <-.
  exists (PaymentMethod.mk ("pm_" ++ random_id ext (clock t)) (in_type input)
            (is_default input) (card_token input) (card_brand input)
            (card_last_digits input) (card_expiry_month input) (card_expiry_year input)
            (card_holder_name input) (bank_code input) None (S (clock t))).
  split; [reflexivity|]. split; [reflexivity|].
  cbn [fst PaymentMethod.type PaymentMethod.cardToken PaymentMethod.bankCode
       PaymentMethod.isDefault].
  split; [reflexivity|]. split; [reflexivity|]. split; [reflexivity|].
  split; [reflexivity|].
  split.
  - intros Hd. rewrite getDefaultPaymentMethod_unfold.
    cbn [profiles on_session on_profiles tick]. rewrite lookup_insert_eq, Hd.
    cbn -[random_id]. rewrite find_unset_then by reflexivity. reflexivity.
  - intros Hd before Hb. rewrite getDefaultPaymentMethod_unfold, Hp in Hb.
    injection Hb as <-. rewrite getDefaultPaymentMethod_unfold.
    cbn [profiles on_session on_profiles tick]. rewrite lookup_insert_eq, Hd.
    cbn -[random_id]. rewrite find_app_none by reflexivity.
    destruct (List.find PaymentMethod.isDefault (UserProfile.paymentMethods p));
      [reflexivity|].
    destruct (UserProfile.paymentMethods p); reflexivity.
Qed.

Lemma save_payment_method_then_default_witness :
  let ext := demo_externals "successful" (Returned []) in
  let t := ann_turn [saved_card] in
  let t' := fst (handleToolCall ext "save_payment_method" no_input t) in
  UserProfileService.getDefaultPaymentMethod "u1" t' = (t', Returned (Some saved_card)).
Proof.
  cbv zeta.
  destruct (save_payment_method_then_default (demo_externals "successful" (Returned []))
              no_input (ann_turn [saved_card]) "u1" (ann [saved_card])
              eq_refl eq_refl eq_refl) as (m & _ & _ & _ & _ & _ & _ & _ & Hkeep).
  exact (Hkeep eq_refl (Some saved_card) eq_refl).
Defined.

(** ** The profile service: deleting and updating saved entries *)

Lemma list_find_first {A} (P : A -> Prop) `{forall x, Decision (P x)}
    (l1 l2 : list A) (x : A) :
  P x -> (forall y, y ∈ l1 -> ~ P y) ->
  list_find P (l1 ++ x :: l2)%list = Some (length l1, x).
Proof.
  intros Hx. induction l1 as [|y l1 IH]; intros Hl; cbn.
  - rewrite decide_True by exact Hx. reflexivity.
  - rewrite decide_False by (apply Hl, list_elem_of_here).
    rewrite IH; [reflexivity|]. intros z Hz. apply Hl, list_elem_of_further, Hz.
Qed.

Lemma list_find_nowhere {A} (P : A -> Prop) `{forall x, Decision (P x)} (l : list A) :
  (forall y, y ∈ l -> ~ P y) -> list_find P l = None.
Proof. intros Hl. apply list_find_None, Forall_forall. exact Hl. Qed.

Lemma delete_at_middle {A} (l1 l2 : list A) (x : A) :
  delete (length l1) (l1 ++ x :: l2)%list = (l1 ++ l2)%list.
Proof. induction l1 as [|y l1 IH]; cbn; [reflexivity|]. f_equal. exact IH. Qed.

Lemma insert_at_middle {A} (n : nat) (l1 l2 : list A) (x y : A) :
  n = length l1 -> <[n := y]> (l1 ++ x :: l2)%list = (l1 ++ y :: l2)%list.
Proof.
  intros ->. induction l1 as [|z l1 IH]; cbn; [reflexivity|]. f_equal. exact IH.
Qed.

(** Handing the default mark to the head of what is left. *)
Section Promotion.
Context {A : Type} (is_default : A -> bool) (mark : bool -> A -> A).
Hypothesis is_default_mark : forall b a, is_default (mark b a) = b.

Lemma at_most_one_default_after_removal (l1 l2 : list A) (m : A) :
  (length (List.filter is_default (l1 ++ m :: l2)) <= 1)%nat ->
  (length (List.filter is_default
             (if is_default m
              then match (l1 ++ l2)%list with
                   | first :: rest => mark true first :: rest
                   | [] => []
                   end
              else (l1 ++ l2)%list)) <= 1)%nat.
Proof.
  rewrite List.filter_app. cbn [List.filter].
  destruct (is_default m) eqn:Hm.
  - rewrite length_app. cbn [length]. intros Hle.
    assert (H1 : List.filter is_default l1 = [])
      by (destruct (List.filter is_default l1); [reflexivity|cbn in Hle; lia]).
    assert (H2 : List.filter is_default l2 = [])
      by (destruct (List.filter is_default l2); [reflexivity|cbn in Hle; lia]).
    assert (H12 : List.filter is_default (l1 ++ l2) = [])
      by (rewrite List.filter_app, H1, H2; reflexivity).
    destruct (l1 ++ l2)%list as [|first rest]; [cbn; lia|].
    cbn [List.filter] in H12 |- *. rewrite is_default_mark.
    destruct (is_default first); [discriminate|]. rewrite H12. cbn. lia.
  - rewrite List.filter_app. exact (fun H => H).
Qed.

End Promotion.

Lemma deletePaymentMethod_unfold uid mid t p index m :
  profiles t !! uid = Some p ->
  list_find (fun x => PaymentMethod.id x = mid) (UserProfile.paymentMethods p)
    = Some (index, m) ->
  let remaining := delete index (UserProfile.paymentMethods p) in
  let p1 := UserProfile.with_payment remaining (UserProfile.defaultPaymentMethodId p) p in
  let p2 := match PaymentMethod.isDefault m, remaining with
            | true, first :: rest =>
              UserProfile.with_payment (PaymentMethod.with_isDefault true first :: rest)
                (Some (PaymentMethod.id first)) p1
            | _, _ => p1
            end in
  ProfileEdits.deletePaymentMethod uid mid t
  = (on_profiles (insert uid (UserProfile.with_updatedAt (clock t) p2)) (tick t),
     Returned true).
Proof.
  intros Hp Hf. cbv zeta.
  unfold ProfileEdits.deletePaymentMethod, UserProfileService.getProfile,
    bind, gets, now, modify, ret. cbv beta. rewrite Hp, Hf. reflexivity.
Qed.

(** X19.  [deletePaymentMethod] on an existing profile: for an id no saved
    method has it returns [false] and changes nothing.  Otherwise it removes
    the first method with that id and nothing else, keeping the order of the
    rest.  If the removed method was the default and methods remain, the first
    of them is marked as default and [defaultPaymentMethodId] names it; if
    none remains, [defaultPaymentMethodId] is left naming the removed method.
    A profile with at most one method marked as default stays so. *)
Theorem deletePaymentMethod_effect (uid mid : string) (t : Turn) (p : UserProfile.t) :
  profiles t !! uid = Some p ->
  ((forall x, x ∈ UserProfile.paymentMethods p -> PaymentMethod.id x <> mid) ->
   ProfileEdits.deletePaymentMethod uid mid t = (t, Returned false))
  /\ (forall l1 l2 m,
         UserProfile.paymentMethods p = (l1 ++ m :: l2)%list ->
         PaymentMethod.id m = mid ->
         (forall x, x ∈ l1 -> PaymentMethod.id x <> mid) ->
         exists p',
           ProfileEdits.deletePaymentMethod uid mid t
           = (on_profiles (insert uid p') (tick t), Returned true)
           /\ map PaymentMethod.id (UserProfile.paymentMethods p')
              = map PaymentMethod.id (l1 ++ l2)%list
           /\ UserProfile.shippingAddresses p' = UserProfile.shippingAddresses p
           /\ UserProfile.billingAddresses p' = UserProfile.billingAddresses p
           /\ (PaymentMethod.isDefault m = false ->
               UserProfile.paymentMethods p' = (l1 ++ l2)%list
               /\ UserProfile.defaultPaymentMethodId p'
                  = UserProfile.defaultPaymentMethodId p)
           /\ (PaymentMethod.isDefault m = true ->
               forall first rest, (l1 ++ l2)%list = first :: rest ->
               UserProfile.paymentMethods p'
               = PaymentMethod.with_isDefault true first :: rest
               /\ UserProfile.defaultPaymentMethodId p' = Some (PaymentMethod.id first))
           /\ ((l1 ++ l2)%list = [] ->
               UserProfile.paymentMethods p' = []
               /\ UserProfile.defaultPaymentMethodId p'
                  = UserProfile.defaultPaymentMethodId p)
           /\ ((length (List.filter PaymentMethod.isDefault
                          (UserProfile.paymentMethods p)) <= 1)%nat ->
               (length (List.filter PaymentMethod.isDefault
                          (UserProfile.paymentMethods p')) <= 1)%nat)).
Proof.
  intros Hp. split.
  - intros Hn.
    unfold ProfileEdits.deletePaymentMethod, UserProfileService.getProfile,
      bind, gets, ret. cbv beta. rewrite Hp.
    rewrite (list_find_nowhere _ _ Hn). reflexivity.
  - intros l1 l2 m Hl Hid Hl1.
    assert (Hf : list_find (fun x => PaymentMethod.id x = mid)
                   (UserProfile.paymentMethods p) = Some (length l1, m)).
    { rewrite Hl. apply list_find_first; assumption. }
    rewrite (deletePaymentMethod_unfold uid mid t p _ m Hp Hf). cbv zeta.
    rewrite Hl, delete_at_middle.
    pose proof (at_most_one_default_after_removal PaymentMethod.isDefault
                  PaymentMethod.with_isDefault (fun b a => eq_refl) l1 l2 m) as Hinv.
    eexists. split; [reflexivity|].
    destruct (PaymentMethod.isDefault m) eqn:Hm;
      destruct (l1 ++ l2)%list as [|first rest] eqn:Hrest; cbn;
      repeat split; try discriminate; try congruence; try exact Hinv.
    all: intros; congruence.
Qed.

Lemma deletePaymentMethod_effect_witness :
  let t := ann_turn [saved_card; promptpay_method] in
  exists p',
    ProfileEdits.deletePaymentMethod "u1" "pm_2" t
    = (on_profiles (insert "u1" p') (tick t), Returned true)
    /\ UserProfile.paymentMethods p' = [PaymentMethod.with_isDefault true promptpay_method]
    /\ UserProfile.defaultPaymentMethodId p' = Some "pm_1".
Proof.
  cbv zeta.
  destruct (proj2 (deletePaymentMethod_effect "u1" "pm_2"
                     (ann_turn [saved_card; promptpay_method])
                     (ann [saved_card; promptpay_method]) eq_refl)
              [] [promptpay_method] saved_card eq_refl eq_refl)
    as (p' & Hr & _ & _ & _ & _ & Hdef & _).
  { intros x Hx. apply elem_of_nil in Hx. contradiction. }
  exists p'. split; [exact Hr|].
  exact (Hdef eq_refl promptpay_method [] eq_refl).
Defined.

Lemma deleteAddress_unfold uid aid type t p index a :
  profiles t !! uid = Some p ->
  list_find (fun x => SavedAddress.id x = aid) (ProfileEdits.addresses type p)
    = Some (index, a) ->
  let remaining := delete index (ProfileEdits.addresses type p) in
  let p1 := ProfileEdits.with_addresses type remaining
              (ProfileEdits.defaultAddressId type p) p in
  let p2 := match SavedAddress.isDefault a, remaining with
            | true, first :: rest =>
              ProfileEdits.with_addresses type
                (SavedAddress.with_isDefault true first :: rest)
                (Some (SavedAddress.id first)) p1
            | _, _ => p1
            end in
  ProfileEdits.deleteAddress uid aid type t
  = (on_profiles (insert uid (UserProfile.with_updatedAt (clock t) p2)) (tick t),
     Returned true).
Proof.
  intros Hp Hf. cbv zeta.
  unfold ProfileEdits.deleteAddress, UserProfileService.getProfile,
    bind, gets, now, modify, ret. cbv beta. rewrite Hp, Hf. reflexivity.
Qed.

(** X20.  [deleteAddress] on an existing profile works on the list its
    [type] names and never on the other list or on the payment methods.  For
    an id no address of that list has it returns [false] and changes nothing;
    otherwise it removes the first address with that id, hands the default
    mark and the matching preference to the first address left when the
    removed one was the default, and keeps a list with at most one default
    that way. *)
Theorem deleteAddress_effect (uid aid : string) (type : AddressType) (t : Turn)
    (p : UserProfile.t) :
  profiles t !! uid = Some p ->
  ((forall x, x ∈ ProfileEdits.addresses type p -> SavedAddress.id x <> aid) ->
   ProfileEdits.deleteAddress uid aid type t = (t, Returned false))
  /\ (forall l1 l2 a,
         ProfileEdits.addresses type p = (l1 ++ a :: l2)%list ->
         SavedAddress.id a = aid ->
         (forall x, x ∈ l1 -> SavedAddress.id x <> aid) ->
         exists p',
           ProfileEdits.deleteAddress uid aid type t
           = (on_profiles (insert uid p') (tick t), Returned true)
           /\ map SavedAddress.id (ProfileEdits.addresses type p')
              = map SavedAddress.id (l1 ++ l2)%list
           /\ UserProfile.paymentMethods p' = UserProfile.paymentMethods p
           /\ (forall other, other <> type ->
                 ProfileEdits.addresses other p' = ProfileEdits.addresses other p
                 /\ ProfileEdits.defaultAddressId other p'
                    = ProfileEdits.defaultAddressId other p)
           /\ (SavedAddress.isDefault a = false ->
               ProfileEdits.addresses type p' = (l1 ++ l2)%list
               /\ ProfileEdits.defaultAddressId type p'
                  = ProfileEdits.defaultAddressId type p)
           /\ (SavedAddress.isDefault a = true ->
               forall first rest, (l1 ++ l2)%list = first :: rest ->
               ProfileEdits.addresses type p'
               = SavedAddress.with_isDefault true first :: rest
               /\ ProfileEdits.defaultAddressId type p' = Some (SavedAddress.id first))
           /\ ((length (List.filter SavedAddress.isDefault
                          (ProfileEdits.addresses type p)) <= 1)%nat ->
               (length (List.filter SavedAddress.isDefault
                          (ProfileEdits.addresses type p')) <= 1)%nat)).
Proof.
  intros Hp. split.
  - intros Hn.
    unfold ProfileEdits.deleteAddress, UserProfileService.getProfile,
      bind, gets, ret. cbv beta. rewrite Hp.
    rewrite (list_find_nowhere _ _ Hn). reflexivity.
  - intros l1 l2 a Hl Hid Hl1.
    assert (Hf : list_find (fun x => SavedAddress.id x = aid)
                   (ProfileEdits.addresses type p) = Some (length l1, a)).
    { rewrite Hl. apply list_find_first; assumption. }
    rewrite (deleteAddress_unfold uid aid type t p _ a Hp Hf). cbv zeta.
    rewrite Hl, delete_at_middle.
    pose proof (at_most_one_default_after_removal SavedAddress.isDefault
                  SavedAddress.with_isDefault (fun b a => eq_refl) l1 l2 a) as Hinv.
    eexists. split; [reflexivity|].
    destruct type; destruct (SavedAddress.isDefault a) eqn:Ha;
      destruct (l1 ++ l2)%list as [|first rest] eqn:Hrest; cbn;
      repeat split; try discriminate; try congruence; try exact Hinv;
      try (intros; congruence);
      try (destruct other; [congruence|reflexivity]);
      try (destruct other; [reflexivity|congruence]).
Qed.

Lemma deleteAddress_effect_witness :
  exists p',
    ProfileEdits.deleteAddress "u1" "addr_1" shipping addresses_turn
    = (on_profiles (insert "u1" p') (tick addresses_turn), Returned true)
    /\ UserProfile.shippingAddresses p' = [saved_address "addr_2" true]
    /\ UserProfile.defaultShippingAddressId p' = Some "addr_2"
    /\ UserProfile.billingAddresses p' = [saved_address "addr_3" true].
Proof.
  destruct (proj2 (deleteAddress_effect "u1" "addr_1" shipping addresses_turn
                     ann_with_addresses eq_refl)
              [] [saved_address "addr_2" false] (saved_address "addr_1" true)
              eq_refl eq_refl)
    as (p' & Hr & _ & _ & Hother & _ & Hdef & _).
  { intros x Hx. apply elem_of_nil in Hx. contradiction. }
  exists p'. split; [exact Hr|].
  destruct (Hdef eq_refl (saved_address "addr_2" false) [] eq_refl) as [Hl Hd].
  split; [exact Hl|]. split; [exact Hd|].
  exact (proj1 (Hother billing ltac:(discriminate))).
Defined.

Lemma updatePaymentMethod_unfold uid mid updates t p index m :
  profiles t !! uid = Some p ->
  list_find (fun x => PaymentMethod.id x = mid) (UserProfile.paymentMethods p)
    = Some (index, m) ->
  let setDefault := default false (PaymentMethodUpdates.isDefault updates) in
  let p1 := if setDefault
            then UserProfile.with_payment
                   (map (PaymentMethod.with_isDefault false) (UserProfile.paymentMethods p))
                   (Some mid) p
            else p in
  let m' := PaymentMethodUpdates.assign
              (if setDefault then PaymentMethod.with_isDefault false m else m) updates in
  let p2 := UserProfile.with_payment (<[index := m']> (UserProfile.paymentMethods p1))
              (UserProfile.defaultPaymentMethodId p1) p1 in
  ProfileEdits.updatePaymentMethod uid mid updates t
  = (on_profiles (insert uid (UserProfile.with_updatedAt (clock t) p2)) (tick t),
     Returned m').
Proof.
  intros Hp Hf. cbv zeta.
  unfold ProfileEdits.updatePaymentMethod, UserProfileService.getProfile,
    bind, gets, now, modify, ret. cbv beta. rewrite Hp, Hf. reflexivity.
Qed.

(** X21.  [updatePaymentMethod] on an existing profile throws 'Payment
    method <id> not found' for an id no saved method has, and changes nothing.
    Otherwise it rewrites the first method with that id and no other, keeps
    every id and the order, and returns the rewritten method.  When the update
    sets [isDefault] to true, that method is afterwards the only one marked as
    default and [defaultPaymentMethodId] names it; when the update does not
    mention [isDefault], the default marks and [defaultPaymentMethodId] are
    what they were. *)
Theorem updatePaymentMethod_effect (uid mid : string) (updates : PaymentMethodUpdates.t)
    (t : Turn) (p : UserProfile.t) :
  profiles t !! uid = Some p ->
  ((forall x, x ∈ UserProfile.paymentMethods p -> PaymentMethod.id x <> mid) ->
   ProfileEdits.updatePaymentMethod uid mid updates t
   = (t, Thrown ("Payment method " ++ mid ++ " not found")))
  /\ (forall l1 l2 m,
         UserProfile.paymentMethods p = (l1 ++ m :: l2)%list ->
         PaymentMethod.id m = mid ->
         (forall x, x ∈ l1 -> PaymentMethod.id x <> mid) ->
         exists m' p',
           ProfileEdits.updatePaymentMethod uid mid updates t
           = (on_profiles (insert uid p') (tick t), Returned m')
           /\ PaymentMethod.id m' = mid
           /\ map PaymentMethod.id (UserProfile.paymentMethods p')
              = map PaymentMethod.id (UserProfile.paymentMethods p)
           /\ UserProfile.paymentMethods p' !! length l1 = Some m'
           /\ (PaymentMethodUpdates.isDefault updates = Some true ->
               List.filter PaymentMethod.isDefault (UserProfile.paymentMethods p') = [m']
               /\ UserProfile.defaultPaymentMethodId p' = Some mid)
           /\ (PaymentMethodUpdates.isDefault updates = None ->
               UserProfile.paymentMethods p'
               = (l1 ++ PaymentMethodUpdates.assign m updates :: l2)%list
               /\ PaymentMethod.isDefault m' = PaymentMethod.isDefault m
               /\ UserProfile.defaultPaymentMethodId p'
                  = UserProfile.defaultPaymentMethodId p)).
Proof.
  intros Hp. split.
  - intros Hn.
    unfold ProfileEdits.updatePaymentMethod, UserProfileService.getProfile,
      bind, gets, throw. cbv beta. rewrite Hp.
    rewrite (list_find_nowhere _ _ Hn). reflexivity.
  - intros l1 l2 m Hl Hid Hl1.
    assert (Hf : list_find (fun x => PaymentMethod.id x = mid)
                   (UserProfile.paymentMethods p) = Some (length l1, m)).
    { rewrite Hl. apply list_find_first; assumption. }
    rewrite (updatePaymentMethod_unfold uid mid updates t p _ m Hp Hf). cbv zeta.
    eexists _, _. split; [reflexivity|].
    rewrite Hl.
    destruct (PaymentMethodUpdates.isDefault updates) as [[|]|] eqn:Hd;
      cbn [default from_option id UserProfile.with_payment UserProfile.with_updatedAt
           UserProfile.paymentMethods UserProfile.defaultPaymentMethodId];
      rewrite ?Hl.
    + rewrite map_app. cbn [map].
      rewrite insert_at_middle by (rewrite length_map; reflexivity).
      split; [exact Hid|]. split.
      { rewrite !map_app. cbn [map]. rewrite !map_map. cbn. rewrite Hid. reflexivity. }
      split; [apply list_lookup_middle; rewrite length_map; reflexivity|].
      split; [|discriminate]. intros _. split; [|reflexivity].
      rewrite List.filter_app. cbn [List.filter].
      unfold PaymentMethodUpdates.assign at 1. rewrite Hd.
      cbn [default from_option id PaymentMethod.isDefault].
      rewrite !filter_unset_methods. reflexivity.
    + rewrite insert_at_middle by reflexivity.
      split; [exact Hid|]. split.
      { rewrite !map_app. cbn [map]. cbn. rewrite Hid. reflexivity. }
      split; [apply list_lookup_middle; reflexivity|].
      split; discriminate.
    + rewrite insert_at_middle by reflexivity.
      split; [exact Hid|]. split.
      { rewrite !map_app. cbn [map]. cbn. rewrite Hid. reflexivity. }
      split; [apply list_lookup_middle; reflexivity|].
      split; [discriminate|]. intros _. split; [reflexivity|]. split; [|reflexivity].
      unfold PaymentMethodUpdates.assign. rewrite Hd. reflexivity.
Qed.

Lemma updatePaymentMethod_effect_witness :
  let t := ann_turn [saved_card; promptpay_method] in
  exists m' p',
    ProfileEdits.updatePaymentMethod "u1" "pm_1" make_default t
    = (on_profiles (insert "u1" p') (tick t), Returned m')
    /\ List.filter PaymentMethod.isDefault (UserProfile.paymentMethods p') = [m']
    /\ PaymentMethod.id m' = "pm_1"
    /\ UserProfile.defaultPaymentMethodId p' = Some "pm_1".
Proof.
  cbv zeta.
  destruct (proj2 (updatePaymentMethod_effect "u1" "pm_1" make_default
                     (ann_turn [saved_card; promptpay_method])
                     (ann [saved_card; promptpay_method]) eq_refl)
              [saved_card] [] promptpay_method eq_refl eq_refl)
    as (m' & p' & Hr & Hid & _ & _ & Hdef & _).
  { intros x Hx. apply list_elem_of_singleton in Hx. subst x. discriminate. }
  exists m', p'. split; [exact Hr|].
  destruct (Hdef eq_refl) as [Hf Hd]. split; [exact Hf|]. split; [exact Hid|exact Hd].
Defined.

(** ** The profile directory: profiles and their e-mail index *)

Lemma truthy_nonempty (s : string) : s <> EmptyString -> truthy (Some s) = Some s.
Proof. intros H. unfold truthy. rewrite decide_False by exact H. reflexivity. Qed.

Lemma user_id_nonempty (suffix : string) : "user_" ++ suffix <> EmptyString.
Proof. discriminate. Qed.

Lemma createProfile_unfold ext params st :
  emailIndex st !! CreateProfileParams.email params = None ->
  let profileId := "user_" ++ random_id ext (store_clock st) in
  let profile :=
    UserProfile.mk profileId (CreateProfileParams.email params)
      (CreateProfileParams.firstName params) (CreateProfileParams.lastName params)
      (CreateProfileParams.phone params) [] [] [] None None None (S (store_clock st))
      None 0 0 in
  ProfileDirectory.createProfile ext params st
  = ({| store_profiles := <[profileId := profile]> (store_profiles st);
        emailIndex := <[CreateProfileParams.email params := profileId]> (emailIndex st);
        store_clock := S (S (store_clock st)) |}, Returned profile).
Proof.
  intros Hfree. cbv zeta.
  unfold ProfileDirectory.createProfile, bind, gets, modify, ret, ProfileDirectory.now.
  cbv beta. rewrite Hfree. reflexivity.
Qed.

(** X22.  [createProfile] refuses an e-mail address the index already holds:
    it throws 'Profile with email <e-mail> already exists' and changes
    nothing.  For a new address it returns a profile with the given name and
    address, no saved entries and no orders, and stores it so that both
    [getProfile] by its id and [getProfileByEmail] by its address return that
    profile; the other index entries and the other profiles stay as they
    were. *)
Theorem createProfile_round_trip (ext : Externals) (params : CreateProfileParams.t)
    (st : ProfileStore) :
  (forall holder,
      emailIndex st !! CreateProfileParams.email params = Some holder ->
      ProfileDirectory.createProfile ext params st
      = (st, Thrown ("Profile with email " ++ CreateProfileParams.email params
                     ++ " already exists")))
  /\ (emailIndex st !! CreateProfileParams.email params = None ->
      exists st' p,
        ProfileDirectory.createProfile ext params st = (st', Returned p)
        /\ UserProfile.id p = "user_" ++ random_id ext (store_clock st)
        /\ UserProfile.email p = CreateProfileParams.email params
        /\ UserProfile.firstName p = CreateProfileParams.firstName params
        /\ UserProfile.lastName p = CreateProfileParams.lastName params
        /\ UserProfile.phone p = CreateProfileParams.phone params
        /\ UserProfile.paymentMethods p = []
        /\ UserProfile.shippingAddresses p = []
        /\ UserProfile.billingAddresses p = []
        /\ UserProfile.totalOrders p = 0
        /\ UserProfile.totalSpent p = 0
        /\ ProfileDirectory.getProfile (UserProfile.id p) st' = (st', Returned (Some p))
        /\ ProfileDirectory.getProfileByEmail (CreateProfileParams.email params) st'
           = (st', Returned (Some p))
        /\ (forall other, other <> CreateProfileParams.email params ->
              emailIndex st' !! other = emailIndex st !! other)
        /\ (forall other, other <> UserProfile.id p ->
              store_profiles st' !! other = store_profiles st !! other)).
Proof.
  split.
  - intros holder Hh.
    unfold ProfileDirectory.createProfile, bind, gets, throw. cbv beta.
    rewrite Hh. reflexivity.
  - intros Hfree. rewrite (createProfile_unfold ext params st Hfree). cbv zeta.
    eexists _, _. split; [reflexivity|].
    cbn [UserProfile.id UserProfile.email UserProfile.firstName UserProfile.lastName
         UserProfile.phone UserProfile.paymentMethods UserProfile.shippingAddresses
         UserProfile.billingAddresses UserProfile.totalOrders UserProfile.totalSpent].
    do 10 (split; [reflexivity|]).
    split; [|split; [|split]].
    + unfold ProfileDirectory.getProfile, gets. cbn [store_profiles].
      rewrite lookup_insert_eq. reflexivity.
    + unfold ProfileDirectory.getProfileByEmail, bind, gets, ret. cbn [emailIndex].
      rewrite lookup_insert_eq, (truthy_nonempty _ (user_id_nonempty _)).
      cbn [store_profiles]. rewrite lookup_insert_eq. reflexivity.
    + intros other Ho. cbn [emailIndex]. apply lookup_insert_ne. congruence.
    + intros other Ho. cbn [store_profiles]. apply lookup_insert_ne. congruence.
Qed.

Lemma createProfile_round_trip_witness :
  let ext := demo_externals "successful" (Returned []) in
  ProfileDirectory.createProfile ext ann_params ann_store
  = (ann_store, Thrown "Profile with email ann@example.com already exists")
  /\ exists st' p,
       ProfileDirectory.createProfile ext ann_params empty_store = (st', Returned p)
       /\ ProfileDirectory.getProfileByEmail "ann@example.com" st'
          = (st', Returned (Some p)).
Proof.
  cbv zeta.
  destruct (createProfile_round_trip (demo_externals "successful" (Returned []))
              ann_params ann_store) as [Htaken _].
  destruct (createProfile_round_trip (demo_externals "successful" (Returned []))
              ann_params empty_store) as [_ Hnew].
  split; [exact (Htaken "user_0" eq_refl)|].
  destruct (Hnew eq_refl) as (st' & p & Hc & _ & _ & _ & _ & _ & _ & _ & _ & _ & _ & _ & Hg & _).
  exists st', p. split; [exact Hc|exact Hg].
Defined.


Lemma deleteProfile_unfold uid st p :
  store_profiles st !! uid = Some p ->
  ProfileDirectory.deleteProfile uid st
  = ({| store_profiles := delete uid (store_profiles st);
        emailIndex := delete (UserProfile.email p) (emailIndex st);
        store_clock := store_clock st |}, Returned true).
Proof.
  intros Hp.
  unfold ProfileDirectory.deleteProfile, ProfileDirectory.getProfile, bind, gets,
    modify, ret. cbv beta. rewrite Hp. reflexivity.
Qed.

(** X23.  The e-mail index stays sound, that is, every entry names a stored
    profile with that very address, under [createProfile] when the id it
    draws is not in use, and under [deleteProfile]; whether they return or
    throw.  On a sound index [getProfileByEmail] returns only profiles that
    have the address asked for. *)
Theorem email_index_stays_sound (ext : Externals) (st : ProfileStore) :
  index_sound st ->
  (forall params,
      store_profiles st !! ("user_" ++ random_id ext (store_clock st)) = None ->
      index_sound (fst (ProfileDirectory.createProfile ext params st)))
  /\ (forall uid, index_sound (fst (ProfileDirectory.deleteProfile uid st)))
  /\ (forall email p,
         ProfileDirectory.getProfileByEmail email st = (st, Returned (Some p)) ->
         UserProfile.email p = email).
Proof.
  intros Hs. split; [|split].
  - intros params Hfresh.
    destruct (emailIndex st !! CreateProfileParams.email params) as [holder|] eqn:Hi.
    + unfold ProfileDirectory.createProfile, bind, gets, throw. cbv beta.
      rewrite Hi. exact Hs.
    + rewrite (createProfile_unfold ext params st Hi). cbv zeta.
      intros email uid. cbn [fst emailIndex store_profiles]. intros He.
      destruct (decide (email = CreateProfileParams.email params)) as [->|Hne].
      * rewrite lookup_insert_eq in He. injection He as <-.
        rewrite lookup_insert_eq. eexists. split; reflexivity.
      * rewrite lookup_insert_ne in He by congruence.
        destruct (Hs email uid He) as (p & Hp & Hpe).
        exists p. split; [|exact Hpe].
        rewrite lookup_insert_ne; [exact Hp|]. intros <-. congruence.
  - intros uid.
    destruct (store_profiles st !! uid) as [p|] eqn:Hp.
    + rewrite (deleteProfile_unfold uid st p Hp).
      intros email u. cbn [fst emailIndex store_profiles]. intros He.
      destruct (decide (email = UserProfile.email p)) as [->|Hne].
      * rewrite lookup_delete_eq in He. discriminate.
      * rewrite lookup_delete_ne in He by congruence.
        destruct (Hs email u He) as (q & Hq & Hqe).
        exists q. split; [|exact Hqe].
        rewrite lookup_delete_ne; [exact Hq|]. intros <-. congruence.
    + unfold ProfileDirectory.deleteProfile, ProfileDirectory.getProfile, bind, gets.
      cbv beta. rewrite Hp. exact Hs.
  - intros email p.
    unfold ProfileDirectory.getProfileByEmail, bind, gets, ret. cbv beta.
    destruct (emailIndex st !! email) as [u|] eqn:Hi; [|cbn; discriminate].
    unfold truthy. destruct (decide (u = EmptyString)); [discriminate|].
    intros Hg. injection Hg as Hg.
    destruct (Hs email u Hi) as (q & Hq & Hqe). congruence.
Qed.

Lemma email_index_stays_sound_witness :
  let ext := demo_externals "successful" (Returned []) in
  index_sound ann_store
  /\ index_sound (fst (ProfileDirectory.createProfile ext
                         (CreateProfileParams.mk "bob@example.com" "Bob" "Ray" None)
                         ann_store))
  /\ index_sound (fst (ProfileDirectory.deleteProfile "user_0" ann_store)).
Proof.
  cbv zeta.
  assert (Hs : index_sound ann_store).
  { intros email uid He. cbn in He.
    apply lookup_singleton_Some in He as [<- <-].
    eexists. split; reflexivity. }
  destruct (email_index_stays_sound (demo_externals "successful" (Returned []))
              ann_store Hs) as (Hc & Hd & _).
  split; [exact Hs|]. split; [apply Hc; reflexivity|apply Hd].
Defined.

(** X24.  [deleteProfile] returns [false] for an id that is not stored and
    changes nothing.  For a stored profile it returns [true]; afterwards
    [getProfile] by that id and [getProfileByEmail] by the profile's address
    both return [null], and the other profiles are as they were. *)
Theorem deleteProfile_forgets_the_profile (uid : string) (st : ProfileStore) :
  (store_profiles st !! uid = None ->
   ProfileDirectory.deleteProfile uid st = (st, Returned false))
  /\ (forall p,
         store_profiles st !! uid = Some p ->
         exists st',
           ProfileDirectory.deleteProfile uid st = (st', Returned true)
           /\ ProfileDirectory.getProfile uid st' = (st', Returned None)
           /\ ProfileDirectory.getProfileByEmail (UserProfile.email p) st'
              = (st', Returned None)
           /\ (forall other, other <> uid ->
                 store_profiles st' !! other = store_profiles st !! other)).
Proof.
  split.
  - intros Hp.
    unfold ProfileDirectory.deleteProfile, ProfileDirectory.getProfile, bind, gets, ret.
    cbv beta. rewrite Hp. reflexivity.
  - intros p Hp. rewrite (deleteProfile_unfold uid st p Hp).
    eexists. split; [reflexivity|]. split; [|split].
    + unfold ProfileDirectory.getProfile, gets. cbn [store_profiles].
      rewrite lookup_delete_eq. reflexivity.
    + unfold ProfileDirectory.getProfileByEmail, bind, gets, ret. cbn [emailIndex].
      rewrite lookup_delete_eq. reflexivity.
    + intros other Ho. cbn [store_profiles]. apply lookup_delete_ne. congruence.
Qed.

Lemma deleteProfile_forgets_the_profile_witness :
  exists st',
    ProfileDirectory.deleteProfile "user_0" ann_store = (st', Returned true)
    /\ ProfileDirectory.getProfileByEmail "ann@example.com" st' = (st', Returned None).
Proof.
  destruct (proj2 (deleteProfile_forgets_the_profile "user_0" ann_store) _ eq_refl)
    as (st' & Hd & _ & Hg & _).
  exists st'. split; [exact Hd|exact Hg].
Defined.




(** ** The platform manager *)

Lemma platform_id_nonempty (platformType : string) (identifier : option string) :
  supported_platform platformType -> or_else identifier platformType <> EmptyString.
Proof.
  intros Hs. unfold or_else, truthy.
  destruct identifier as [i|].
  - destruct (decide (i = EmptyString)); [|assumption].
    destruct Hs as [->|[->| ->]]; discriminate.
  - destruct Hs as [->|[->| ->]]; discriminate.
Qed.

Lemma supported_platform_dec (platformType : string) :
  supported_platform platformType \/ ~ supported_platform platformType.
Proof.
  unfold supported_platform.
  destruct (decide (platformType = "shopify")); [auto|].
  destruct (decide (platformType = "woocommerce")); [auto|].
  destruct (decide (platformType = "magento")); [auto|].
  right. intros [H|[H|H]]; contradiction.
Qed.

Lemma registerPlatform_unfold initialize platformType identifier r platform :
  supported_platform platformType ->
  initialize platformType = Returned platform ->
  let platformId := or_else identifier platformType in
  PlatformManager.registerPlatform initialize platformType identifier r
  = ({| platforms := <[platformId := platform]> (platforms r);
        activePlatform := match truthy (activePlatform r) with
                          | None => Some platformId
                          | Some _ => activePlatform r
                          end |}, Returned tt).
Proof.
  intros Hs Hi. cbv zeta. unfold PlatformManager.registerPlatform.
  assert (Hb : String.eqb platformType "shopify" || String.eqb platformType "woocommerce"
               || String.eqb platformType "magento" = true)
    by (destruct Hs as [->|[->| ->]]; reflexivity).
  rewrite Hb. unfold bind, gets, modify, ret. rewrite Hi. cbn.
  destruct (truthy (activePlatform r)); reflexivity.
Qed.

Lemma registerPlatform_unsupported initialize platformType identifier r :
  ~ supported_platform platformType ->
  PlatformManager.registerPlatform initialize platformType identifier r
  = (r, Thrown ("Unsupported platform type: " ++ platformType)).
Proof.
  intros Hn. unfold PlatformManager.registerPlatform.
  destruct (String.eqb_spec platformType "shopify") as [->|_];
    [exfalso; apply Hn; left; reflexivity|].
  destruct (String.eqb_spec platformType "woocommerce") as [->|_];
    [exfalso; apply Hn; right; left; reflexivity|].
  destruct (String.eqb_spec platformType "magento") as [->|_];
    [exfalso; apply Hn; right; right; reflexivity|].
  reflexivity.
Qed.

Lemma registerPlatform_failed initialize platformType identifier r e :
  initialize platformType = Thrown e ->
  snd (PlatformManager.registerPlatform initialize platformType identifier r) <> Returned tt
  /\ fst (PlatformManager.registerPlatform initialize platformType identifier r) = r.
Proof.
  intros Hi. unfold PlatformManager.registerPlatform.
  destruct (_ || _); [|split; [discriminate|reflexivity]].
  unfold bind. rewrite Hi. split; [discriminate|reflexivity].
Qed.

(** X26.  The manager keeps its active platform registered: if no platform
    sits under the empty id and the active platform, when there is one, is
    registered, the same holds after [registerPlatform], [setActivePlatform]
    and [removePlatform], whether they return or throw.  In such a state
    [getActivePlatform] returns the registered active platform, or throws 'No
    active platform set' when there is none; it never reports the active
    platform as not found. *)
Theorem active_platform_stays_registered
    (initialize : string -> outcome EcommercePlatformManager) (r : PlatformRegistry) :
  registry_ok r ->
  (forall platformType identifier,
      registry_ok (fst (PlatformManager.registerPlatform initialize platformType
                          identifier r)))
  /\ (forall platformId, registry_ok (fst (PlatformManager.setActivePlatform platformId r)))
  /\ (forall platformId, registry_ok (fst (PlatformManager.removePlatform platformId r)))
  /\ (PlatformManager.getActivePlatform r = (r, Thrown "No active platform set")
      /\ activePlatform r = None
      \/ exists platformId platform,
           activePlatform r = Some platformId
           /\ platforms r !! platformId = Some platform
           /\ PlatformManager.getActivePlatform r = (r, Returned platform)).
Proof.
  intros [Hempty Hactive]. split; [|split; [|split]].
  - intros platformType identifier.
    destruct (supported_platform_dec platformType) as [Hs|Hn];
      [|rewrite registerPlatform_unsupported by exact Hn; split; assumption].
    destruct (initialize platformType) as [platform|e] eqn:Hi;
      [|rewrite (proj2 (registerPlatform_failed initialize platformType identifier r e Hi));
        split; assumption].
    rewrite (registerPlatform_unfold initialize platformType identifier r platform Hs Hi).
    cbv zeta. cbn [fst]. pose proof (platform_id_nonempty platformType identifier Hs) as Hne.
    split; cbn [platforms activePlatform].
    + rewrite lookup_insert_ne by exact Hne. exact Hempty.
    + intros pid Hp.
      destruct (decide (pid = or_else identifier platformType)) as [->|Hd];
        [rewrite lookup_insert_eq; eauto|].
      rewrite lookup_insert_ne by congruence. apply Hactive.
      destruct (truthy (activePlatform r)); [exact Hp|congruence].
  - intros platformId. unfold PlatformManager.setActivePlatform, bind, gets, modify.
    cbv beta. destruct (platforms r !! platformId) as [platform|] eqn:Hk;
      [|split; assumption].
    cbn. split; [exact Hempty|]. intros pid Hp. injection Hp as <-.
    cbn. rewrite Hk. eauto.
  - intros platformId. unfold PlatformManager.removePlatform, bind, gets, modify, ret.
    cbv beta.
    assert (Hdel : delete platformId (platforms r) !! EmptyString = None).
    { destruct (decide (platformId = EmptyString)) as [->|Hp];
        [apply lookup_delete_eq|rewrite lookup_delete_ne by congruence; exact Hempty]. }
    destruct (decide (activePlatform r = Some platformId)) as [Ha|Hna];
      cbn [fst]; unfold PlatformManager.on_platforms, PlatformManager.set_active;
      (split; cbn [platforms activePlatform]; [exact Hdel|]).
    + discriminate.
    + intros pid Hp. rewrite lookup_delete_ne by congruence. apply Hactive, Hp.
  - unfold PlatformManager.getActivePlatform, bind, gets, throw, ret. cbv beta.
    destruct (activePlatform r) as [pid|] eqn:Ha; [|left; split; reflexivity].
    right. destruct (Hactive pid eq_refl) as [platform Hp].
    assert (Hne : pid <> EmptyString) by (intros ->; congruence).
    exists pid, platform. split; [reflexivity|]. split; [exact Hp|].
    rewrite (truthy_nonempty _ Hne), Hp. reflexivity.
Qed.

Lemma active_platform_stays_registered_witness :
  registry_ok empty_registry
  /\ registry_ok (fst (PlatformManager.registerPlatform demo_initialize "shopify" None
                         empty_registry))
  /\ PlatformManager.getActivePlatform empty_registry
     = (empty_registry, Thrown "No active platform set").
Proof.
  assert (Hok : registry_ok empty_registry).
  { split; [reflexivity|]. intros pid Hp. discriminate Hp. }
  destruct (active_platform_stays_registered demo_initialize empty_registry Hok)
    as (Hreg & _ & _ & Hget).
  split; [exact Hok|]. split; [apply Hreg|].
  destruct Hget as [[Hthrown _]|(pid & platform & Ha & _)];
    [exact Hthrown|discriminate Ha].
Defined.

(** X27.  Which platform is active.  [registerPlatform] throws 'Unsupported
    platform type: <type>' for a type other than shopify, woocommerce and
    magento, and changes nothing then or when the platform fails to
    initialise.  A platform that initialises is stored under the identifier
    given, or under its type when there is none, and becomes the active
    platform only if none is active.  [setActivePlatform] throws 'Platform <id>
    not found' for an id that is not registered and leaves the active platform
    alone. *)
Theorem registration_and_activation
    (initialize : string -> outcome EcommercePlatformManager) (r : PlatformRegistry)
    (platformType : string) (identifier : option string) :
  (~ supported_platform platformType ->
   PlatformManager.registerPlatform initialize platformType identifier r
   = (r, Thrown ("Unsupported platform type: " ++ platformType)))
  /\ (forall e, supported_platform platformType ->
                initialize platformType = Thrown e ->
                PlatformManager.registerPlatform initialize platformType identifier r
                = (r, Thrown e))
  /\ (forall platform,
         supported_platform platformType ->
         initialize platformType = Returned platform ->
         let platformId := or_else identifier platformType in
         let r' := fst (PlatformManager.registerPlatform initialize platformType
                          identifier r) in
         platforms r' = <[platformId := platform]> (platforms r)
         /\ (activePlatform r = None -> activePlatform r' = Some platformId)
         /\ (forall current, activePlatform r = Some current -> current <> EmptyString ->
                             activePlatform r' = Some current))
  /\ (forall platformId,
         platforms r !! platformId = None ->
         PlatformManager.setActivePlatform platformId r
         = (r, Thrown ("Platform " ++ platformId ++ " not found")))
  /\ (forall platformId,
         is_Some (platforms r !! platformId) ->
         PlatformManager.setActivePlatform platformId r
         = ({| platforms := platforms r; activePlatform := Some platformId |},
            Returned tt)).
Proof.
  split; [apply registerPlatform_unsupported|].
  split.
  { intros e Hs Hi. unfold PlatformManager.registerPlatform.
    assert (Hb : String.eqb platformType "shopify" || String.eqb platformType "woocommerce"
                 || String.eqb platformType "magento" = true)
      by (destruct Hs as [->|[->| ->]]; reflexivity).
    rewrite Hb. unfold bind. rewrite Hi. reflexivity. }
  split.
  { intros platform Hs Hi. cbv zeta.
    rewrite (registerPlatform_unfold initialize platformType identifier r platform Hs Hi).
    cbv zeta. cbn [fst platforms activePlatform]. split; [reflexivity|]. split.
    - intros ->. reflexivity.
    - intros current Ha Hne. rewrite Ha, (truthy_nonempty _ Hne). reflexivity. }
  split.
  - intros platformId Hk. unfold PlatformManager.setActivePlatform, bind, gets, throw.
    cbv beta. rewrite Hk. reflexivity.
  - intros platformId [platform Hk].
    unfold PlatformManager.setActivePlatform, bind, gets, modify. cbv beta.
    rewrite Hk. reflexivity.
Qed.

Lemma registration_and_activation_witness :
  let r1 := fst (PlatformManager.registerPlatform demo_initialize "shopify" None
                   empty_registry) in
  let r2 := fst (PlatformManager.registerPlatform demo_initialize "magento"
                   (Some "eu-store") r1) in
  activePlatform r1 = Some "shopify"
  /\ activePlatform r2 = Some "shopify"
  /\ PlatformManager.registerPlatform demo_initialize "etsy" None r2
     = (r2, Thrown "Unsupported platform type: etsy").
Proof.
  cbv zeta.
  pose (r1 := fst (PlatformManager.registerPlatform demo_initialize "shopify" None
                     empty_registry)).
  pose (r2 := fst (PlatformManager.registerPlatform demo_initialize "magento"
                     (Some "eu-store") r1)).
  destruct (registration_and_activation demo_initialize empty_registry "shopify" None)
    as (_ & _ & H1 & _).
  destruct (H1 demo_platform ltac:(left; reflexivity) eq_refl) as (_ & Hfirst & _).
  destruct (registration_and_activation demo_initialize r1 "magento" (Some "eu-store"))
    as (_ & _ & H2 & _).
  destruct (H2 demo_platform ltac:(right; right; reflexivity) eq_refl) as (_ & _ & Hkeep).
  destruct (registration_and_activation demo_initialize r2 "etsy" None) as (Hbad & _).
  fold r1 r2. split; [exact (Hfirst eq_refl)|].
  split; [apply Hkeep; [exact (Hfirst eq_refl)|discriminate]|].
  apply Hbad. intros [H|[H|H]]; discriminate H.
Defined.

(** X28.  Removing the active platform leaves the manager without an active
    platform even when other platforms remain registered: until one is
    activated or registered, [getActivePlatform] throws 'No active platform
    set'.  Removing any other platform keeps the active one.  [removePlatform]
    returns whether the id was registered, and afterwards it is not. *)
Theorem removal_and_activation (r : PlatformRegistry) (platformId : string) :
  let r' := fst (PlatformManager.removePlatform platformId r) in
  snd (PlatformManager.removePlatform platformId r)
  = Returned (bool_decide (is_Some (platforms r !! platformId)))
  /\ platforms r' = delete platformId (platforms r)
  /\ platforms r' !! platformId = None
  /\ (activePlatform r = Some platformId ->
      activePlatform r' = None
      /\ PlatformManager.getActivePlatform r' = (r', Thrown "No active platform set"))
  /\ (activePlatform r <> Some platformId -> activePlatform r' = activePlatform r).
Proof.
  cbv zeta. unfold PlatformManager.removePlatform, bind, gets, modify, ret. cbv beta.
  destruct (decide (activePlatform r = Some platformId)) as [Ha|Hna];
    cbn [fst snd]; unfold PlatformManager.on_platforms, PlatformManager.set_active;
    cbn [platforms activePlatform];
    (split; [reflexivity|]); (split; [reflexivity|]);
    (split; [apply lookup_delete_eq|]); split; try (intros; congruence);
    intros _; try split; reflexivity.
Qed.

Lemma removal_and_activation_witness :
  let r1 := fst (PlatformManager.registerPlatform demo_initialize "shopify" None
                   empty_registry) in
  let r2 := fst (PlatformManager.registerPlatform demo_initialize "magento" None r1) in
  let r3 := fst (PlatformManager.removePlatform "shopify" r2) in
  is_Some (platforms r3 !! "magento")
  /\ PlatformManager.getActivePlatform r3 = (r3, Thrown "No active platform set").
Proof.
  cbv zeta.
  match goal with
  | |- is_Some (platforms (fst (PlatformManager.removePlatform _ ?r2)) !! _) /\ _ =>
      destruct (removal_and_activation r2 "shopify") as (_ & _ & _ & Hactive & _)
  end.
  split; [vm_compute; eauto|].
  apply Hactive. vm_compute. reflexivity.
Defined.

(** X29.  Through a manager with no active platform, which is how the server
    starts, the platform tools of the checkout agent fail softly:
    [search_product_by_sku], [add_product_to_cart] and [list_products] answer
    'Error: No active platform set' and leave the session and the profile
    store as they were. *)
Theorem platform_tools_without_active_platform (ext : Externals) (r : PlatformRegistry)
    (name : string) (input : ToolInput) (t : Turn) :
  ecommercePlatformManager ext = Some (PlatformManager.manager r) ->
  activePlatform r = None ->
  is_platform_tool name = true ->
  handleToolCall ext name input t = (tick t, Returned "Error: No active platform set").
Proof.
  unfold is_platform_tool. intros Hm Ha H.
  assert (Hg : snd (PlatformManager.getActivePlatform r) = Thrown "No active platform set").
  { unfold PlatformManager.getActivePlatform, bind, gets, throw. cbv beta.
    rewrite Ha. reflexivity. }
  repeat (apply orb_true_iff in H; destruct H as [H|H]);
    apply String.eqb_eq in H; subst name; unfold handleToolCall, try_catch.
  - change (dispatch ext "search_product_by_sku" input)
      with (searchProductBySku ext (sku input)).
    unfold searchProductBySku. rewrite Hm. unfold bind, call.
    cbn [searchProductBySku_ PlatformManager.manager]. rewrite Hg. reflexivity.
  - change (dispatch ext "add_product_to_cart" input)
      with (addProductToCart ext (product_id input) (num_or (in_quantity input) 1)).
    unfold addProductToCart. rewrite Hm. unfold bind, call.
    cbn [getProduct PlatformManager.manager]. rewrite Hg. reflexivity.
  - change (dispatch ext "list_products" input)
      with (listProducts ext (num_or (limit input) 10) (search input)).
    unfold listProducts. rewrite Hm. unfold bind, call.
    cbn [listProducts_ PlatformManager.manager]. rewrite Hg. reflexivity.
Qed.

Lemma platform_tools_without_active_platform_witness :
  let ext := {| anthropic_messages_create := fun _ _ => Returned [];
                createCharge := fun _ _ => Thrown "Failed to create charge: offline";
                createSource := fun _ _ => Thrown "Failed to create source: offline";
                getCharge := fun _ _ => Thrown "Failed to retrieve charge: offline";
                ecommercePlatformManager := Some (PlatformManager.manager empty_registry);
                userProfileService := true;
                random_id := fun _ => "x" |} in
  handleToolCall ext "add_product_to_cart" (with_product "p1" 1 no_input)
    (turn_of widget_session)
  = (tick (turn_of widget_session), Returned "Error: No active platform set").
Proof.
  cbv zeta.
  apply (platform_tools_without_active_platform _ empty_registry); reflexivity.
Defined.
